(** * Non-profit analyzer: Form 990 ingestion and read-side analytics

    A shallow embedding of the backend of the analyzer:

    - [Js]: the fragment of JavaScript values and built-ins the code relies on;
    - [DataHelper]: [helpers/dataHelper.js];
    - [XmlParser]: the [Form990Parser] class of [helpers/xmlParser.js];
    - [Models]: the three Sequelize models and the ORM calls made on them;
    - [DatasetService]: [helpers/datasetService.js];
    - [CompaniesController]: [controller/companiesController.js];
    - [DatasetController], [Middleware], [DatasetRoutes]: the import
      endpoint and its guards ([controller/datasetController.js],
      [middleware/auth.js], [middleware/apiKeyAuth.js],
      [middleware/rateLimiter.js], [routers/datasetRoutes.js]);
    - [UserModel], [UsersRoutes], [AuthController]: the accounts
      ([models/User.js], [routers/usersRoutes.js],
      [controller/authController.js]);
    - [FrontendMiddleware], [DeltaDisplay]: the routing middleware and the
      display of a change in the front end;
    - [Scenarios], [Notions], [MoreNotions]: sample documents, databases and
      worlds, and the predicates the properties are stated with;
    - [NumFacts], [AnalyticsFacts], [MapperFacts], [PersistenceFacts],
      [IngestionFacts], [ExtractorProps], [MapperProps], [PersistenceProps],
      [IngestionProps], [ControllerProps], [ListingProps], [ImportProps],
      [GuardProps], [FrontendProps], [DisplayProps], [AccountProps]: the
      properties.

    Numbers are exact rationals extended with NaN and the two infinities:
    rounding to binary64 and the negative zero are not represented.  A
    numeral read from text is an infinity from the overflow threshold of
    binary64 on and 0 below its underflow threshold; arithmetic is exact.
    Strings are the bytes of their UTF-8 encoding.  Removals from the file
    system are taken to succeed.  A numeric column is read back as a number
    or [null], as the front end's [Company] interface declares it.  Logging
    and wall-clock measurements are left out.  What the repository takes
    from elsewhere (the token and password helpers, [URL],
    [Intl.NumberFormat], the database) is a parameter of the definitions
    that use it. *)

From Stdlib Require Import ZArith QArith Qround Qabs List String Ascii Bool Lia Lqa.
From Stdlib Require Import Numbers.DecimalString DecimalPos DecimalZ.
From Stdlib Require Qcanon.
Import ListNotations.

Local Open Scope list_scope.
Local Open Scope string_scope.

(* ================================================================== *)
(** ** JavaScript values and built-ins *)
(* ================================================================== *)

Module Js.

(** *** Numbers *)

Inductive num : Type :=
| Fin (q : Q)
| PInf
| NInf
| NaN.

Definition nneg (a : num) : num :=
  match a with
  | Fin q => Fin (- q)
  | PInf => NInf
  | NInf => PInf
  | NaN => NaN
  end.

Definition nadd (a b : num) : num :=
  match a, b with
  | NaN, _ | _, NaN => NaN
  | Fin x, Fin y => Fin (x + y)
  | PInf, NInf | NInf, PInf => NaN
  | PInf, _ | _, PInf => PInf
  | NInf, _ | _, NInf => NInf
  end.

(** [a - b] *)
Definition nsub (a b : num) : num := nadd a (nneg b).

(** [a * b] *)
Definition nmul (a b : num) : num :=
  match a, b with
  | NaN, _ | _, NaN => NaN
  | Fin x, Fin y => Fin (x * y)
  | Fin x, PInf | PInf, Fin x =>
      match (x ?= 0)%Q with Eq => NaN | Gt => PInf | Lt => NInf end
  | Fin x, NInf | NInf, Fin x =>
      match (x ?= 0)%Q with Eq => NaN | Gt => NInf | Lt => PInf end
  | PInf, PInf | NInf, NInf => PInf
  | PInf, NInf | NInf, PInf => NInf
  end.

(** [a / b] *)
Definition ndiv (a b : num) : num :=
  match a, b with
  | NaN, _ | _, NaN => NaN
  | Fin x, Fin y =>
      if Qeq_bool y 0
      then match (x ?= 0)%Q with Eq => NaN | Gt => PInf | Lt => NInf end
      else Fin (x / y)
  | Fin _, (PInf | NInf) => Fin 0
  | PInf, Fin y => if Qle_bool 0 y then PInf else NInf
  | NInf, Fin y => if Qle_bool 0 y then NInf else PInf
  | _, _ => NaN
  end.

(** [a < b]; false as soon as one side is NaN. *)
Definition nlt (a b : num) : bool :=
  match a, b with
  | NaN, _ | _, NaN => false
  | Fin x, Fin y => negb (Qle_bool y x)
  | NInf, NInf | PInf, _ => false
  | NInf, _ => true
  | Fin _, PInf => true
  | Fin _, NInf => false
  end.

(** [a <= b]; false as soon as one side is NaN. *)
Definition nle (a b : num) : bool :=
  match a, b with
  | NaN, _ | _, NaN => false
  | Fin x, Fin y => Qle_bool x y
  | NInf, _ | _, PInf => true
  | PInf, _ => false
  | Fin _, NInf => false
  end.

(** [a > b] and [a >= b] *)
Definition ngt (a b : num) : bool := nlt b a.
Definition nge (a b : num) : bool := nle b a.

(** [a === b] on two numbers. *)
Definition neq (a b : num) : bool :=
  match a, b with
  | Fin x, Fin y => Qeq_bool x y
  | PInf, PInf | NInf, NInf => true
  | _, _ => false
  end.

(** [Math.abs] *)
Definition nabs (a : num) : num :=
  match a with
  | Fin q => Fin (Qabs q)
  | PInf | NInf => PInf
  | NaN => NaN
  end.

(** [isNaN] on a number. *)
Definition isNaN (a : num) : bool :=
  match a with NaN => true | _ => false end.

(** Truthiness of a number: everything but 0 and NaN. *)
Definition num_truthy (a : num) : bool :=
  match a with
  | Fin q => negb (Qeq_bool q 0)
  | PInf | NInf => true
  | NaN => false
  end.

Definition of_Z (z : Z) : num := Fin (inject_Z z).

(** The Number value of a rational, rounding apart: from [2^1024 - 2^970]
    on, half way between the largest binary64 number and [2^1024], it is an
    infinity, and up to [2^-1075], half the smallest one, it is 0. *)
Definition overflow_bound : Z := (2 ^ 1024 - 2 ^ 970)%Z.

Definition underflow_bound : Q := 1 # (2 ^ 1075).

Definition number_value (q : Q) : num :=
  if Qle_bool (inject_Z overflow_bound) (Qabs q)
  then (if Qle_bool 0 q then PInf else NInf)
  else if Qle_bool (Qabs q) underflow_bound then Fin 0
  else Fin q.

(** *** Characters and strings

    A string is the sequence of the bytes of its UTF-8 encoding. *)

Definition is_digit (c : ascii) : bool :=
  let n := nat_of_ascii c in (48 <=? n)%nat && (n <=? 57)%nat.

(** The ASCII members of the WhiteSpace and LineTerminator productions. *)
Definition is_space (c : ascii) : bool :=
  let n := nat_of_ascii c in
  (n =? 32)%nat || ((9 <=? n)%nat && (n <=? 13)%nat).

(** The first byte of the other members: U+00A0 is C2 A0; U+1680 is
    E1 9A 80; U+2000 to U+200A, U+2028, U+2029 and U+202F are E2 80 followed
    by 80 to 8A, A8, A9 and AF; U+205F is E2 81 9F; U+3000 is E3 80 80;
    U+FEFF is EF BB BF. *)
Definition is_wide_lead (c : ascii) : bool :=
  let n := nat_of_ascii c in
  (n =? 194)%nat || (n =? 225)%nat || (n =? 226)%nat || (n =? 227)%nat
  || (n =? 239)%nat.

Definition is_space2 (c1 c2 : ascii) : bool :=
  (nat_of_ascii c1 =? 194)%nat && (nat_of_ascii c2 =? 160)%nat.

Definition is_space3 (c1 c2 c3 : ascii) : bool :=
  let n1 := nat_of_ascii c1 in
  let n2 := nat_of_ascii c2 in
  let n3 := nat_of_ascii c3 in
  ((n1 =? 225)%nat && (n2 =? 154)%nat && (n3 =? 128)%nat)
  || ((n1 =? 226)%nat && (n2 =? 128)%nat
      && (((128 <=? n3)%nat && (n3 <=? 138)%nat)
          || (n3 =? 168)%nat || (n3 =? 169)%nat || (n3 =? 175)%nat))
  || ((n1 =? 226)%nat && (n2 =? 129)%nat && (n3 =? 159)%nat)
  || ((n1 =? 227)%nat && (n2 =? 128)%nat && (n3 =? 128)%nat)
  || ((n1 =? 239)%nat && (n2 =? 187)%nat && (n3 =? 191)%nat).

(** [s.trimStart()], which is also what [parseInt] and [parseFloat] skip. *)
Fixpoint trimStart (s : string) : string :=
  match s with
  | String c1 r1 =>
      if is_space c1 then trimStart r1
      else if is_wide_lead c1 then
        match r1 with
        | String c2 r2 =>
            if is_space2 c1 c2 then trimStart r2
            else
              match r2 with
              | String c3 r3 => if is_space3 c1 c2 c3 then trimStart r3 else s
              | EmptyString => s
              end
        | EmptyString => s
        end
      else s
  | EmptyString => EmptyString
  end.

(** [s.trimEnd()]: what is white space up to the end goes. *)
Fixpoint trimEnd (s : string) : string :=
  match s with
  | String c r => if trimStart s =? "" then "" else String c (trimEnd r)
  | EmptyString => EmptyString
  end.

(** [s.trim()] *)
Definition trim (s : string) : string := trimEnd (trimStart s).

Fixpoint rev_string_acc (s acc : string) : string :=
  match s with
  | EmptyString => acc
  | String c r => rev_string_acc r (String c acc)
  end.

Definition rev_string (s : string) : string := rev_string_acc s EmptyString.

Fixpoint filter_string (p : ascii -> bool) (s : string) : string :=
  match s with
  | EmptyString => EmptyString
  | String c r =>
      if p c then String c (filter_string p r) else filter_string p r
  end.

Fixpoint join (sep : string) (l : list string) : string :=
  match l with
  | [] => ""
  | [x] => x
  | x :: r => x ++ sep ++ join sep r
  end.

(** Decimal numeral of an integer. *)
Definition Z_to_string (z : Z) : string :=
  NilZero.string_of_int (Z.to_int z).

Definition digit_char (d : Z) : ascii := ascii_of_nat (48 + Z.to_nat d).

(** The first [fuel] decimals of [r / d], for [0 <= r < d], stopping as soon
    as the expansion ends. *)
Fixpoint frac_digits (fuel : nat) (r : Z) (d : Z) : string :=
  match fuel with
  | O => ""
  | S f =>
      if (r =? 0)%Z then ""
      else String (digit_char (10 * r / d)) (frac_digits f ((10 * r) mod d) d)
  end.

(** [s] without the zeros it ends with. *)
Fixpoint strip_zeros (s : string) : string :=
  match s with
  | String c r =>
      let t := strip_zeros r in
      if (t =? "") && Ascii.eqb c "0" then "" else String c t
  | EmptyString => EmptyString
  end.

(** The number of digits of the decimal numeral of a positive integer. *)
Definition digits_count (z : Z) : nat := String.length (Z_to_string z).

(** [a / d] with its decimals. *)
Definition decimal (a d : Z) : string :=
  let r := (a mod d)%Z in
  Z_to_string (a / d) ++ (if (r =? 0)%Z then "" else "." ++ frac_digits 17 r d).

(** The significand of the exponent notation: [a / d], between 1 and 10,
    without the zeros its decimals end with. *)
Definition significand (a d : Z) : string :=
  let f := strip_zeros (frac_digits 17 (a mod d) d) in
  Z_to_string (a / d) ++ (if f =? "" then "" else "." ++ f).

(** [String(n)] for a number: positional from [10^-6] up to [10^21], in
    exponent notation beyond.  Integers and short terminating decimals print
    as JavaScript prints them; the shortest round-trip rule for long
    fractions is not represented (at most 17 decimals are printed). *)
Definition Number_toString (n : num) : string :=
  match n with
  | NaN => "NaN"
  | PInf => "Infinity"
  | NInf => "-Infinity"
  | Fin q =>
      let q' := Qred q in
      let a := Z.abs (Qnum q') in
      let d := Zpos (Qden q') in
      let sign := if (Qnum q' <? 0)%Z then "-" else "" in
      if (a =? 0)%Z then "0"
      else if (10 ^ 21 * d <=? a)%Z then
        (* the exponent is one less than the number of integer digits *)
        let e := Z.of_nat (digits_count (a / d) - 1) in
        sign ++ significand a (d * 10 ^ e) ++ "e+" ++ Z_to_string e
      else if (a * 10 ^ 6 <? d)%Z then
        (* the least exponent that brings the number to 1 or more *)
        let e := Z.of_nat (digits_count ((d + a - 1) / a - 1)) in
        sign ++ significand (a * 10 ^ e) d ++ "e-" ++ Z_to_string e
      else sign ++ decimal a d
  end.

Fixpoint zeros (n : nat) : string :=
  match n with O => "" | S k => String "0" (zeros k) end.

(** [n.toFixed(d)]: the integer [m] with [m / 10^d] closest to [|n|], the
    larger one on a tie, printed with [d] decimals; from [10^21] on, the
    number as [String] prints it. *)
Definition toFixed (n : num) (d : nat) : string :=
  match n with
  | NaN => "NaN"
  | PInf => "Infinity"
  | NInf => "-Infinity"
  | Fin q =>
      if Qle_bool (inject_Z (10 ^ 21)) (Qabs q) then Number_toString n else
      let m := Qfloor (Qabs q * inject_Z (10 ^ Z.of_nat d) + (1 # 2)) in
      let ds := Z_to_string m in
      let ds := zeros (S d - String.length ds) ++ ds in
      let k := (String.length ds - d)%nat in
      (if Qle_bool 0 q then "" else "-")
        ++ substring 0 k ds
        ++ (match d with O => "" | _ => "." ++ substring k d ds end)
  end.

(** Maximal prefix of decimal digits, as digit values, and the rest. *)
Fixpoint take_digits (s : string) : list Z * string :=
  match s with
  | String c r =>
      if is_digit c
      then let '(ds, rest) := take_digits r in
           (Z.of_nat (nat_of_ascii c - 48) :: ds, rest)
      else ([], s)
  | EmptyString => ([], EmptyString)
  end.

Definition digits_value (radix : Z) (ds : list Z) : Z :=
  fold_left (fun acc d => (radix * acc + d)%Z) ds 0%Z.

(** [parseFloat(s)]: leading white space, a sign, digits, a fraction; the
    result is the Number value of the numeral.  The exponent part and the
    literal [Infinity] are not represented: the only caller first removes
    every character that is not a digit, a dot or a minus sign. *)
Definition parseFloat (s : string) : num :=
  let s0 := trimStart s in
  let '(neg, s1) :=
    match s0 with
    | String "-" r => (true, r)
    | String "+" r => (false, r)
    | _ => (false, s0)
    end in
  let '(ip, s2) := take_digits s1 in
  let fp := match s2 with String "." r => fst (take_digits r) | _ => [] end in
  match ip, fp with
  | [], [] => NaN
  | _, _ =>
      let v := digits_value 10 (ip ++ fp) in
      let den := Z.to_pos (10 ^ Z.of_nat (List.length fp)) in
      number_value (Qred (Qmake (if neg then - v else v) den))
  end.

Definition hex_value (c : ascii) : option Z :=
  let n := nat_of_ascii c in
  if is_digit c then Some (Z.of_nat (n - 48))
  else if (97 <=? n)%nat && (n <=? 102)%nat then Some (Z.of_nat (n - 87))
  else if (65 <=? n)%nat && (n <=? 70)%nat then Some (Z.of_nat (n - 55))
  else None.

Fixpoint take_hex (s : string) : list Z :=
  match s with
  | String c r =>
      match hex_value c with
      | Some d => d :: take_hex r
      | None => []
      end
  | EmptyString => []
  end.

(** [parseInt(s)] without a radix argument: leading white space, a sign,
    the prefix of a hexadecimal numeral, digits; the result is the Number
    value of the numeral. *)
Definition parseInt (s : string) : num :=
  let s0 := trimStart s in
  let '(neg, s1) :=
    match s0 with
    | String "-" r => (true, r)
    | String "+" r => (false, r)
    | _ => (false, s0)
    end in
  let '(radix, ds) :=
    match s1 with
    | String "0" (String "x" r) | String "0" (String "X" r) => (16%Z, take_hex r)
    | _ => (10%Z, fst (take_digits s1))
    end in
  match ds with
  | [] => NaN
  | _ =>
      let v := digits_value radix ds in
      number_value (inject_Z (if neg then - v else v))
  end.

(** *** Values *)

(** An object is the list of its own properties in insertion order. *)
#[local] Set Warnings "-register-all".
Inductive JsVal : Type :=
| JUndef
| JNull
| JBool (b : bool)
| JNum (n : num)
| JStr (s : string)
| JArr (items : list JsVal)
| JObj (props : list (string * JsVal)).

#[local] Set Warnings "register-all".

(** ToBoolean *)
Definition truthy (v : JsVal) : bool :=
  match v with
  | JUndef | JNull => false
  | JBool b => b
  | JNum n => num_truthy n
  | JStr s => negb (s =? "")
  | JArr _ | JObj _ => true
  end.

(** [a || b] *)
Definition or_ (a b : JsVal) : JsVal := if truthy a then a else b.

(** [a ?? b] *)
Definition nullish (v : JsVal) : bool :=
  match v with JUndef | JNull => true | _ => false end.

Definition coalesce (a b : JsVal) : JsVal := if nullish a then b else a.

Fixpoint assoc (k : string) (props : list (string * JsVal)) : JsVal :=
  match props with
  | [] => JUndef
  | (k', v) :: r => if k =? k' then v else assoc k r
  end.

(** [v.k] and [v?.k] for an element name [k] of the e-file schema.  None of
    these names is a property of a string, a number, a boolean or an array,
    so the access yields [undefined] on them.  On [null] and [undefined] the
    optional access yields [undefined]; the plain access is only written in
    the source where the receiver is known to be truthy. *)
Definition get (v : JsVal) (k : string) : JsVal :=
  match v with
  | JObj props => assoc k props
  | _ => JUndef
  end.

(** [typeof v === 'object'] *)
Definition is_object (v : JsVal) : bool :=
  match v with JNull | JArr _ | JObj _ => true | _ => false end.

(** ToString *)
Fixpoint ToString (v : JsVal) : string :=
  match v with
  | JUndef => "undefined"
  | JNull => "null"
  | JBool true => "true"
  | JBool false => "false"
  | JNum n => Number_toString n
  | JStr s => s
  | JArr items =>
      join "," (map (fun x => if nullish x then "" else ToString x) items)
  | JObj _ => "[object Object]"
  end.

(** A numeric attribute as the read side sees it: a number, [null] or
    [undefined]. *)
Inductive Cell : Type :=
| CUndef
| CNull
| CNum (n : num).

(** ToNumber *)
Definition ToNumber (c : Cell) : num :=
  match c with
  | CUndef => NaN
  | CNull => Fin 0
  | CNum n => n
  end.

Definition cell_nullish (c : Cell) : bool :=
  match c with CUndef | CNull => true | CNum _ => false end.

(** [s.split(sep)] for a one-character separator. *)
Fixpoint split_acc (sep : ascii) (s cur : string) : list string :=
  match s with
  | EmptyString => [rev_string cur]
  | String c r =>
      if Ascii.eqb c sep then rev_string cur :: split_acc sep r EmptyString
      else split_acc sep r (String c cur)
  end.

Definition split (sep : ascii) (s : string) : list string :=
  split_acc sep s EmptyString.

End Js.


(* ================================================================== *)
(** ** helpers/dataHelper.js *)
(* ================================================================== *)


Module DataHelper.
Import Js.

(** One step of the reducer of [getNestedValue]. *)
Definition nested_step (acc : JsVal) (part : string) : JsVal :=
  if truthy acc && is_object acc then
    match acc with
    | JArr items =>
        match items with
        | [] => JUndef
        | x :: _ => if nullish x then JUndef else get x part
        end
    | _ => get acc part
    end
  else JUndef.

Definition getNestedValue (obj : JsVal) (path : string) (defaultValue : JsVal)
  : JsVal :=
  coalesce (fold_left nested_step (split "." path) obj) defaultValue.

Definition extractText (value : JsVal) : JsVal :=
  if negb (truthy value) then JNull
  else match value with
       | JStr _ => value
       | JNull | JArr _ | JObj _ =>
           or_ (or_ (get value "_text") (get value "_")) JNull
       | _ => JStr (ToString value)
       end.

(** The characters kept by [replace(/[^0-9.-]/g, '')]. *)
Definition numeric_char (c : ascii) : bool :=
  is_digit c || Ascii.eqb c "." || Ascii.eqb c "-".

Definition extractNumber (value : JsVal) : num :=
  let text := extractText value in
  if negb (truthy text) then Fin 0
  else
    let n := parseFloat (filter_string numeric_char (ToString text)) in
    if isNaN n then Fin 0 else n.

Definition calculatePercentageChange (current previous : Cell) : Cell :=
  match previous with
  | CNull | CUndef => CNull
  | CNum p =>
      if neq p (Fin 0)
      then (if ngt (ToNumber current) (Fin 0) then CNum (Fin 100) else CNum (Fin 0))
      else CNum (nmul (ndiv (nsub (ToNumber current) p) p) (Fin 100))
  end.

Definition calculateAbsoluteChange (current previous : Cell) : Cell :=
  match previous with
  | CNull | CUndef => CNull
  | CNum p => CNum (nsub (ToNumber current) p)
  end.

End DataHelper.


(* ================================================================== *)
(** ** helpers/xmlParser.js *)
(* ================================================================== *)


Module XmlParser.
Import Js DataHelper.

(** The [company] member of a parsed filing,
    [{ ...companyData, ...financialData }]. *)
Record CompanyData : Type := {
  ein : JsVal;
  name : JsVal;
  formType : string;
  taxYear : num;
  taxPeriodBegin : JsVal;
  taxPeriodEnd : JsVal;
  filingDate : JsVal;
  website : JsVal;
  mission : JsVal;
  currentRevenue : num;
  currentExpenses : num;
  currentAssets : num;
  currentEmployeeCount : num;
  previousRevenue : num;
  previousExpenses : num;
  previousAssets : num;
  previousEmployeeCount : num
}.

(** The result of [extractCompanyInfo]. *)
Record CompanyInfo : Type := {
  i_ein : JsVal;
  i_name : JsVal;
  i_formType : string;
  i_taxYear : num;
  i_taxPeriodBegin : JsVal;
  i_taxPeriodEnd : JsVal;
  i_filingDate : JsVal;
  i_website : JsVal;
  i_mission : JsVal
}.

(** The result of [extractFinancialData]. *)
Record FinancialData : Type := {
  f_currentRevenue : num;
  f_currentExpenses : num;
  f_currentAssets : num;
  f_currentEmployeeCount : num;
  f_previousRevenue : num;
  f_previousExpenses : num;
  f_previousAssets : num;
  f_previousEmployeeCount : num
}.

Definition merge (i : CompanyInfo) (f : FinancialData) : CompanyData :=
  {| ein := i_ein i;
     name := i_name i;
     formType := i_formType i;
     taxYear := i_taxYear i;
     taxPeriodBegin := i_taxPeriodBegin i;
     taxPeriodEnd := i_taxPeriodEnd i;
     filingDate := i_filingDate i;
     website := i_website i;
     mission := i_mission i;
     currentRevenue := f_currentRevenue f;
     currentExpenses := f_currentExpenses f;
     currentAssets := f_currentAssets f;
     currentEmployeeCount := f_currentEmployeeCount f;
     previousRevenue := f_previousRevenue f;
     previousExpenses := f_previousExpenses f;
     previousAssets := f_previousAssets f;
     previousEmployeeCount := f_previousEmployeeCount f |}.

Record PersonnelItem : Type := {
  fullName : JsVal;
  title : JsVal;
  compensation : num
}.

Record ExpenseItem : Type := {
  category : string;
  amount : num
}.

Record Filing : Type := {
  company : CompanyData;
  personnel : list PersonnelItem;
  expenses : list ExpenseItem
}.

(** [a || b] on two numbers. *)
Definition num_or (a b : num) : num := if num_truthy a then a else b.

Notation "a <|> b" := (or_ a b) (at level 50, left associativity).
Notation "v '~>' k" := (get v k) (at level 40, left associativity).

Definition zero : JsVal := JNum (Fin 0).

Section WithClock.

(** [new Date().getFullYear()] *)
Variable currentYear : Z.

Definition extractCompanyInfo (parsed irs990 : JsVal) : CompanyInfo :=
  let returnHeader := getNestedValue parsed "Return.ReturnHeader" (JObj []) in
  let filer := returnHeader ~> "Filer" <|> JObj [] in
  let formType :=
    if truthy (parsed ~> "Return" ~> "ReturnData" ~> "IRS990EZ") then "990EZ"
    else if truthy (parsed ~> "Return" ~> "ReturnData" ~> "IRS990PF") then "990PF"
    else if truthy (parsed ~> "Return" ~> "ReturnData" ~> "IRS990T") then "990T"
    else "990" in
  {| i_ein := extractText (filer ~> "EIN") <|> JNull;
     i_name := extractText (filer ~> "BusinessName" ~> "BusinessNameLine1Txt")
               <|> extractText (filer ~> "Name" ~> "BusinessNameLine1")
               <|> JStr "Unknown Organization";
     i_formType := formType;
     i_taxYear := num_or (num_or (extractNumber (returnHeader ~> "TaxYr"))
                                 (extractNumber (returnHeader ~> "TaxYear")))
                         (of_Z currentYear);
     i_taxPeriodBegin := extractText (returnHeader ~> "TaxPeriodBeginDt")
                         <|> extractText (returnHeader ~> "TaxPeriodBeginDate")
                         <|> JNull;
     i_taxPeriodEnd := extractText (returnHeader ~> "TaxPeriodEndDt")
                       <|> extractText (returnHeader ~> "TaxPeriodEndDate")
                       <|> JNull;
     i_filingDate := extractText (returnHeader ~> "ReturnTs")
                     <|> extractText (returnHeader ~> "ReturnTimestamp")
                     <|> JNull;
     i_website := extractText (irs990 ~> "WebsiteAddressTxt")
                  <|> extractText (irs990 ~> "WebSite")
                  <|> JNull;
     i_mission := extractText (irs990 ~> "ActivityOrMissionDesc")
                  <|> extractText (irs990 ~> "MissionDesc")
                  <|> JNull |}.

Definition extractFinancialData (irs990 : JsVal) : FinancialData :=
  {| f_currentRevenue := extractNumber
       (irs990 ~> "CYTotalRevenueAmt"
        <|> irs990 ~> "TotalRevenueAmt"
        <|> irs990 ~> "TotalRevenueGrp" ~> "TotalRevenueColumnAmt"
        <|> irs990 ~> "RevenueAmt"
        <|> irs990 ~> "TotalRevenue");
     f_currentExpenses := extractNumber
       (irs990 ~> "CYTotalExpensesAmt"
        <|> irs990 ~> "TotalExpensesAmt"
        <|> irs990 ~> "TotalExpensesGrp" ~> "TotalExpensesColumnAmt"
        <|> irs990 ~> "ExpensesAmt"
        <|> irs990 ~> "TotalExpenses");
     f_currentAssets := extractNumber
       (irs990 ~> "TotalAssetsEOYAmt"
        <|> irs990 ~> "TotalAssetsGrp" ~> "EOYAmt"
        <|> irs990 ~> "Form990TotalAssetsGrp" ~> "EOYAmt"
        <|> irs990 ~> "TotalAssets");
     f_currentEmployeeCount := extractNumber
       (irs990 ~> "TotalEmployeeCnt"
        <|> irs990 ~> "TotalNbrEmployees"
        <|> irs990 ~> "NumberOfEmployees");
     f_previousRevenue := extractNumber
       (irs990 ~> "PYTotalRevenueAmt"
        <|> irs990 ~> "TotalRevenueGrp" ~> "PriorYearAmt"
        <|> zero);
     f_previousExpenses := extractNumber
       (irs990 ~> "PYTotalExpensesAmt"
        <|> irs990 ~> "TotalExpensesGrp" ~> "PriorYearAmt"
        <|> zero);
     f_previousAssets := extractNumber
       (irs990 ~> "TotalAssetsBOYAmt"
        <|> irs990 ~> "TotalAssetsGrp" ~> "BOYAmt"
        <|> irs990 ~> "Form990TotalAssetsGrp" ~> "BOYAmt"
        <|> zero);
     f_previousEmployeeCount := extractNumber
       (irs990 ~> "PYTotalEmployeeCnt"
        <|> zero) |}.

(** The body of the [forEach] callback of [extractPersonnel]: the record
    pushed for one entry, if any. *)
Definition extractOfficer (officer : JsVal) : option PersonnelItem :=
  if negb (truthy officer) then None
  else
    let personName := officer ~> "PersonNm" <|> officer ~> "Name" <|> officer ~> "PersonName" in
    let fullName :=
      extractText personName
      <|> JStr (trim (ToString (extractText (personName ~> "FirstName"))
                      ++ " "
                      ++ ToString (extractText (personName ~> "LastName")))) in
    let title :=
      extractText (officer ~> "TitleTxt") <|> extractText (officer ~> "Title")
      <|> JStr "Unknown" in
    let reportableComp := extractNumber
      (officer ~> "ReportableCompFromOrgAmt"
       <|> officer ~> "TotalCompensationFilingOrgAmt"
       <|> officer ~> "Compensation"
       <|> zero) in
    let otherComp := extractNumber (officer ~> "OtherCompensationAmt" <|> zero) in
    let relatedComp := extractNumber (officer ~> "ReportableCompFromRltdOrgAmt" <|> zero) in
    let compensation := nadd (nadd reportableComp otherComp) relatedComp in
    if truthy fullName
       && negb (match fullName with JStr s => s =? "Unknown" | _ => false end)
    then Some {| fullName := fullName; title := title; compensation := compensation |}
    else None.

Definition officersOf (irs990 : JsVal) : list JsVal :=
  let officersList :=
    irs990 ~> "Form990PartVIISectionAGrp"
    <|> irs990 ~> "OfficerDirectorTrusteeEmplGrp"
    <|> irs990 ~> "Officers"
    <|> JArr [] in
  match officersList with
  | JArr items => items
  | _ => [officersList]
  end.

Fixpoint collect {A B : Type} (f : A -> option B) (l : list A) : list B :=
  match l with
  | [] => []
  | x :: r =>
      match f x with
      | Some y => y :: collect f r
      | None => collect f r
      end
  end.

Definition extractPersonnel (irs990 : JsVal) : list PersonnelItem :=
  collect extractOfficer (officersOf irs990).

(** The [expenseCategories] object of [extractExpenses], in key order. *)
Definition expenseCategories (irs990 : JsVal) : list (string * JsVal) :=
  let chain (a g b : string) :=
    irs990 ~> a <|> irs990 ~> g ~> "TotalAmt" <|> irs990 ~> b <|> zero in
  [ ("Grants and similar amounts paid",
     chain "GrantsToDomesticOrgsAmt" "GrantsToDomesticOrgsGrp" "GrantsAndSimilarAmountsPaid");
    ("Compensation of officers",
     chain "CompCurrentOfcrDirectorsAmt" "CompCurrentOfcrDirectorsGrp" "CompensationOfOfficers");
    ("Other salaries and wages",
     chain "CompDisqualPersonsAmt" "OtherSalariesAndWagesGrp" "OtherSalariesAndWages");
    ("Pension and benefits",
     chain "EmployeeBenefitsAmt" "PensionPlanContributionsGrp" "PensionPlanContributions");
    ("Legal fees",
     chain "LegalFeesAmt" "FeesForServicesLegalGrp" "LegalFees");
    ("Accounting fees",
     chain "AccountingFeesAmt" "FeesForServicesAccountingGrp" "AccountingFees");
    ("Professional fundraising fees",
     chain "ProfessionalFundraisingAmt" "FundraisingFeesGrp" "FundraisingFees");
    ("Other professional fees",
     chain "OtherProfessionalFeesAmt" "FeesForServicesOtherGrp" "OtherProfessionalFees");
    ("Occupancy",
     chain "OccupancyAmt" "OccupancyGrp" "Occupancy");
    ("Travel",
     chain "TravelAmt" "TravelGrp" "Travel");
    ("Office expenses",
     chain "OfficeExpensesAmt" "OfficeExpensesGrp" "OfficeExpenses");
    ("Depreciation",
     chain "DepreciationDepletionAmt" "DepreciationGrp" "Depreciation") ].

Definition extractExpenses (irs990 : JsVal) : list ExpenseItem :=
  collect
    (fun '(category, amount) =>
       let expenseAmount := extractNumber amount in
       if ngt expenseAmount (Fin 0)
       then Some {| category := category; amount := expenseAmount |}
       else None)
    (expenseCategories irs990).

(** [parse(xmlContent)].  The argument is what the XML library makes of the
    file content: [None] when it raises, the tree otherwise.  The result is
    [None] where the method returns [null]. *)
Definition parse (xml : option JsVal) : option Filing :=
  match xml with
  | None => None
  | Some parsed =>
      let returnData := getNestedValue parsed "Return.ReturnData" JNull in
      let returnData :=
        if negb (truthy returnData) then parsed ~> "Return" else returnData in
      if negb (truthy returnData) then None
      else
        let irs990 :=
          returnData ~> "IRS990" <|> returnData ~> "IRS990EZ"
          <|> returnData ~> "IRS990PF" <|> returnData ~> "IRS990T" in
        if negb (truthy irs990) then None
        else
          let companyData := extractCompanyInfo parsed irs990 in
          if negb (truthy (i_ein companyData)) then None
          else
            let financialData := extractFinancialData irs990 in
            let personnel := extractPersonnel irs990 in
            let expenses := extractExpenses irs990 in
            Some {| company := merge companyData financialData;
                    personnel := personnel;
                    expenses := expenses |}
  end.

End WithClock.

End XmlParser.

(* ================================================================== *)
(** ** models/: the three tables and the ORM calls made on them *)
(* ================================================================== *)


Module Models.
Import Js.

(** A model instance: the auto-incremented primary key and the attributes. *)
Record Row (V : Type) : Type := { id : Z; values : V }.
Arguments id {V} _.
Arguments values {V} _.
Arguments Build_Row {V} _ _.

(** models/Company.js.  A numeric attribute is a number or [null]; the read
    side also tests for [undefined]. *)
Record CompanyValues : Type := {
  ein : JsVal;
  name : JsVal;
  website : JsVal;
  mission : JsVal;
  currentRevenue : Cell;
  currentExpenses : Cell;
  currentAssets : Cell;
  currentEmployeeCount : Cell;
  previousRevenue : Cell;
  previousExpenses : Cell;
  previousAssets : Cell;
  previousEmployeeCount : Cell;
  taxYear : Cell;
  filingDate : JsVal
}.

(** models/Personnel.js *)
Record PersonnelValues : Type := {
  p_companyId : Z;
  fullName : JsVal;
  title : JsVal;
  compensation : Cell
}.

(** models/ExpenseCategory.js *)
Record ExpenseValues : Type := {
  e_companyId : Z;
  category : string;
  amount : Cell;
  e_taxYear : Cell
}.

Abbreviation Company := (Row CompanyValues).
Abbreviation Personnel := (Row PersonnelValues).
Abbreviation ExpenseCategory := (Row ExpenseValues).

Record Db : Type := {
  companies : list Company;
  personnel : list Personnel;
  expenseCategories : list ExpenseCategory;
  nextCompanyId : Z;
  nextPersonnelId : Z;
  nextExpenseId : Z
}.

(** The calls the application makes on the models. *)
Inductive Request : Type :=
| Upsert (v : CompanyValues)
| DestroyPersonnel (companyId : Z)
| DestroyExpenses (companyId : Z)
| BulkCreatePersonnel (vs : list PersonnelValues)
| BulkCreateExpenses (vs : list ExpenseValues)
| FindAndCountAll
| FindByPk (pk : Z).

(** What the application does not decide: whether the backend rejects a call
    (constraint violation, lost connection) and with which message, which
    rows a [LIKE '%search%'] on name, ein and mission selects, and how
    [ORDER BY field direction] arranges them. *)
Record Backend : Type := {
  fault : Db -> Request -> option string;
  matches : string -> Company -> bool;
  order : string -> string -> list Company -> list Company
}.

Inductive Result (A : Type) : Type :=
| Ok (a : A)
| Throw (message : string).
Arguments Ok {A} _.
Arguments Throw {A} _.

(** A call that reads or writes the database and may reject. *)
Definition M (A : Type) : Type := Db -> Db * Result A.

Definition ret {A : Type} (a : A) : M A := fun db => (db, Ok a).

Definition throw {A : Type} (message : string) : M A :=
  fun db => (db, Throw message).

Definition bind {A B : Type} (m : M A) (k : A -> M B) : M B :=
  fun db =>
    match m db with
    | (db', Ok a) => k a db'
    | (db', Throw message) => (db', Throw message)
    end.

Notation "x <- m ;; k" := (bind m (fun x => k))
  (at level 61, m at next level, right associativity).
Notation "m ;;; k" := (bind m (fun _ => k))
  (at level 61, right associativity).

(** The unique key of [companies] compares the text of the EIN. *)
Definition same_ein (a b : JsVal) : bool := ToString a =? ToString b.

Fixpoint number_from {V : Type} (n : Z) (vs : list V) : list (Row V) :=
  match vs with
  | [] => []
  | v :: r => Build_Row n v :: number_from (n + 1) r
  end.

Definition with_companies (db : Db) (rows : list Company) (next : Z) : Db :=
  {| companies := rows;
     personnel := personnel db;
     expenseCategories := expenseCategories db;
     nextCompanyId := next;
     nextPersonnelId := nextPersonnelId db;
     nextExpenseId := nextExpenseId db |}.

Definition with_personnel (db : Db) (rows : list Personnel) (next : Z) : Db :=
  {| companies := companies db;
     personnel := rows;
     expenseCategories := expenseCategories db;
     nextCompanyId := nextCompanyId db;
     nextPersonnelId := next;
     nextExpenseId := nextExpenseId db |}.

Definition with_expenses (db : Db) (rows : list ExpenseCategory) (next : Z) : Db :=
  {| companies := companies db;
     personnel := personnel db;
     expenseCategories := rows;
     nextCompanyId := nextCompanyId db;
     nextPersonnelId := nextPersonnelId db;
     nextExpenseId := next |}.

(** [INSERT ... ON DUPLICATE KEY UPDATE] on the key [ein]. *)
Definition upsert_row (v : CompanyValues) (db : Db) : Db * Company :=
  match find (fun r => same_ein (ein (values r)) (ein v)) (companies db) with
  | Some r =>
      (with_companies db
         (map (fun x => if same_ein (ein (values x)) (ein v)
                        then Build_Row (id x) v else x)
              (companies db))
         (nextCompanyId db),
       Build_Row (id r) v)
  | None =>
      (with_companies db
         (companies db ++ [Build_Row (nextCompanyId db) v])
         (nextCompanyId db + 1),
       Build_Row (nextCompanyId db) v)
  end.

Definition of_company (companyId : Z) (r : Personnel) : bool :=
  (p_companyId (values r) =? companyId)%Z.

Definition expense_of_company (companyId : Z) (r : ExpenseCategory) : bool :=
  (e_companyId (values r) =? companyId)%Z.

Section WithBackend.

Variable B : Backend.

Definition call {A : Type} (rq : Request) (run : Db -> Db * A) : M A :=
  fun db =>
    match fault B db rq with
    | Some message => (db, Throw message)
    | None => let '(db', a) := run db in (db', Ok a)
    end.

(** [Company.upsert(values, { conflictFields: ['ein'] })]: the row with the
    same ein takes the new attributes and keeps its id; without one, a row
    is inserted under the next id.  The first component of the resolved
    pair, the resulting instance, is returned. *)
Definition Company_upsert (v : CompanyValues) : M Company :=
  call (Upsert v) (upsert_row v).

(** [Personnel.destroy({ where: { companyId } })] *)
Definition Personnel_destroy (companyId : Z) : M unit :=
  call (DestroyPersonnel companyId) (fun db =>
    (with_personnel db
       (filter (fun r => negb (of_company companyId r)) (personnel db))
       (nextPersonnelId db), tt)).

(** [ExpenseCategory.destroy({ where: { companyId } })] *)
Definition ExpenseCategory_destroy (companyId : Z) : M unit :=
  call (DestroyExpenses companyId) (fun db =>
    (with_expenses db
       (filter (fun r => negb (expense_of_company companyId r))
               (expenseCategories db))
       (nextExpenseId db), tt)).

(** [Personnel.bulkCreate(rows, { ignoreDuplicates: true })]; the table has
    no unique key besides the generated id, so no row is a duplicate. *)
Definition Personnel_bulkCreate (vs : list PersonnelValues) : M unit :=
  call (BulkCreatePersonnel vs) (fun db =>
    (with_personnel db
       (personnel db ++ number_from (nextPersonnelId db) vs)
       (nextPersonnelId db + Z.of_nat (List.length vs)), tt)).

(** [ExpenseCategory.bulkCreate(rows, { ignoreDuplicates: true })] *)
Definition ExpenseCategory_bulkCreate (vs : list ExpenseValues) : M unit :=
  call (BulkCreateExpenses vs) (fun db =>
    (with_expenses db
       (expenseCategories db ++ number_from (nextExpenseId db) vs)
       (nextExpenseId db + Z.of_nat (List.length vs)), tt)).

(** [Company.findAndCountAll({ where, order, limit, offset, attributes })]
    with the where clause built from [search]. *)
Definition Company_findAndCountAll
    (search : string) (sortField sortDirection : string) (limit offset : nat)
  : M (nat * list Company) :=
  call FindAndCountAll (fun db =>
    let selected :=
      if negb (search =? "") then filter (matches B search) (companies db)
      else companies db in
    (db, (List.length selected,
          firstn limit (skipn offset (order B sortField sortDirection selected))))).

(** [Company.findByPk(id, { include: [personnel, expenseCategories] })] *)
Definition Company_findByPk (pk : Z)
  : M (option (Company * list Personnel * list ExpenseCategory)) :=
  call (FindByPk pk) (fun db =>
    (db,
     match find (fun r => (id r =? pk)%Z) (companies db) with
     | Some r =>
         Some (r,
               filter (of_company (id r)) (personnel db),
               filter (expense_of_company (id r)) (expenseCategories db))
     | None => None
     end)).

End WithBackend.

(** A backend that never rejects a call, selects the rows whose ein is the
    search text and keeps the stored order. *)
Definition ideal : Backend :=
  {| fault := fun _ _ => None;
     matches := fun search r => same_ein (ein (values r)) (JStr search);
     order := fun _ _ rows => rows |}.

Definition emptyDb : Db :=
  {| companies := [];
     personnel := [];
     expenseCategories := [];
     nextCompanyId := 1;
     nextPersonnelId := 1;
     nextExpenseId := 1 |}.

End Models.

(* ================================================================== *)
(** ** helpers/datasetService.js *)
(* ================================================================== *)


Module DatasetService.
Import Js DataHelper Models.

(** *** Working storage *)

(** The paths that exist.  The files an archive expands to live under the
    working directory and go with it; they are not listed one by one. *)
Definition Fs : Type := list string.

Definition exists_path (fs : Fs) (p : string) : bool :=
  existsb (String.eqb p) fs.

(** [ensureDirectoryExists] *)
Definition ensureDirectoryExists (fs : Fs) (dirPath : string) : Fs :=
  if exists_path fs dirPath then fs else dirPath :: fs.

(** [fsPromises.writeFile] *)
Definition writeFile (fs : Fs) (p : string) : Fs :=
  if exists_path fs p then fs else p :: fs.

Definition under (dirPath p : string) : bool :=
  (p =? dirPath) || prefix (dirPath ++ "/") p.

(** [deleteDirectory]: [fs.rm] with [recursive] and [force], taken to
    succeed.  A removal the file system refuses, which the source ignores
    and which leaves the path in place, is not represented. *)
Definition deleteDirectory (fs : Fs) (dirPath : string) : Fs :=
  filter (fun p => negb (under dirPath p)) fs.

(** [fsPromises.unlink(p).catch(() => {})], taken to succeed: what the
    [catch] ignores (a file the system refuses to remove stays in place) is
    not represented. *)
Definition unlink (fs : Fs) (p : string) : Fs :=
  filter (fun q => negb (q =? p)) fs.

(** [s.replace(pattern, replacement)] with a string pattern: the first
    occurrence only. *)
Definition replace_first (pattern replacement s : string) : string :=
  match index 0 pattern s with
  | Some i =>
      substring 0 i s ++ replacement
        ++ substring (i + String.length pattern)
                     (String.length s - (i + String.length pattern)) s
  | None => s
  end.

(** [path.basename] *)
Definition basename (p : string) : string := last (split "/" p) "".

(** *** Statistics *)

(** The object literal of [processDataset] names [errors] twice, first with
    [0] and then with [[]]: the property starts as the empty array.  It
    holds an array until [stats.errors++] turns it into a number. *)
Inductive Errors : Type :=
| ErrList (messages : list string)
| ErrCount (n : num).

Record Stats : Type := {
  totalFiles : Z;
  processed : Z;
  saved : Z;
  errors : Errors
}.

Definition initialStats : Stats :=
  {| totalFiles := 0; processed := 0; saved := 0; errors := ErrList [] |}.

(** [stats.errors++].  An array converts to a number through its text: the
    empty one to 0; one that holds messages reads "Error processing file",
    which is no numeric literal, and converts to NaN. *)
Definition errors_increment (e : Errors) : Errors :=
  match e with
  | ErrCount n => ErrCount (nadd n (Fin 1))
  | ErrList [] => ErrCount (nadd (Fin 0) (Fin 1))
  | ErrList (_ :: _) => ErrCount (nadd NaN (Fin 1))
  end.

(** [stats.errors.push(message)]; a number has no [push], the call raises a
    TypeError. *)
Definition errors_push (e : Errors) (message : string) : Result Errors :=
  match e with
  | ErrList l => Ok (ErrList (l ++ [message]))
  | ErrCount _ => Throw "stats.errors.push is not a function"
  end.

(** *** The run *)

(** What a run finds outside the program. *)
Record World : Type := {
  currentYear : Z;
  tempDir : string;
  (** [generateTempFilename('irs')] *)
  tempFilename : string;
  (** the error of the HTTP request or of writing the archive, if any *)
  download : string -> option string;
  (** the error of the 7-Zip run on an archive, if any *)
  extract : string -> option string;
  (** the [.xml] files [getXmlFiles] finds below a directory *)
  getXmlFiles : string -> Result (list string);
  readFile : string -> Result string;
  (** the XML library on a file content: [None] when it raises *)
  xmlParse : string -> option JsVal
}.

Record State : Type := { fs : Fs; db : Db }.

Definition truthy_max (maxCompanies : option Z) : bool :=
  match maxCompanies with
  | Some m => negb (m =? 0)%Z
  | None => false
  end.

(** [xs.slice(0, k)] *)
Definition slice0 {A : Type} (xs : list A) (k : Z) : list A :=
  if (k <? 0)%Z
  then firstn (Z.to_nat (Z.of_nat (List.length xs) + k)) xs
  else firstn (Z.to_nat k) xs.

Section WithWorld.

Variable B : Backend.
Variable W : World.

(** The attributes [saveToDatabase] hands to [Company.upsert]:
    [{ ...companyData, taxYear: companyData.taxYear || new Date().getFullYear() }],
    of which the model keeps its own. *)
Definition companyValues (companyData : XmlParser.CompanyData) : CompanyValues :=
  {| ein := XmlParser.ein companyData;
     name := XmlParser.name companyData;
     website := XmlParser.website companyData;
     mission := XmlParser.mission companyData;
     currentRevenue := CNum (XmlParser.currentRevenue companyData);
     currentExpenses := CNum (XmlParser.currentExpenses companyData);
     currentAssets := CNum (XmlParser.currentAssets companyData);
     currentEmployeeCount := CNum (XmlParser.currentEmployeeCount companyData);
     previousRevenue := CNum (XmlParser.previousRevenue companyData);
     previousExpenses := CNum (XmlParser.previousExpenses companyData);
     previousAssets := CNum (XmlParser.previousAssets companyData);
     previousEmployeeCount := CNum (XmlParser.previousEmployeeCount companyData);
     taxYear := CNum (XmlParser.num_or (XmlParser.taxYear companyData)
                                       (of_Z (currentYear W)));
     filingDate := XmlParser.filingDate companyData |}.

(** [personnel.map(p => ({ ...p, companyId, taxYear }))]; the model has no
    [taxYear] attribute. *)
Definition personnelData (companyId : Z) (personnel : list XmlParser.PersonnelItem)
  : list PersonnelValues :=
  map (fun p => {| p_companyId := companyId;
                   fullName := XmlParser.fullName p;
                   title := XmlParser.title p;
                   compensation := CNum (XmlParser.compensation p) |})
      personnel.

(** [expenses.map(e => ({ ...e, companyId, taxYear }))] *)
Definition expenseData (companyId : Z) (companyData : XmlParser.CompanyData)
    (expenses : list XmlParser.ExpenseItem) : list ExpenseValues :=
  map (fun e => {| e_companyId := companyId;
                   category := XmlParser.category e;
                   amount := CNum (XmlParser.amount e);
                   e_taxYear := CNum (XmlParser.taxYear companyData) |})
      expenses.

Definition saveToDatabase (data : XmlParser.Filing) : M unit :=
  let companyData := XmlParser.company data in
  let personnel := XmlParser.personnel data in
  let expenses := XmlParser.expenses data in
  if negb (truthy (XmlParser.ein companyData)) then throw "Company EIN is required"
  else
    company <- Company_upsert B (companyValues companyData) ;;
    let companyId := id company in
    Personnel_destroy B companyId ;;;
    ExpenseCategory_destroy B companyId ;;;
    (if (0 <? List.length personnel)%nat
     then Personnel_bulkCreate B (personnelData companyId personnel)
     else ret tt) ;;;
    (if (0 <? List.length expenses)%nat
     then ExpenseCategory_bulkCreate B (expenseData companyId companyData expenses)
     else ret tt).

Definition count_processed (stats : Stats) : Stats :=
  {| totalFiles := totalFiles stats;
     processed := processed stats + 1;
     saved := saved stats;
     errors := errors stats |}.

Definition count_saved (stats : Stats) : Stats :=
  {| totalFiles := totalFiles stats;
     processed := processed stats;
     saved := saved stats + 1;
     errors := errors stats |}.

Definition set_errors (stats : Stats) (e : Errors) : Stats :=
  {| totalFiles := totalFiles stats;
     processed := processed stats;
     saved := saved stats;
     errors := e |}.

(** [processXmlFile]: the database and the statistics it leaves, and whether
    it returned or raised. *)
Definition processXmlFile (xmlFilePath : string) (stats : Stats) (d : Db)
  : Db * Stats * Result unit :=
  let stats := count_processed stats in
  match readFile W xmlFilePath with
  | Throw message => (d, stats, Throw message)
  | Ok xmlContent =>
      match XmlParser.parse (currentYear W) (xmlParse W xmlContent) with
      | None => (d, stats, Ok tt)
      | Some parsedData =>
          match saveToDatabase parsedData d with
          | (d', Throw message) => (d', stats, Throw message)
          | (d', Ok _) => (d', count_saved stats, Ok tt)
          end
      end
  end.

(** The [for] loop of step 4. *)
Fixpoint processFiles (maxCompanies : option Z) (files : list string)
    (stats : Stats) (d : Db) : Db * Stats * Result unit :=
  match files with
  | [] => (d, stats, Ok tt)
  | xmlFile :: rest =>
      match processXmlFile xmlFile stats d with
      | (d', stats', Ok _) =>
          if truthy_max maxCompanies
             && (match maxCompanies with
                 | Some m => (saved stats' >=? m)%Z
                 | None => false
                 end)
          then (d', stats', Ok tt)
          else processFiles maxCompanies rest stats' d'
      | (d', stats', Throw message) =>
          let stats' := set_errors stats' (errors_increment (errors stats')) in
          let errorMessage :=
            "Error processing file " ++ basename xmlFile ++ ": " ++ message in
          match errors_push (errors stats') errorMessage with
          | Ok e => processFiles maxCompanies rest (set_errors stats' e) d'
          | Throw typeError => (d', stats', Throw typeError)
          end
      end
  end.

(** The path [downloadZipFile] writes the archive to. *)
Definition archivePath : string :=
  tempDir W ++ "/" ++ tempFilename W ++ ".zip".

(** The directory [extractZipFile] expands the archive into. *)
Definition workingDirectory : string :=
  replace_first ".zip" "_extracted" archivePath.

(** [maxCompanies ? xmlFiles.slice(0, maxCompanies) : xmlFiles] *)
Definition filesToProcess (maxCompanies : option Z) (xmlFiles : list string)
  : list string :=
  match maxCompanies with
  | Some m => if truthy_max maxCompanies then slice0 xmlFiles m else xmlFiles
  | None => xmlFiles
  end.

Definition processDataset (irsZipUrl : string) (maxCompanies : option Z)
    (s : State) : State * Result Stats :=
  let stats := initialStats in
  (* downloadZipFile *)
  let fs1 := ensureDirectoryExists (fs s) (tempDir W) in
  match download W irsZipUrl with
  | Some message =>
      (* tempPath is still null: the handler unlinks nothing *)
      ({| fs := fs1; db := db s |}, Throw message)
  | None =>
      let tempPath := archivePath in
      let fs2 := writeFile fs1 tempPath in
      (* extractZipFile *)
      let extractPath := workingDirectory in
      let fs3 := ensureDirectoryExists fs2 extractPath in
      match extract W tempPath with
      | Some message => ({| fs := unlink fs3 tempPath; db := db s |}, Throw message)
      | None =>
          match getXmlFiles W extractPath with
          | Throw message =>
              ({| fs := unlink fs3 tempPath; db := db s |}, Throw message)
          | Ok xmlFiles =>
              let stats :=
                {| totalFiles := Z.of_nat (List.length xmlFiles);
                   processed := processed stats;
                   saved := saved stats;
                   errors := errors stats |} in
              match processFiles maxCompanies
                      (filesToProcess maxCompanies xmlFiles) stats (db s) with
              | (d', _, Throw message) =>
                  ({| fs := unlink fs3 tempPath; db := d' |}, Throw message)
              | (d', stats', Ok _) =>
                  ({| fs := unlink (deleteDirectory fs3 extractPath) tempPath;
                      db := d' |},
                   Ok stats')
              end
          end
      end
  end.

End WithWorld.

End DatasetService.

(* ================================================================== *)
(** ** controller/companiesController.js *)
(* ================================================================== *)


Module CompaniesController.
Import Js DataHelper Models.

Record Delta : Type := { absolute : Cell; percentage : Cell }.

Record Deltas : Type := {
  revenue : Delta;
  expenses : Delta;
  assets : Delta;
  employees : Delta
}.

Record Classification : Type := {
  type : string;
  c_description : string;
  c_color : string
}.

Record StaffingGrowth : Type := {
  badge : string;
  level : string;
  s_color : string;
  s_description : string
}.

Record FinancialHealth : Type := {
  netIncome : num;
  (** a string with two decimals, or the number 0 *)
  profitMargin : JsVal;
  assetGrowthRate : string
}.

Record Analytics : Type := {
  classification : Classification;
  staffingGrowth : StaffingGrowth;
  financialHealth : FinancialHealth
}.

Record Pagination : Type := {
  total : nat;
  page : num;
  limit : num;
  totalPages : Z;
  hasNextPage : bool;
  hasPrevPage : bool
}.

Inductive Body : Type :=
| ErrorBody (error : string) (message : option string)
| ListBody (data : list (Company * Deltas)) (pagination : Pagination)
| DetailBody (data : Company) (personnel : list Personnel)
             (expenseCategories : list ExpenseCategory)
             (deltas : Deltas) (analytics : Analytics).

Record Response : Type := { status : nat; body : Body }.

(** [c !== null] and [c !== undefined] *)
Definition not_null (c : Cell) : bool :=
  match c with CNull => false | _ => true end.

Definition not_undefined (c : Cell) : bool :=
  match c with CUndef => false | _ => true end.

Definition hasPreviousData (data : CompanyValues) : bool :=
  not_null (previousRevenue data) && not_undefined (previousRevenue data)
  && not_null (previousExpenses data) && not_undefined (previousExpenses data)
  && not_null (previousAssets data) && not_undefined (previousAssets data)
  && not_null (previousEmployeeCount data)
  && not_undefined (previousEmployeeCount data).

(** The [deltas] object both handlers build. *)
Definition deltasOf (data : CompanyValues) : Deltas :=
  let hasPreviousData := hasPreviousData data in
  let pair (current previous : Cell) :=
    {| absolute := if hasPreviousData
                   then calculateAbsoluteChange current previous else CNull;
       percentage := if hasPreviousData
                     then calculatePercentageChange current previous else CNull |} in
  {| revenue := pair (currentRevenue data) (previousRevenue data);
     expenses := pair (currentExpenses data) (previousExpenses data);
     assets := pair (currentAssets data) (previousAssets data);
     employees := pair (currentEmployeeCount data) (previousEmployeeCount data) |}.

(** [c.toFixed(d)]: a TypeError on [null] and [undefined]. *)
Definition cell_toFixed (c : Cell) (d : nat) : Result string :=
  match c with
  | CNum n => Ok (toFixed n d)
  | CNull => Throw "Cannot read properties of null (reading 'toFixed')"
  | CUndef => Throw "Cannot read properties of undefined (reading 'toFixed')"
  end.

Definition calculateClassification (data : CompanyValues) (deltas : Deltas)
  : Classification :=
  let isProfitable :=
    ngt (ToNumber (currentRevenue data)) (ToNumber (currentExpenses data)) in
  let isScaling :=
    ngt (ToNumber (percentage (expenses deltas)))
        (ToNumber (percentage (revenue deltas))) in
  if isProfitable && negb isScaling then
    {| type := "Profitable";
       c_description := "Revenue exceeds expenses with controlled growth";
       c_color := "green" |}
  else if isScaling then
    {| type := "Scaling";
       c_description := "Growing expenses faster than revenue to fuel expansion";
       c_color := "blue" |}
  else
    {| type := "Restructuring";
       c_description := "Operating at a loss, may need strategic adjustments";
       c_color := "orange" |}.

Definition increase (growthRate : Cell) (badge level color : string)
  : Result StaffingGrowth :=
  match cell_toFixed growthRate 1 with
  | Ok s => Ok {| badge := badge; level := level; s_color := color;
                  s_description := s ++ "% staff increase" |}
  | Throw e => Throw e
  end.

Definition calculateStaffingGrowth (employeeDelta : Delta) : Result StaffingGrowth :=
  let growthRate := percentage employeeDelta in
  if nge (ToNumber growthRate) (Fin 20) then
    increase growthRate "Rapid Growth" "high" "green"
  else if nge (ToNumber growthRate) (Fin 10) then
    increase growthRate "Steady Growth" "medium" "blue"
  else if ngt (ToNumber growthRate) (Fin 0) then
    increase growthRate "Modest Growth" "low" "gray"
  else if match growthRate with CNum n => neq n (Fin 0) | _ => false end then
    Ok {| badge := "Stable"; level := "neutral"; s_color := "gray";
          s_description := "No change in staffing" |}
  else
    Ok {| badge := "Downsizing"; level := "negative"; s_color := "red";
          s_description :=
            toFixed (nabs (ToNumber growthRate)) 1 ++ "% staff reduction" |}.

(** The query string of a listing request; [None] where a parameter is not
    given.  The defaults [1] and [25] of [page] and [limit] are numbers, which
    [parseInt] reads through their text. *)
Record Query : Type := {
  q_search : option string;
  q_sortBy : option string;
  q_sortOrder : option string;
  q_page : option string;
  q_limit : option string
}.

Definition default (d : string) (o : option string) : string :=
  match o with Some s => s | None => d end.

Definition lower (c : ascii) : ascii :=
  let n := nat_of_ascii c in
  if (65 <=? n)%nat && (n <=? 90)%nat then ascii_of_nat (n + 32) else c.

Fixpoint toLowerCase (s : string) : string :=
  match s with
  | EmptyString => EmptyString
  | String c r => String (lower c) (toLowerCase r)
  end.

Definition allowedSortFields : list string :=
  ["name"; "ein"; "currentRevenue"; "currentExpenses";
   "currentAssets"; "currentEmployeeCount"; "taxYear"].

(** An integer-valued number as a count.  An infinity is no count: which
    rows the database selects for an offset that is not finite is not
    represented. *)
Definition to_nat (n : num) : nat :=
  match n with Fin q => Z.to_nat (Qfloor q) | _ => O end.

(** [Math.ceil(count / limitNum)] *)
Definition ceil_div (count : nat) (limitNum : num) : Z :=
  match ndiv (of_Z (Z.of_nat count)) limitNum with
  | Fin q => Qceiling q
  | _ => 0%Z
  end.

Section WithBackend.

Variable B : Backend.

(** [getAllCompanies]: the response, and the calls made on the models. *)
Definition getAllCompanies (q : Query) (d : Db) : Response * list Request :=
  let search := default "" (q_search q) in
  let sortBy := default "name" (q_sortBy q) in
  let sortOrder := default "asc" (q_sortOrder q) in
  let pageNum := parseInt (default "1" (q_page q)) in
  let limitNum := parseInt (default "25" (q_limit q)) in
  if isNaN pageNum || nlt pageNum (Fin 1) then
    ({| status := 400; body := ErrorBody "Invalid page number" None |}, [])
  else if isNaN limitNum || nlt limitNum (Fin 1) || ngt limitNum (Fin 100) then
    ({| status := 400;
        body := ErrorBody "Invalid limit. Must be between 1 and 100" None |}, [])
  else
    let sortField :=
      if existsb (String.eqb sortBy) allowedSortFields then sortBy else "name" in
    let sortDirection := if toLowerCase sortOrder =? "desc" then "DESC" else "ASC" in
    match Company_findAndCountAll B search sortField sortDirection
            (to_nat limitNum) (to_nat (nmul (nsub pageNum (Fin 1)) limitNum)) d with
    | (_, Throw message) =>
        ({| status := 500;
            body := ErrorBody "Failed to fetch companies" (Some message) |},
         [FindAndCountAll])
    | (_, Ok (count, rows)) =>
        let companiesWithDeltas :=
          map (fun company => (company, deltasOf (values company))) rows in
        let totalPages := ceil_div count limitNum in
        ({| status := 200;
            body := ListBody companiesWithDeltas
                      {| total := count;
                         page := pageNum;
                         limit := limitNum;
                         totalPages := totalPages;
                         hasNextPage := nlt pageNum (of_Z totalPages);
                         hasPrevPage := ngt pageNum (Fin 1) |} |},
         [FindAndCountAll])
    end.

(** The [analytics] object of [getCompanyById]; its members are evaluated in
    order and the first error aborts the handler. *)
Definition analyticsOf (data : CompanyValues) (deltas : Deltas) : Result Analytics :=
  let classification := calculateClassification data deltas in
  match calculateStaffingGrowth (employees deltas) with
  | Throw e => Throw e
  | Ok staffingGrowth =>
      let netIncome :=
        nsub (ToNumber (currentRevenue data)) (ToNumber (currentExpenses data)) in
      let profitMargin :=
        if ngt (ToNumber (currentRevenue data)) (Fin 0)
        then JStr (toFixed
                     (nmul (ndiv (nsub (ToNumber (currentRevenue data))
                                       (ToNumber (currentExpenses data)))
                                 (ToNumber (currentRevenue data)))
                           (Fin 100)) 2)
        else JNum (Fin 0) in
      match cell_toFixed (percentage (assets deltas)) 2 with
      | Throw e => Throw e
      | Ok assetGrowthRate =>
          Ok {| classification := classification;
                staffingGrowth := staffingGrowth;
                financialHealth :=
                  {| netIncome := netIncome;
                     profitMargin := profitMargin;
                     assetGrowthRate := assetGrowthRate |} |}
      end
  end.

(** [getCompanyById]; [pk] is the key the route parameter denotes. *)
Definition getCompanyById (pk : Z) (d : Db) : Response :=
  match Company_findByPk B pk d with
  | (_, Throw message) =>
      {| status := 500; body := ErrorBody "Failed to fetch company" (Some message) |}
  | (_, Ok None) =>
      {| status := 404; body := ErrorBody "Company not found" None |}
  | (_, Ok (Some (company, personnel, expenseCategories))) =>
      let data := values company in
      let deltas := deltasOf data in
      match analyticsOf data deltas with
      | Throw message =>
          {| status := 500;
             body := ErrorBody "Failed to fetch company" (Some message) |}
      | Ok analytics =>
          {| status := 200;
             body := DetailBody company personnel expenseCategories deltas analytics |}
      end
  end.

End WithBackend.

End CompaniesController.

(* ================================================================== *)
(** ** Scenarios *)
(* ================================================================== *)


Module Scenarios.
Import Js Models.

Definition organization (ein : string)
    (currentRevenue currentExpenses currentAssets currentEmployeeCount
     previousRevenue previousExpenses previousAssets previousEmployeeCount : Cell)
  : CompanyValues :=
  {| ein := JStr ein;
     name := JStr "Helping Hands";
     website := JNull;
     mission := JNull;
     currentRevenue := currentRevenue;
     currentExpenses := currentExpenses;
     currentAssets := currentAssets;
     currentEmployeeCount := currentEmployeeCount;
     previousRevenue := previousRevenue;
     previousExpenses := previousExpenses;
     previousAssets := previousAssets;
     previousEmployeeCount := previousEmployeeCount;
     taxYear := CNum (Fin 2022);
     filingDate := JNull |}.

(** Revenue 120000 to 150000, expenses 100000 to 90000, staff 40 to 50. *)
Definition growing : CompanyValues :=
  organization "123456789"
    (CNum (Fin 150000)) (CNum (Fin 90000)) (CNum (Fin 500000)) (CNum (Fin 50))
    (CNum (Fin 120000)) (CNum (Fin 100000)) (CNum (Fin 400000)) (CNum (Fin 40)).

(** The same organization with no prior-year revenue on record. *)
Definition noPriorRevenue : CompanyValues :=
  organization "123456789"
    (CNum (Fin 150000)) (CNum (Fin 90000)) (CNum (Fin 500000)) (CNum (Fin 50))
    CNull (CNum (Fin 100000)) (CNum (Fin 400000)) (CNum (Fin 40)).

Definition oneCompany (v : CompanyValues) : Db :=
  {| companies := [Build_Row 1 v];
     personnel := [];
     expenseCategories := [];
     nextCompanyId := 2;
     nextPersonnelId := 1;
     nextExpenseId := 1 |}.

(** *** Documents *)

Definition returnOf (ein : string) (formName : string) (form : JsVal) : JsVal :=
  JObj [("Return",
         JObj [("ReturnHeader",
                JObj [("Filer",
                       JObj [("EIN", JStr ein);
                             ("BusinessName",
                              JObj [("BusinessNameLine1Txt", JStr "Helping Hands")])]);
                      ("TaxYr", JNum (Fin 2022))]);
               ("ReturnData", JObj [(formName, form)])])].

(** An officer entry that carries a title and no name. *)
Definition namelessOfficer : JsVal :=
  JObj [("TitleTxt", JStr "Director")].

(** A first filing: current-year figures only. *)
Definition singleYearForm : JsVal :=
  JObj [("CYTotalRevenueAmt", JNum (Fin 150000));
        ("CYTotalExpensesAmt", JNum (Fin 90000));
        ("TotalAssetsEOYAmt", JNum (Fin 500000));
        ("TotalEmployeeCnt", JNum (Fin 50));
        ("LegalFeesAmt", JNum (Fin 500));
        ("Form990PartVIISectionAGrp",
         JArr [JObj [("PersonNm", JStr "Ann Lee");
                     ("TitleTxt", JStr "CEO");
                     ("ReportableCompFromOrgAmt", JNum (Fin 1000));
                     ("OtherCompensationAmt", JNum (Fin 50))]])].

Definition singleYear : JsVal := returnOf "123456789" "IRS990" singleYearForm.

(** The next filing of the same organization, with another officer. *)
Definition secondYear : JsVal :=
  returnOf "123456789" "IRS990"
    (JObj [("CYTotalRevenueAmt", JNum (Fin 180000));
           ("PYTotalRevenueAmt", JNum (Fin 150000));
           ("CYTotalExpensesAmt", JNum (Fin 95000));
           ("PYTotalExpensesAmt", JNum (Fin 90000));
           ("Form990PartVIISectionAGrp",
            JObj [("PersonNm", JStr "Bo Chen"); ("TitleTxt", JStr "CFO")])]).

(** A return whose payload is none of the four forms. *)
Definition unrecognized : JsVal :=
  returnOf "123456789" "IRS1040" (JObj []).

(** *** Worlds *)

Fixpoint document (documents : list (string * option JsVal)) (content : string)
  : option JsVal :=
  match documents with
  | [] => None
  | (p, t) :: r => if content =? p then t else document r content
  end.

(** A world whose files are all readable; the content of a file is named by
    its path, and the XML library makes of it the tree listed for it. *)
Definition world (download extract : option string)
    (documents : list (string * option JsVal)) : DatasetService.World :=
  {| DatasetService.currentYear := 2025;
     DatasetService.tempDir := "/app/temp";
     DatasetService.tempFilename := "irs_1700000000000_k3j9x2m1q";
     DatasetService.download := fun _ => download;
     DatasetService.extract := fun _ => extract;
     DatasetService.getXmlFiles := fun _ => Ok (map fst documents);
     DatasetService.readFile := fun p => Ok p;
     DatasetService.xmlParse := document documents |}.

Definition start : DatasetService.State :=
  {| DatasetService.fs := []; DatasetService.db := emptyDb |}.

(** A backend that rejects every upsert. *)
Definition rejecting : Backend :=
  {| fault := fun _ rq =>
       match rq with
       | Upsert _ => Some "Data too long for column 'name' at row 1"
       | _ => None
       end;
     matches := matches ideal;
     order := order ideal |}.

(** The filing the mapper makes of a document; a document it rejects
    stands for an empty filing. *)
Definition filingOf (t : JsVal) : XmlParser.Filing :=
  match XmlParser.parse 2025 (Some t) with
  | Some filing => filing
  | None =>
      {| XmlParser.company :=
           XmlParser.merge (XmlParser.extractCompanyInfo 2025 t JNull)
                           (XmlParser.extractFinancialData JNull);
         XmlParser.personnel := [];
         XmlParser.expenses := [] |}
  end.

(** A world with nothing to ingest, for the saves made by hand. *)
Definition quiet : DatasetService.World := world None None [].

Definition afterFirst : Db :=
  fst (DatasetService.saveToDatabase ideal quiet (filingOf singleYear) emptyDb).

Definition afterSecond : Db :=
  fst (DatasetService.saveToDatabase ideal quiet (filingOf secondYear) afterFirst).

(** One document, under the working directory of [world]. *)
Definition documentPath : string :=
  "/app/temp/irs_1700000000000_k3j9x2m1q_extracted/202301.xml".

Definition url : string := "https://apps.irs.gov/pub/epostcard/990/xml/2023/download990xml_2023_1.zip".

(** A page number of 400 digits. *)
Definition longPage : string := String.concat "" (repeat "9" 400).

End Scenarios.

(* ================================================================== *)
(** ** Notions the properties are stated with *)
(* ================================================================== *)


Module Notions.
Import Js Models CompaniesController.

(** The delta pair of a record without prior-year data. *)
Definition nullDelta : Delta := {| absolute := CNull; percentage := CNull |}.

(** Both members of a delta pair hold a number. *)
Definition computed (d : Delta) : bool :=
  negb (cell_nullish (absolute d)) && negb (cell_nullish (percentage d)).

(** The text [s] parses to an integer between [lo] and [hi]. *)
Definition parses_within (s : string) (lo hi : Z) : Prop :=
  exists z, parseInt s = of_Z z /\ (lo <= z <= hi)%Z.

(** The text [s] parses to an integer that is at least [lo]. *)
Definition parses_from (s : string) (lo : Z) : Prop :=
  exists z, parseInt s = of_Z z /\ (lo <= z)%Z.

(** The number of records a response carries. *)
Definition records (r : Response) : nat :=
  match body r with
  | ListBody data _ => List.length data
  | _ => O
  end.

(** The form of a document: the first truthy one of the four forms under
    [Return.ReturnData] or, when that is not truthy, under [Return]. *)
Definition formOf (parsed : JsVal) : JsVal :=
  let returnData := DataHelper.getNestedValue parsed "Return.ReturnData" JNull in
  let returnData :=
    if negb (truthy returnData) then get parsed "Return" else returnData in
  or_ (or_ (or_ (get returnData "IRS990") (get returnData "IRS990EZ"))
           (get returnData "IRS990PF"))
      (get returnData "IRS990T").

(** The form carries none of the prior-year elements the mapper reads. *)
Definition no_prior_year_figures (irs990 : JsVal) : Prop :=
  get irs990 "PYTotalRevenueAmt" = JUndef
  /\ get (get irs990 "TotalRevenueGrp") "PriorYearAmt" = JUndef
  /\ get irs990 "PYTotalExpensesAmt" = JUndef
  /\ get (get irs990 "TotalExpensesGrp") "PriorYearAmt" = JUndef
  /\ get irs990 "TotalAssetsBOYAmt" = JUndef
  /\ get (get irs990 "TotalAssetsGrp") "BOYAmt" = JUndef
  /\ get (get irs990 "Form990TotalAssetsGrp") "BOYAmt" = JUndef
  /\ get irs990 "PYTotalEmployeeCnt" = JUndef.

(** The organization rows stored under an EIN. *)
Definition rows_of_ein (ein : JsVal) (d : Db) : list Company :=
  filter (fun r => same_ein (Models.ein (values r)) ein) (companies d).

(** The mapper accepts the document at a path: the file is read and [parse]
    answers a filing for its content. *)
Definition accepted (W : DatasetService.World) (f : string) : bool :=
  match DatasetService.readFile W f with
  | Ok content =>
      match XmlParser.parse (DatasetService.currentYear W)
                            (DatasetService.xmlParse W content) with
      | Some _ => true
      | None => false
      end
  | Throw _ => false
  end.

(** The document limit leaves room for every file of the list: the loop
    cannot stop before the last one. *)
Definition room (maxCompanies : option Z) (stats : DatasetService.Stats) (files : list string)
  : Prop :=
  match maxCompanies with
  | Some m =>
      DatasetService.truthy_max maxCompanies = true ->
      (DatasetService.saved stats + Z.of_nat (List.length files) <= m)%Z
  | None => True
  end.

End Notions.

(* ================================================================== *)
(** ** controller/datasetController.js *)
(* ================================================================== *)


Module DatasetController.
Import Js Models DatasetService.

(** [req.body.maxCompanies] as a JSON body of the client carries it: absent,
    [null] or an integer.  Other JSON values are not represented. *)
Inductive MaxCompanies : Type :=
| Absent
| Null
| Count (n : Z).

(** [req.body], as far as the handler reads it; [irsZipUrl] is absent or a
    string. *)
Record ImportRequest : Type := {
  irsZipUrl : option string;
  maxCompanies : MaxCompanies
}.

(** The [statistics] object of the answer.  Its [duration], which is read
    off the clock, is not represented. *)
Record Statistics : Type := {
  s_totalFiles : Z;
  s_processed : Z;
  s_saved : Z;
  s_errors : Errors;
  successRate : string
}.

Inductive Body : Type :=
| ErrorBody (error message : string) (details : option string)
| ImportedBody (message : string) (statistics : Statistics) (errors : list string).

Record Response : Type := { status : nat; body : Body }.

(** [Number(maxCompanies)], the conversion [isNaN] and [<] apply. *)
Definition Number_ (m : MaxCompanies) : num :=
  match m with
  | Absent => NaN
  | Null => Fin 0
  | Count n => of_Z n
  end.

Definition not_undefined (m : MaxCompanies) : bool :=
  match m with Absent => false | _ => true end.

(** The second argument of [processDataset]; its default, [null], stands in
    for [undefined]. *)
Definition argument (m : MaxCompanies) : option Z :=
  match m with
  | Count n => Some n
  | Absent | Null => None
  end.

(** [stats.errors.slice(0, 10)] *)
Definition errors_slice (e : Errors) : Result (list string) :=
  match e with
  | ErrList messages => Ok (firstn 10 messages)
  | ErrCount _ => Throw "stats.errors.slice is not a function"
  end.

Definition validationError (message : string) : Response :=
  {| status := 400; body := ErrorBody "Validation error" message None |}.

Definition importFailed (message : string) : Response :=
  {| status := 500;
     body := ErrorBody "Import failed" message
               (Some "Check server logs for more information") |}.

Section WithWorld.

Variable B : Backend.
Variable W : World.

(** Whether [new URL(s)] returns, rather than raises. *)
Variable URL : string -> bool.

Definition importDataset (rq : ImportRequest) (s : State) : State * Response :=
  match irsZipUrl rq with
  | None | Some "" => (s, validationError "irsZipUrl is required")
  | Some url =>
      if negb (URL url) then (s, validationError "Invalid URL format")
      else if not_undefined (maxCompanies rq)
              && (isNaN (Number_ (maxCompanies rq))
                  || nlt (Number_ (maxCompanies rq)) (Fin 1))
      then (s, validationError "maxCompanies must be a positive number")
      else
        match processDataset B W url (argument (maxCompanies rq)) s with
        | (s', Ok stats) =>
            match errors_slice (errors stats) with
            | Ok firstErrors =>
                (s',
                 {| status := 200;
                    body :=
                      ImportedBody "Dataset imported successfully"
                        {| s_totalFiles := totalFiles stats;
                           s_processed := processed stats;
                           s_saved := saved stats;
                           s_errors := errors stats;
                           successRate :=
                             toFixed (nmul (ndiv (of_Z (saved stats))
                                                 (of_Z (totalFiles stats)))
                                           (Fin 100)) 2 ++ "%" |}
                        firstErrors |})
            | Throw message => (s', importFailed message)
            end
        | (s', Throw message) => (s', importFailed message)
        end
  end.

End WithWorld.

End DatasetController.

(* ================================================================== *)
(** ** middleware/auth.js, middleware/apiKeyAuth.js *)
(* ================================================================== *)


Module Middleware.
Import Js Models.

(** The payload of a token, as [generateToken] is given it. *)
Record User : Type := {
  user_id : Z;
  username : string;
  email : string;
  role : string
}.

(** A request, as far as the middleware reads and writes it: the
    [x-api-key] header, the [auth_token] cookie and [req.user]. *)
Record Req : Type := {
  apiKey : option string;
  token : option string;
  user : option User
}.

Record Reply : Type := { status : nat; error : string; message : string }.

(** A middleware answers the request or hands it on. *)
Inductive Outcome : Type :=
| Respond (r : Reply)
| Next (req : Req).

(** Truthiness of a header or cookie value. *)
Definition present (v : option string) : bool :=
  match v with
  | Some s => negb (s =? "")
  | None => false
  end.

(** A string that is set and not empty: the value a truthiness test lets
    through. *)
Definition given (v : option string) : option string :=
  match v with
  | Some s => if s =? "" then None else Some s
  | None => None
  end.

Section WithConfig.

(** [verifyToken] of [helpers/jwtHelper]: the payload, a falsy value, or an
    exception. *)
Variable verifyToken : string -> Result (option User).

(** [config.api.secretKey] *)
Variable secretKey : string.

Definition authenticate (req : Req) : Outcome :=
  match token req with
  | Some t =>
      if negb (present (token req))
      then Respond {| status := 401; error := "Authentication required";
                      message := "No token provided" |}
      else
        match verifyToken t with
        | Throw _ =>
            Respond {| status := 500; error := "Authentication error";
                       message := "Internal server error" |}
        | Ok None =>
            Respond {| status := 401; error := "Authentication failed";
                       message := "Invalid or expired token" |}
        | Ok (Some decoded) =>
            Next {| apiKey := apiKey req; token := token req;
                    user := Some decoded |}
        end
  | None =>
      Respond {| status := 401; error := "Authentication required";
                 message := "No token provided" |}
  end.

Definition authorize (roles : list string) (req : Req) : Outcome :=
  match user req with
  | None =>
      Respond {| status := 401; error := "Authentication required";
                 message := "Please login first" |}
  | Some u =>
      if negb (existsb (String.eqb (role u)) roles)
      then Respond {| status := 403; error := "Access denied";
                      message :=
                        "You do not have permission to access this resource" |}
      else Next req
  end.

Definition validateApiKey (req : Req) : Outcome :=
  match apiKey req with
  | Some k =>
      if negb (present (apiKey req))
      then Respond {| status := 401; error := "API key required";
                      message :=
                        "X-API-Key header is required for this endpoint" |}
      else if negb (k =? secretKey)
      then Respond {| status := 403; error := "Invalid API key";
                      message := "The provided API key is invalid" |}
      else Next req
  | None =>
      Respond {| status := 401; error := "API key required";
                 message := "X-API-Key header is required for this endpoint" |}
  end.

End WithConfig.

(** *** middleware/rateLimiter.js *)

(** A limiter of [express-rate-limit]: it answers 429 with its message to a
    client that has made more than [max] requests in the current window, and
    hands the others on.  [hits] is the number of requests of this client
    the window has counted before this one; the count itself is kept by the
    library. *)
Definition rateLimit (max : nat) (err msg : string) (hits : nat) (req : Req)
  : Outcome :=
  if (max <? S hits)%nat
  then Respond {| status := 429; error := err; message := msg |}
  else Next req.

(** 3 requests per hour. *)
Definition datasetLimiter : nat -> Req -> Outcome :=
  rateLimit 3 "Too many import requests"
    "Dataset import limit reached, please try again later.".

End Middleware.

(* ================================================================== *)
(** ** routers/datasetRoutes.js *)
(* ================================================================== *)


Module DatasetRoutes.
Import Js Models DatasetService Middleware.

(** What the route answers: the reply of a middleware, or the response of
    the handler. *)
Inductive Answer : Type :=
| Refused (r : Reply)
| Handled (r : DatasetController.Response).

Section WithWorld.

Variable B : Backend.
Variable W : World.
Variable URL : string -> bool.
Variable verifyToken : string -> Result (option User).
Variable secretKey : string.

(** The first function of the chain: the key when one is given, the session
    otherwise. *)
Definition identify (req : Req) : Outcome :=
  if present (apiKey req)
  then validateApiKey secretKey req
  else authenticate verifyToken req.

(** The second function of the chain: no role check on a request that came
    with a key. *)
Definition checkRole (req : Req) : Outcome :=
  if present (apiKey req)
  then Next req
  else authorize ["admin"] req.

(** [router.post('/')]: the limiter of the route, the two functions above
    and the handler.  [hits] is the number of import requests of the client
    the limiter has counted in the current window.  The general limiter of
    [app.js], which runs before every router, is not part of this chain. *)
Definition post (hits : nat) (req : Req) (rq : DatasetController.ImportRequest)
    (s : State) : State * Answer :=
  match datasetLimiter hits req with
  | Respond r => (s, Refused r)
  | Next req0 =>
      match identify req0 with
      | Respond r => (s, Refused r)
      | Next req1 =>
          match checkRole req1 with
          | Respond r => (s, Refused r)
          | Next _ =>
              let (s', r) := DatasetController.importDataset B W URL rq s in
              (s', Handled r)
          end
      end
  end.

End WithWorld.

End DatasetRoutes.

(* ================================================================== *)
(** ** The routing middleware of the frontend *)
(* ================================================================== *)


Module FrontendMiddleware.
Import Middleware.

Inductive NextResponse : Type :=
| redirect (pathname : string)
| next.

Definition protectedPaths : list string := ["/dashboard"].

(** [pathname.startsWith(path)] *)
Definition startsWith (pathname path : string) : bool := prefix path pathname.

(** [middleware], on the path of the request and the value of its
    [auth_token] cookie; a redirection is given by the path of its target,
    which [new URL(path, request.url)] resolves on the origin of the
    request. *)
Definition middleware (pathname : string) (authToken : option string)
  : NextResponse :=
  if existsb (fun path => startsWith pathname path) protectedPaths
     && negb (present authToken)
  then redirect "/login"
  else if existsb (String.eqb pathname) ["/login"; "/register"]
          && present authToken
  then redirect "/dashboard"
  else next.

End FrontendMiddleware.

(* ================================================================== *)
(** ** components/ui/DeltaDisplay.tsx *)
(* ================================================================== *)


Module DeltaDisplay.
Import Js.







Section WithIntl.

(** [new Intl.NumberFormat('en-US', { style: 'currency', ... }).format] and
    [new Intl.NumberFormat('en-US').format] *)
Variable formatCurrency : num -> string.
Variable formatNumber : num -> string.



End WithIntl.

End DeltaDisplay.

(* ================================================================== *)
(** ** models/User.js *)
(* ================================================================== *)


Module UserModel.
Import Js Models.

(** The attributes of a user; the time stamps are not represented. *)
Record UserValues : Type := {
  u_username : string;
  u_email : string;
  u_password : string;
  u_role : string;
  isActive : bool
}.

Abbreviation UserRow := (Row UserValues).

Record UserDb : Type := {
  users : list UserRow;
  nextUserId : Z
}.

(** The object [user.update] is given: the attributes to set. *)
Record UpdateData : Type := {
  d_username : option string;
  d_email : option string;
  d_role : option string;
  d_isActive : option bool
}.

(** The calls made on the model. *)
Inductive UserRequest : Type :=
| FindByPk (pk : num)
| FindOne (email : string) (username : option string)
| Update (pk : Z) (data : UpdateData)
| Destroy (pk : Z)
| Create (v : UserValues).

(** What the database does beyond storing rows: the calls it rejects
    (a value outside the enumeration of roles, a duplicate of a unique
    attribute, a lost connection), with the message of the error, and how it
    compares strings. *)
Record UserBackend : Type := {
  rejects : UserDb -> UserRequest -> option string;
  (** equality of two strings under the collation of a column *)
  equal : string -> string -> bool
}.

(** A user without its password, as [attributes: { exclude: ['password'] }]
    selects it. *)
Record Profile : Type := {
  p_id : Z;
  p_username : string;
  p_email : string;
  p_role : string;
  p_isActive : bool
}.

Definition profile (r : UserRow) : Profile :=
  {| p_id := id r;
     p_username := u_username (values r);
     p_email := u_email (values r);
     p_role := u_role (values r);
     p_isActive := isActive (values r) |}.

Definition set (data : UpdateData) (v : UserValues) : UserValues :=
  {| u_username := match d_username data with Some x => x | None => u_username v end;
     u_email := match d_email data with Some x => x | None => u_email v end;
     u_password := u_password v;
     u_role := match d_role data with Some x => x | None => u_role v end;
     isActive := match d_isActive data with Some x => x | None => isActive v end |}.

Section WithBackend.

Variable B : UserBackend.

Definition findByPk (pk : num) (d : UserDb) : Result (option UserRow) :=
  match rejects B d (FindByPk pk) with
  | Some message => Throw message
  | None => Ok (find (fun r => neq (of_Z (id r)) pk) (users d))
  end.

(** [User.findOne({ where: { email } })], or with [username] as an
    alternative. *)
Definition findOne (email : string) (username : option string) (d : UserDb)
  : Result (option UserRow) :=
  match rejects B d (FindOne email username) with
  | Some message => Throw message
  | None =>
      Ok (find (fun r =>
                  equal B (u_email (values r)) email
                  || match username with
                     | Some n => equal B (u_username (values r)) n
                     | None => false
                     end)
               (users d))
  end.

(** [user.update(data)] *)
Definition update (user : UserRow) (data : UpdateData) (d : UserDb)
  : UserDb * Result unit :=
  match rejects B d (Update (id user) data) with
  | Some message => (d, Throw message)
  | None =>
      ({| users :=
            map (fun r =>
                   if (id r =? id user)%Z
                   then Build_Row (id r) (set data (values r)) else r)
                (users d);
          nextUserId := nextUserId d |},
       Ok tt)
  end.

(** [user.destroy()] *)
Definition destroy (user : UserRow) (d : UserDb) : UserDb * Result unit :=
  match rejects B d (Destroy (id user)) with
  | Some message => (d, Throw message)
  | None =>
      ({| users := filter (fun r => negb (id r =? id user)%Z) (users d);
          nextUserId := nextUserId d |},
       Ok tt)
  end.

(** [User.create(v)] *)
Definition create (v : UserValues) (d : UserDb) : UserDb * Result UserRow :=
  match rejects B d (Create v) with
  | Some message => (d, Throw message)
  | None =>
      ({| users := users d ++ [Build_Row (nextUserId d) v];
          nextUserId := nextUserId d + 1 |},
       Ok (Build_Row (nextUserId d) v))
  end.

End WithBackend.

End UserModel.

(* ================================================================== *)
(** ** routers/usersRoutes.js *)
(* ================================================================== *)


Module UsersRoutes.
Import Js Models Middleware UserModel.

(** [req.body] of an update: each attribute is absent or of the type of its
    column. *)
Record UpdateBody : Type := {
  b_username : option string;
  b_email : option string;
  b_role : option string;
  b_isActive : option bool
}.

Inductive Body : Type :=
| ErrorBody (error message : string)
| UserBody (user : Profile)
| UpdatedBody (message : string) (user : option Profile)
| MessageBody (message : string).

Record Response : Type := { status : nat; body : Body }.

(** What a route answers: the reply of a middleware, or the response of its
    handler. *)
Inductive Answer : Type :=
| Refused (r : Reply)
| Handled (r : Response).

(** The error of reading a property of [req.user] when it is not set. *)
Definition noUser (property : string) : string :=
  "Cannot read properties of undefined (reading '" ++ property ++ "')".

Section WithBackend.

Variable B : UserBackend.
Variable verifyToken : string -> Result (option User).

(** The handler of [GET /:id]. *)
Definition getUser (req : Req) (id : string) (d : UserDb) : Response :=
  let userId := parseInt id in
  match user req with
  | None =>
      {| status := 500;
         body := ErrorBody "Failed to fetch user" (noUser "role") |}
  | Some u =>
      if negb (role u =? "admin") && negb (neq (of_Z (user_id u)) userId)
      then {| status := 403;
              body := ErrorBody "Access denied"
                        "You can only view your own profile" |}
      else
        match findByPk B userId d with
        | Throw message =>
            {| status := 500; body := ErrorBody "Failed to fetch user" message |}
        | Ok None =>
            {| status := 404;
               body := ErrorBody "User not found"
                         "The requested user does not exist" |}
        | Ok (Some row) => {| status := 200; body := UserBody (profile row) |}
        end
  end.

(** The handler of [PUT /:id]. *)
Definition putUser (req : Req) (id : string) (rq : UpdateBody) (d : UserDb)
  : UserDb * Response :=
  let userId := parseInt id in
  match user req with
  | None =>
      (d, {| status := 500;
             body := ErrorBody "Failed to update user" (noUser "role") |})
  | Some u =>
      let isAdmin := role u =? "admin" in
      let isOwnProfile := neq (of_Z (user_id u)) userId in
      if negb isAdmin && negb isOwnProfile
      then (d, {| status := 403;
                  body := ErrorBody "Access denied"
                            "You can only update your own profile" |})
      else
        match findByPk B userId d with
        | Throw message =>
            (d, {| status := 500;
                   body := ErrorBody "Failed to update user" message |})
        | Ok None =>
            (d, {| status := 404;
                   body := ErrorBody "User not found"
                             "The requested user does not exist" |})
        | Ok (Some row) =>
            let updateData :=
              {| d_username := given (b_username rq);
                 d_email := given (b_email rq);
                 d_role := if isAdmin then b_role rq else None;
                 d_isActive := if isAdmin then b_isActive rq else None |} in
            match update B row updateData d with
            | (d', Throw message) =>
                (d', {| status := 500;
                        body := ErrorBody "Failed to update user" message |})
            | (d', Ok _) =>
                match findByPk B userId d' with
                | Throw message =>
                    (d', {| status := 500;
                            body := ErrorBody "Failed to update user" message |})
                | Ok updatedUser =>
                    (d', {| status := 200;
                            body := UpdatedBody "User updated successfully"
                                      (option_map profile updatedUser) |})
                end
            end
        end
  end.

(** The handler of [DELETE /:id]. *)
Definition deleteUser (req : Req) (id : string) (d : UserDb)
  : UserDb * Response :=
  let userId := parseInt id in
  match user req with
  | None =>
      (d, {| status := 500;
             body := ErrorBody "Failed to delete user" (noUser "id") |})
  | Some u =>
      if neq (of_Z (user_id u)) userId
      then (d, {| status := 400;
                  body := ErrorBody "Cannot delete own account"
                            "You cannot delete your own admin account" |})
      else
        match findByPk B userId d with
        | Throw message =>
            (d, {| status := 500;
                   body := ErrorBody "Failed to delete user" message |})
        | Ok None =>
            (d, {| status := 404;
                   body := ErrorBody "User not found"
                             "The requested user does not exist" |})
        | Ok (Some row) =>
            match destroy B row d with
            | (d', Throw message) =>
                (d', {| status := 500;
                        body := ErrorBody "Failed to delete user" message |})
            | (d', Ok _) =>
                (d', {| status := 200;
                        body := MessageBody "User deleted successfully" |})
            end
        end
  end.

(** [router.get('/:id', authenticate, ...)] *)
Definition get_id (req : Req) (id : string) (d : UserDb) : Answer :=
  match authenticate verifyToken req with
  | Respond r => Refused r
  | Next req1 => Handled (getUser req1 id d)
  end.

(** [router.put('/:id', authenticate, ...)] *)
Definition put_id (req : Req) (id : string) (rq : UpdateBody) (d : UserDb)
  : UserDb * Answer :=
  match authenticate verifyToken req with
  | Respond r => (d, Refused r)
  | Next req1 => let (d', r) := putUser req1 id rq d in (d', Handled r)
  end.

(** [router.delete('/:id', authenticate, authorize('admin'), ...)] *)
Definition delete_id (req : Req) (id : string) (d : UserDb) : UserDb * Answer :=
  match authenticate verifyToken req with
  | Respond r => (d, Refused r)
  | Next req1 =>
      match authorize ["admin"] req1 with
      | Respond r => (d, Refused r)
      | Next req2 => let (d', r) := deleteUser req2 id d in (d', Handled r)
      end
  end.

End WithBackend.

End UsersRoutes.

(* ================================================================== *)
(** ** controller/authController.js *)
(* ================================================================== *)


Module AuthController.
Import Js Models Middleware UserModel.

Record RegisterBody : Type := {
  r_username : option string;
  r_email : option string;
  r_password : option string;
  r_role : option string
}.

Record LoginBody : Type := {
  l_email : option string;
  l_password : option string
}.

Inductive Body : Type :=
| ErrorBody (error message : string)
| SessionBody (message : string) (user : User).

(** The answer, with the token [res.cookie] sets, if any. *)
Record Response : Type := {
  status : nat;
  body : Body;
  cookie : option string
}.

Definition failure (status : nat) (error message : string) : Response :=
  {| status := status; body := ErrorBody error message; cookie := None |}.

(** What [generateToken] is given for a user. *)
Definition payload (r : UserRow) : User :=
  {| user_id := id r;
     username := u_username (values r);
     email := u_email (values r);
     role := u_role (values r) |}.

Section WithHelpers.

Variable B : UserBackend.

(** [helpers/passwordHelper] and [helpers/jwtHelper] *)
Variable hashPassword : string -> Result string.
Variable comparePassword : string -> string -> Result bool.
Variable generateToken : User -> Result string.

Definition register (rq : RegisterBody) (d : UserDb) : UserDb * Response :=
  match given (r_username rq), given (r_email rq), given (r_password rq) with
  | Some username, Some email, Some password =>
      match findOne B email (Some username) d with
      | Throw message => (d, failure 500 "Registration failed" message)
      | Ok (Some _) =>
          (d, failure 409 "User already exists"
                "Email or username already registered")
      | Ok None =>
          match hashPassword password with
          | Throw message => (d, failure 500 "Registration failed" message)
          | Ok hashedPassword =>
              match create B
                      {| u_username := username;
                         u_email := email;
                         u_password := hashedPassword;
                         u_role := match given (r_role rq) with
                                   | Some role => role
                                   | None => "user"
                                   end;
                         isActive := true |} d with
              | (d', Throw message) =>
                  (d', failure 500 "Registration failed" message)
              | (d', Ok user) =>
                  match generateToken (payload user) with
                  | Throw message =>
                      (d', failure 500 "Registration failed" message)
                  | Ok token =>
                      (d', {| status := 201;
                              body := SessionBody "User registered successfully"
                                        (payload user);
                              cookie := Some token |})
                  end
              end
          end
      end
  | _, _, _ =>
      (d, failure 400 "Validation error"
            "Username, email, and password are required")
  end.

Definition login (rq : LoginBody) (d : UserDb) : Response :=
  match given (l_email rq), given (l_password rq) with
  | Some email, Some password =>
      match findOne B email None d with
      | Throw message => failure 500 "Login failed" message
      | Ok None =>
          failure 401 "Authentication failed" "Invalid email or password"
      | Ok (Some user) =>
          if negb (isActive (values user))
          then failure 403 "Account disabled" "Your account has been disabled"
          else
            match comparePassword password (u_password (values user)) with
            | Throw message => failure 500 "Login failed" message
            | Ok false =>
                failure 401 "Authentication failed" "Invalid email or password"
            | Ok true =>
                match generateToken (payload user) with
                | Throw message => failure 500 "Login failed" message
                | Ok token =>
                    {| status := 200;
                       body := SessionBody "Login successful" (payload user);
                       cookie := Some token |}
                end
            end
      end
  | _, _ =>
      failure 400 "Validation error" "Email and password are required"
  end.

End WithHelpers.

End AuthController.

(* ================================================================== *)
(** ** Further predicates and scenarios *)
(* ================================================================== *)


Module MoreNotions.
Import Js DataHelper Models DatasetService Notions.

(** The digits of a decimal numeral, most significant first. *)
Fixpoint digits (d : Decimal.uint) : list Z :=
  match d with
  | Decimal.Nil => []
  | Decimal.D0 d => 0%Z :: digits d
  | Decimal.D1 d => 1%Z :: digits d
  | Decimal.D2 d => 2%Z :: digits d
  | Decimal.D3 d => 3%Z :: digits d
  | Decimal.D4 d => 4%Z :: digits d
  | Decimal.D5 d => 5%Z :: digits d
  | Decimal.D6 d => 6%Z :: digits d
  | Decimal.D7 d => 7%Z :: digits d
  | Decimal.D8 d => 8%Z :: digits d
  | Decimal.D9 d => 9%Z :: digits d
  end.

(** One step of reading a numeral: [acc] followed by the digit [d]. *)
Definition horner (acc d : Z) : Z := (10 * acc + d)%Z.

(** What [parseFloat] does once the sign is read. *)
Definition float_of_digits (neg : bool) (s1 : string) : num :=
  let '(ip, s2) := take_digits s1 in
  let fp := match s2 with String "." r => fst (take_digits r) | _ => [] end in
  match ip, fp with
  | [], [] => NaN
  | _, _ =>
      let v := digits_value 10 (ip ++ fp) in
      let den := Z.to_pos (10 ^ Z.of_nat (List.length fp)) in
      number_value (Qred (Qmake (if neg then - v else v) den))
  end.

(** The names of the expense categories, in the order of the source. *)
Definition categoryNames : list string :=
  ["Grants and similar amounts paid"; "Compensation of officers";
   "Other salaries and wages"; "Pension and benefits"; "Legal fees";
   "Accounting fees"; "Professional fundraising fees";
   "Other professional fees"; "Occupancy"; "Travel"; "Office expenses";
   "Depreciation"].

(** What a save on the organization [companyId] with the EIN [key] must
    leave alone: the organizations under other EINs and the children of
    other organizations. *)
Definition others_kept (key : JsVal) (companyId : Z) (d d' : Db) : Prop :=
  filter (fun r => negb (same_ein (ein (values r)) key)) (companies d')
  = filter (fun r => negb (same_ein (ein (values r)) key)) (companies d)
  /\ filter (fun r => negb (of_company companyId r)) (personnel d')
     = filter (fun r => negb (of_company companyId r)) (personnel d)
  /\ filter (fun r => negb (expense_of_company companyId r)) (expenseCategories d')
     = filter (fun r => negb (expense_of_company companyId r)) (expenseCategories d).

(** The state the unique key and the auto-incremented primary key of
    [companies] maintain. *)
Definition well_keyed (d : Db) : Prop :=
  (forall e, (List.length (rows_of_ein e d) <= 1)%nat)
  /\ NoDup (map id (companies d))
  /\ (forall r, In r (companies d) -> (id r < nextCompanyId d)%Z).

(** A backend that rejects the insertion of personnel rows and nothing
    else. *)
Definition rejectingPersonnel (message : string) : Backend :=
  {| fault := fun _ rq =>
       match rq with
       | BulkCreatePersonnel _ => Some message
       | _ => None
       end;
     matches := matches ideal;
     order := order ideal |}.

(** Every organization of [d] is still in [d'], under the same id and the
    same EIN. *)
Definition organizations_kept (d d' : Db) : Prop :=
  forall row, In row (companies d) ->
    exists row', In row' (companies d')
                 /\ id row' = id row
                 /\ same_ein (ein (values row')) (ein (values row)) = true.

(** A world whose archive holds a first filing and a document of no
    recognized form. *)
Definition mixed : World :=
  Scenarios.world None None
    [(Scenarios.documentPath, Some Scenarios.singleYear);
     ("/app/temp/irs_1700000000000_k3j9x2m1q_extracted/202302.xml",
      Some Scenarios.unrecognized)].

(** The state a run over [mixed] starts from: an older download is still
    on disk. *)
Definition littered : State :=
  {| fs := ["/app/temp/irs_1600000000000_old.zip"; "/app/temp"];
     db := Scenarios.afterFirst |}.

Definition mixedRun : State * Result Stats :=
  processDataset ideal mixed Scenarios.url None littered.

(** A request the import handler lets through its validation. *)
Definition acceptable (URL : string -> bool)
    (rq : DatasetController.ImportRequest) : Prop :=
  exists url,
    DatasetController.irsZipUrl rq = Some url
    /\ url <> ""
    /\ URL url = true
    /\ match DatasetController.maxCompanies rq with
       | DatasetController.Absent => True
       | DatasetController.Null => False
       | DatasetController.Count n => (1 <= n)%Z
       end.

(** Who the import route is meant for: the bearer of the secret key, or,
    when no key is sent, an administrator's session. *)
Definition authorized (verifyToken : string -> Result (option Middleware.User))
    (secretKey : string) (req : Middleware.Req) : Prop :=
  if Middleware.present (Middleware.apiKey req)
  then Middleware.apiKey req = Some secretKey
  else exists t u,
         Middleware.token req = Some t
         /\ t <> ""
         /\ verifyToken t = Ok (Some u)
         /\ Middleware.role u = "admin".


(** A world whose archive holds no document. *)
Definition emptyArchive : World := Scenarios.world None None [].

(** A token check that knows one administrator and one member. *)
Definition sessions (t : string) : Result (option Middleware.User) :=
  if t =? "admin-session"
  then Ok (Some {| Middleware.user_id := 1; Middleware.username := "root";
                   Middleware.email := "root@example.org";
                   Middleware.role := "admin" |})
  else if t =? "member-session"
  then Ok (Some {| Middleware.user_id := 2; Middleware.username := "member";
                   Middleware.email := "member@example.org";
                   Middleware.role := "user" |})
  else Ok None.

(** The user a request is authenticated as, if any. *)
Definition session (verifyToken : string -> Result (option Middleware.User))
    (req : Middleware.Req) : option Middleware.User :=
  match Middleware.given (Middleware.token req) with
  | Some t =>
      match verifyToken t with
      | Ok (Some u) => Some u
      | _ => None
      end
  | None => None
  end.

(** What an update by someone who is no administrator must leave alone in
    a user: the id, the role, the activation and the password. *)
Definition standing (r : UserModel.UserRow)
  : Z * string * bool * string :=
  (id r, UserModel.u_role (values r),
   UserModel.isActive (values r),
   UserModel.u_password (values r)).

(** A database of users that rejects nothing and compares strings
    exactly. *)
Definition plain : UserModel.UserBackend :=
  {| UserModel.rejects := fun _ _ => None;
     UserModel.equal := String.eqb |}.

(** An administrator, a member, and a member whose account is disabled. *)
Definition root : UserModel.UserRow :=
  Build_Row 1 {| UserModel.u_username := "root";
                 UserModel.u_email := "root@example.org";
                 UserModel.u_password := "hash:s3cretPass";
                 UserModel.u_role := "admin";
                 UserModel.isActive := true |}.

Definition member : UserModel.UserRow :=
  Build_Row 2 {| UserModel.u_username := "member";
                 UserModel.u_email := "member@example.org";
                 UserModel.u_password := "hash:Passw0rd";
                 UserModel.u_role := "user";
                 UserModel.isActive := true |}.

Definition former : UserModel.UserRow :=
  Build_Row 3 {| UserModel.u_username := "former";
                 UserModel.u_email := "former@example.org";
                 UserModel.u_password := "hash:0ldPassw";
                 UserModel.u_role := "user";
                 UserModel.isActive := false |}.

Definition staff : UserModel.UserDb :=
  {| UserModel.users := [root; member; former];
     UserModel.nextUserId := 4 |}.

(** Helpers that hash by prefixing, and sign by naming the user. *)
Definition hashing (password : string) : Result string :=
  Ok ("hash:" ++ password).

Definition comparing (password hash : string) : Result bool :=
  Ok (("hash:" ++ password) =? hash).

Definition signing (u : Middleware.User) : Result string :=
  Ok ("token:" ++ Middleware.username u).

End MoreNotions.


(* ================================================================== *)
(** ** Facts about numbers *)
(* ================================================================== *)


Module NumFacts.
Import Js.

Lemma nlt_Fin (x y : Q) : nlt (Fin x) (Fin y) = true <-> x < y.
Proof.
  simpl. rewrite negb_true_iff. split.
  - intros H. apply Qnot_le_lt. intros Hle.
    apply Qle_bool_iff in Hle. congruence.
  - intros H. destruct (Qle_bool y x) eqn:E; [|reflexivity].
    apply Qle_bool_iff in E. exfalso. exact (Qlt_not_le _ _ H E).
Qed.

Lemma nle_Fin (x y : Q) : nle (Fin x) (Fin y) = true <-> x <= y.
Proof. simpl. apply Qle_bool_iff. Qed.

Lemma ngt_Fin (x y : Q) : ngt (Fin x) (Fin y) = true <-> y < x.
Proof. unfold ngt. apply nlt_Fin. Qed.

Lemma ngt_Fin_false (x y : Q) : ngt (Fin x) (Fin y) = false <-> x <= y.
Proof.
  split.
  - intros H. apply Qnot_lt_le. intros Hlt. apply ngt_Fin in Hlt. congruence.
  - intros H. destruct (ngt (Fin x) (Fin y)) eqn:E; [|reflexivity].
    apply ngt_Fin in E. exfalso. exact (Qlt_not_le _ _ E H).
Qed.

Lemma neq_Fin (x y : Q) : neq (Fin x) (Fin y) = true <-> x == y.
Proof. simpl. apply Qeq_bool_iff. Qed.

Lemma neq_Fin_false (x y : Q) : neq (Fin x) (Fin y) = false <-> ~ x == y.
Proof.
  simpl. split.
  - intros H E. apply Qeq_bool_iff in E. congruence.
  - intros H. destruct (Qeq_bool x y) eqn:E; [|reflexivity].
    apply Qeq_bool_iff in E. contradiction.
Qed.

End NumFacts.

(* ================================================================== *)
(** ** The analytics layer *)
(* ================================================================== *)


Module AnalyticsFacts.
Import Js DataHelper Models CompaniesController Notions NumFacts.


(** The same over all numbers, NaN and the infinities included. *)
Lemma percentage_change_of_any_numbers (current previous : num) :
  calculatePercentageChange (CNum current) (CNum previous)
  = if neq previous (Fin 0)
    then (if ngt current (Fin 0) then CNum (Fin 100) else CNum (Fin 0))
    else CNum (nmul (ndiv (nsub current previous) previous) (Fin 100)).
Proof. reflexivity. Qed.


(** C7.  For a record whose current revenue and expenses and whose revenue
    and expense growth percentages are numbers, the classification is
    Profitable exactly when current revenue exceeds current expenses and the
    expense growth is at most the revenue growth; failing that it is Scaling
    exactly when the expense growth exceeds the revenue growth; failing both
    it is Restructuring. *)
Theorem classification_precedence
    (data : CompanyValues) (deltas : Deltas) (rev exp rg eg : Q) :
  currentRevenue data = CNum (Fin rev) ->
  currentExpenses data = CNum (Fin exp) ->
  percentage (revenue deltas) = CNum (Fin rg) ->
  percentage (expenses deltas) = CNum (Fin eg) ->
  let t := type (calculateClassification data deltas) in
  (t = "Profitable" <-> exp < rev /\ eg <= rg)
  /\ (t = "Scaling" <-> ~ (exp < rev /\ eg <= rg) /\ rg < eg)
  /\ (t = "Restructuring" <-> ~ (exp < rev /\ eg <= rg) /\ ~ rg < eg).
Proof.
  intros Hrev Hexp Hrg Heg. unfold calculateClassification.
  rewrite Hrev, Hexp, Hrg, Heg. simpl ToNumber.
  destruct (ngt (Fin rev) (Fin exp)) eqn:P;
    destruct (ngt (Fin eg) (Fin rg)) eqn:S; cbn [andb negb type];
    try apply ngt_Fin in P; try apply ngt_Fin_false in P;
    try apply ngt_Fin in S; try apply ngt_Fin_false in S;
    repeat split; intros; try discriminate; try reflexivity;
    try (exfalso; lra); try lra;
    try (intros [? ?]; lra);
    try (match goal with H : _ /\ _ |- _ => destruct H end; exfalso; lra);
    try (match goal with
         | H : ~ (_ /\ _) |- _ => exfalso; apply H; split; lra
         end).
Qed.

Lemma classification_precedence_witness :
  type (calculateClassification Scenarios.growing (deltasOf Scenarios.growing))
  = "Profitable".
Proof.
  apply (classification_precedence
           Scenarios.growing (deltasOf Scenarios.growing)
           150000 90000
           ((150000 - 120000) / 120000 * 100) ((90000 - 100000) / 100000 * 100));
    try reflexivity.
  split; [reflexivity | intros H; discriminate H].
Defined.

(** *** Null propagation *)

Lemma deltasOf_without_prior_year (data : CompanyValues) :
  hasPreviousData data = false ->
  deltasOf data
  = {| revenue := nullDelta; expenses := nullDelta;
       assets := nullDelta; employees := nullDelta |}.
Proof. intros H. unfold deltasOf. rewrite H. reflexivity. Qed.

Lemma hasPreviousData_true (data : CompanyValues) :
  hasPreviousData data = true <->
  exists r e a n,
    previousRevenue data = CNum r /\ previousExpenses data = CNum e
    /\ previousAssets data = CNum a /\ previousEmployeeCount data = CNum n.
Proof.
  unfold hasPreviousData. split.
  - destruct (previousRevenue data) as [| |r], (previousExpenses data) as [| |e],
      (previousAssets data) as [| |a], (previousEmployeeCount data) as [| |n];
      simpl; intros H; try discriminate H.
    exists r, e, a, n. repeat split.
  - intros (r & e & a & n & -> & -> & -> & ->). reflexivity.
Qed.

Lemma hasPreviousData_false (data : CompanyValues) :
  hasPreviousData data = false <->
  cell_nullish (previousRevenue data) = true
  \/ cell_nullish (previousExpenses data) = true
  \/ cell_nullish (previousAssets data) = true
  \/ cell_nullish (previousEmployeeCount data) = true.
Proof.
  unfold hasPreviousData.
  destruct (previousRevenue data), (previousExpenses data),
    (previousAssets data), (previousEmployeeCount data); simpl;
    intuition discriminate.
Qed.

Lemma deltasOf_with_prior_year (data : CompanyValues) :
  hasPreviousData data = true ->
  computed (revenue (deltasOf data)) = true
  /\ computed (expenses (deltasOf data)) = true
  /\ computed (assets (deltasOf data)) = true
  /\ computed (employees (deltasOf data)) = true.
Proof.
  intros H. unfold deltasOf. rewrite H.
  apply hasPreviousData_true in H.
  destruct H as (r & e & a & n & Hr & He & Ha & Hn).
  rewrite Hr, He, Ha, Hn. unfold computed. simpl.
  repeat split;
    repeat match goal with
           | |- context [if ?b then _ else _] => destruct b
           end; reflexivity.
Qed.

(** The listing annotates every row it returns with [deltasOf]. *)
Lemma listing_deltas (B : Backend) (q : Query) (d : Db) data pagination :
  body (fst (getAllCompanies B q d)) = ListBody data pagination ->
  Forall (fun '(company, deltas) => deltas = deltasOf (values company)) data.
Proof.
  unfold getAllCompanies.
  repeat match goal with
         | |- context [if ?b then _ else _] => destruct b; try discriminate
         | |- context [match ?m with (_, _) => _ end] => destruct m as [? [[? rows]|?]]
         end; simpl; intros H; try discriminate H;
    injection H as <- _;
    apply Forall_forall; intros [c ds] Hin;
    apply in_map_iff in Hin; destruct Hin as (x & Hx & _);
    injection Hx as <- <-; reflexivity.
Qed.

(** Without prior-year data the analytics block is never built: formatting
    the null asset growth rate raises a TypeError. *)
Lemma analyticsOf_without_prior_year (data : CompanyValues) :
  hasPreviousData data = false ->
  analyticsOf data (deltasOf data)
  = Throw "Cannot read properties of null (reading 'toFixed')".
Proof.
  intros H. rewrite (deltasOf_without_prior_year data H). reflexivity.
Qed.

(** C3.  For a record held to have no prior-year data, the employee
    percentage delta is null and is nevertheless run through the badge
    ladder, which answers Downsizing; the analytics block is never built:
    formatting the null asset growth rate raises a TypeError. *)
Theorem analytics_without_prior_year (data : CompanyValues) :
  hasPreviousData data = false ->
  percentage (employees (deltasOf data)) = CNull
  /\ (exists g, calculateStaffingGrowth (employees (deltasOf data)) = Ok g
                /\ badge g = "Downsizing")
  /\ analyticsOf data (deltasOf data)
     = Throw "Cannot read properties of null (reading 'toFixed')".
Proof.
  intros H. split; [|split].
  - rewrite (deltasOf_without_prior_year data H). reflexivity.
  - rewrite (deltasOf_without_prior_year data H).
    eexists. split; reflexivity.
  - exact (analyticsOf_without_prior_year data H).
Qed.

Lemma analytics_without_prior_year_witness :
  analyticsOf Scenarios.noPriorRevenue (deltasOf Scenarios.noPriorRevenue)
  = Throw "Cannot read properties of null (reading 'toFixed')".
Proof.
  apply (analytics_without_prior_year Scenarios.noPriorRevenue). reflexivity.
Defined.

(** C2.  The detail operation on a stored record with a null or absent
    previous-year field answers 500 and returns no delta pair at all. *)
Theorem detail_without_prior_year
    (B : Backend) (pk : Z) (d : Db) (company : Company) :
  fault B d (FindByPk pk) = None ->
  find (fun r => (id r =? pk)%Z) (companies d) = Some company ->
  hasPreviousData (values company) = false ->
  getCompanyById B pk d
  = {| status := 500;
       body := ErrorBody "Failed to fetch company"
                 (Some "Cannot read properties of null (reading 'toFixed')") |}.
Proof.
  intros Hf Hfind Hprev.
  unfold getCompanyById, Company_findByPk, call.
  rewrite Hf, Hfind.
  rewrite (analyticsOf_without_prior_year _ Hprev).
  reflexivity.
Qed.

Lemma calculateStaffingGrowth_returns (delta : Delta) :
  exists g, calculateStaffingGrowth delta = Ok g.
Proof.
  unfold calculateStaffingGrowth, increase.
  destruct (percentage delta) as [| |n]; cbn [cell_toFixed];
    repeat match goal with
           | |- context [if ?c then _ else _] => destruct c eqn:?
           end; try discriminate; eexists; reflexivity.
Qed.

(** With the four previous-year fields set, the detail operation answers
    200 and returns the computed delta pairs. *)
Lemma detail_with_prior_year
    (B : Backend) (pk : Z) (d : Db) (company : Company) :
  fault B d (FindByPk pk) = None ->
  find (fun r => (id r =? pk)%Z) (companies d) = Some company ->
  hasPreviousData (values company) = true ->
  exists personnel expenseCategories analytics,
    getCompanyById B pk d
    = {| status := 200;
         body := DetailBody company personnel expenseCategories
                            (deltasOf (values company)) analytics |}.
Proof.
  intros Hf Hfind Hprev.
  unfold getCompanyById, Company_findByPk, call.
  rewrite Hf, Hfind. unfold analyticsOf.
  destruct (calculateStaffingGrowth_returns
              (employees (deltasOf (values company)))) as [g ->].
  destruct (deltasOf_with_prior_year _ Hprev) as (_ & _ & Ha & _).
  unfold computed in Ha. apply andb_true_iff in Ha. destruct Ha as [_ Ha].
  destruct (percentage (assets (deltasOf (values company))));
    try discriminate Ha.
  cbn [cell_toFixed]. eexists. eexists. eexists. reflexivity.
Qed.

Lemma detail_without_prior_year_witness :
  getCompanyById ideal 1 (Scenarios.oneCompany Scenarios.noPriorRevenue)
  = {| status := 500;
       body := ErrorBody "Failed to fetch company"
                 (Some "Cannot read properties of null (reading 'toFixed')") |}.
Proof.
  apply (detail_without_prior_year ideal 1 _
           (Build_Row 1 Scenarios.noPriorRevenue)); reflexivity.
Defined.

(** *** Pagination *)

Lemma parseInt_cases (s : string) :
  parseInt s = NaN \/ (exists z, parseInt s = of_Z z)
  \/ parseInt s = PInf \/ parseInt s = NInf.
Proof.
  unfold parseInt.
  repeat match goal with
         | |- context [let '(_, _) := ?X in _] => destruct X
         end.
  match goal with
  | |- context [match ?ds with [] => _ | _ :: _ => _ end] => destruct ds
  end.
  - left. reflexivity.
  - right. unfold number_value.
    repeat match goal with
           | |- context [if Qle_bool ?x ?y then _ else _] => destruct (Qle_bool x y)
           end; auto.
    + left. exists 0%Z. reflexivity.
    + left. eexists. reflexivity.
Qed.

Lemma nlt_of_Z (a b : Z) : nlt (of_Z a) (of_Z b) = true <-> (a < b)%Z.
Proof.
  unfold of_Z. rewrite nlt_Fin. unfold Qlt, inject_Z. simpl. lia.
Qed.

Lemma nlt_of_Z_false (a b : Z) : nlt (of_Z a) (of_Z b) = false <-> (b <= a)%Z.
Proof.
  split.
  - intros H. destruct (Z_lt_le_dec a b) as [Hlt|Hle]; [|exact Hle].
    apply nlt_of_Z in Hlt. congruence.
  - intros H. destruct (nlt (of_Z a) (of_Z b)) eqn:E; [|reflexivity].
    apply nlt_of_Z in E. lia.
Qed.

Lemma to_nat_of_Z (z : Z) : to_nat (of_Z z) = Z.to_nat z.
Proof. unfold to_nat, of_Z. rewrite Qfloor_Z. reflexivity. Qed.

Lemma page_check (s : string) :
  isNaN (parseInt s) || nlt (parseInt s) (Fin 1) = false
  <-> parses_from s 1 \/ parseInt s = PInf.
Proof.
  unfold parses_from.
  destruct (parseInt_cases s) as [E|[[z E]|[E|E]]]; rewrite E.
  - simpl. split; [discriminate|].
    intros [(z & Hz & _)|Hz]; discriminate Hz.
  - change (Fin 1) with (of_Z 1). simpl isNaN. rewrite orb_false_l.
    rewrite nlt_of_Z_false. split.
    + intros H. left. exists z. split; [reflexivity | exact H].
    + intros [(z' & Hz & H)|Hz]; [|discriminate Hz].
      unfold of_Z in Hz. injection Hz as Hz. lia.
  - simpl. split; [right; reflexivity | reflexivity].
  - simpl. split; [discriminate|].
    intros [(z & Hz & _)|Hz]; discriminate Hz.
Qed.

Lemma limit_check (s : string) :
  isNaN (parseInt s) || nlt (parseInt s) (Fin 1) || ngt (parseInt s) (Fin 100)
  = false
  <-> parses_within s 1 100.
Proof.
  unfold parses_within.
  destruct (parseInt_cases s) as [E|[[z E]|[E|E]]]; rewrite E.
  - simpl. split; [discriminate|]. intros (z & Hz & _). discriminate Hz.
  - change (Fin 1) with (of_Z 1). change (Fin 100) with (of_Z 100).
    simpl isNaN. rewrite orb_false_l. unfold ngt.
    rewrite orb_false_iff, !nlt_of_Z_false. split.
    + intros H. exists z. split; [reflexivity | lia].
    + intros (z' & Hz & H). unfold of_Z in Hz. injection Hz as Hz.
      lia.
  - simpl. split; [discriminate|]. intros (z & Hz & _). discriminate Hz.
  - simpl. split; [discriminate|]. intros (z & Hz & _). discriminate Hz.
Qed.

(** C10.  The listing answers 400, with an error body and without any call
    on the models, to a request whose page parses to NaN or to a number below
    1, or whose limit does not parse to an integer between 1 and 100.  A
    request whose page parses to an integer of at least 1 and whose limit to
    an integer between 1 and 100 reaches the query and is answered with at
    most limit records.  A page that parses to Infinity, the numeral being
    beyond the range of the numbers, is no integer; the check of the page
    lets it through all the same, and the query is made. *)
Theorem listing_admits_unbounded_page (B : Backend) (q : Query) (d : Db) :
  let page := default "1" (q_page q) in
  let limit := default "25" (q_limit q) in
  (isNaN (parseInt page) = true \/ nlt (parseInt page) (Fin 1) = true
   \/ ~ parses_within limit 1 100 ->
   status (fst (getAllCompanies B q d)) = 400%nat
   /\ (exists e, body (fst (getAllCompanies B q d)) = ErrorBody e None)
   /\ snd (getAllCompanies B q d) = [])
  /\ (parses_from page 1 ->
      parses_within limit 1 100 ->
      status (fst (getAllCompanies B q d)) <> 400%nat
      /\ snd (getAllCompanies B q d) = [FindAndCountAll]
      /\ (records (fst (getAllCompanies B q d)) <= to_nat (parseInt limit))%nat
      /\ (to_nat (parseInt limit) <= 100)%nat)
  /\ (parseInt page = PInf ->
      parses_within limit 1 100 ->
      ~ parses_from page 1
      /\ status (fst (getAllCompanies B q d)) <> 400%nat
      /\ snd (getAllCompanies B q d) = [FindAndCountAll]).
Proof.
  intros page limit. unfold getAllCompanies. fold page limit.
  destruct (isNaN (parseInt page) || nlt (parseInt page) (Fin 1)) eqn:Ep.
  - split; [|split].
    + intros _. simpl. repeat split. eexists. reflexivity.
    + intros Hp. assert (Hp' := or_introl (parseInt page = PInf) Hp).
      apply page_check in Hp'. congruence.
    + intros Hp. assert (Hp' := or_intror (parses_from page 1) Hp).
      apply page_check in Hp'. congruence.
  - pose proof (proj1 (page_check page) Ep) as Hpage.
    apply orb_false_iff in Ep. destruct Ep as [Ep1 Ep2].
    destruct (isNaN (parseInt limit) || nlt (parseInt limit) (Fin 1)
              || ngt (parseInt limit) (Fin 100)) eqn:El.
    + split; [|split].
      * intros _. simpl. repeat split. eexists. reflexivity.
      * intros _ Hl. apply limit_check in Hl. congruence.
      * intros _ Hl. apply limit_check in Hl. congruence.
    + pose proof (proj1 (limit_check limit) El) as Hlimit.
      split; [intros [H|[H|H]]; [congruence | congruence | contradiction]|].
      unfold Company_findAndCountAll, call.
      split.
      * intros _ _.
        destruct (fault B d FindAndCountAll); unfold records;
          cbn [fst snd body status].
        -- repeat split; [discriminate | apply Nat.le_0_l |].
           destruct Hlimit as (z & Hz & Hr). rewrite Hz, to_nat_of_Z. lia.
        -- repeat split; [discriminate | |].
           ++ rewrite length_map. apply firstn_le_length.
           ++ destruct Hlimit as (z & Hz & Hr). rewrite Hz, to_nat_of_Z. lia.
      * intros Hinf _. split.
        -- intros (z & Hz & _). rewrite Hinf in Hz. discriminate Hz.
        -- destruct (fault B d FindAndCountAll); cbn [fst snd body status];
             split; try discriminate; reflexivity.
Qed.

Lemma listing_admits_unbounded_page_witness :
  parseInt Scenarios.longPage = PInf
  /\ status (fst (getAllCompanies ideal
                    {| q_search := None; q_sortBy := None; q_sortOrder := None;
                       q_page := Some Scenarios.longPage; q_limit := None |}
                    (Scenarios.oneCompany Scenarios.growing))) <> 400%nat
  /\ snd (getAllCompanies ideal
            {| q_search := None; q_sortBy := None; q_sortOrder := None;
               q_page := Some Scenarios.longPage; q_limit := None |}
            (Scenarios.oneCompany Scenarios.growing)) = [FindAndCountAll].
Proof.
  assert (E : parseInt Scenarios.longPage = PInf) by (vm_compute; reflexivity).
  split; [exact E|].
  destruct (listing_admits_unbounded_page ideal
              {| q_search := None; q_sortBy := None; q_sortOrder := None;
                 q_page := Some Scenarios.longPage; q_limit := None |}
              (Scenarios.oneCompany Scenarios.growing)) as (_ & _ & H).
  destruct H as (_ & Hs & Hc).
  - exact E.
  - exists 25%Z. split; [vm_compute; reflexivity | lia].
  - split; [exact Hs | exact Hc].
Defined.

End AnalyticsFacts.

(* ================================================================== *)
(** ** The mapper *)
(* ================================================================== *)


Module MapperFacts.
Import Js DataHelper Notions.

Lemma number_value_cases (q : Q) :
  (exists r, number_value q = Fin r)
  \/ number_value q = PInf \/ number_value q = NInf.
Proof.
  unfold number_value.
  repeat match goal with
         | |- context [if Qle_bool ?x ?y then _ else _] => destruct (Qle_bool x y)
         end; eauto.
Qed.

Lemma parseFloat_cases (s : string) :
  parseFloat s = NaN \/ (exists q, parseFloat s = Fin q)
  \/ parseFloat s = PInf \/ parseFloat s = NInf.
Proof.
  unfold parseFloat.
  repeat match goal with
         | |- context [let '(_, _) := ?X in _] => destruct X
         end.
  match goal with
  | |- context [match ?a with [] => _ | _ :: _ => _ end] => destruct a
  end;
    [match goal with
     | |- context [match ?a with [] => _ | _ :: _ => _ end] => destruct a
     end|];
    first [left; reflexivity | right; apply number_value_cases].
Qed.

(** [extractNumber] answers a number, finite or infinite, whatever it is
    given: never NaN. *)
Lemma extractNumber_cases (v : JsVal) :
  (exists q, extractNumber v = Fin q)
  \/ extractNumber v = PInf \/ extractNumber v = NInf.
Proof.
  unfold extractNumber.
  destruct (negb (truthy (extractText v))); [left; exists 0; reflexivity|].
  destruct (parseFloat_cases
              (filter_string numeric_char (ToString (extractText v))))
    as [E|[[q E]|[E|E]]]; rewrite E; simpl; eauto.
Qed.

Lemma extractNumber_not_NaN (v : JsVal) : isNaN (extractNumber v) = false.
Proof.
  destruct (extractNumber_cases v) as [[q E]|[E|E]]; rewrite E; reflexivity.
Qed.

Lemma extractNumber_zero : extractNumber XmlParser.zero = Fin 0.
Proof. reflexivity. Qed.

(** C8.  An officer entry with none of the three name members is not
    discarded: the mapper emits a personnel record for it, named
    "null null". *)
Theorem officer_without_name_is_emitted (officer : JsVal) :
  truthy officer = true ->
  get officer "PersonNm" = JUndef ->
  get officer "Name" = JUndef ->
  get officer "PersonName" = JUndef ->
  exists title compensation,
    XmlParser.extractOfficer officer
    = Some {| XmlParser.fullName := JStr "null null";
              XmlParser.title := title;
              XmlParser.compensation := compensation |}.
Proof.
  intros Ht H1 H2 H3. unfold XmlParser.extractOfficer.
  rewrite Ht, H1, H2, H3. cbn -[extractNumber extractText get].
  change (extractText (get JUndef "FirstName")) with JNull.
  change (extractText (get JUndef "LastName")) with JNull.
  change (extractText JUndef) with JNull.
  cbn -[extractNumber extractText get].
  eexists. eexists. reflexivity.
Qed.

Lemma officer_without_name_is_emitted_witness :
  exists title compensation,
    XmlParser.extractOfficer Scenarios.namelessOfficer
    = Some {| XmlParser.fullName := JStr "null null";
              XmlParser.title := title;
              XmlParser.compensation := compensation |}.
Proof.
  apply (officer_without_name_is_emitted Scenarios.namelessOfficer);
    reflexivity.
Defined.

Example nameless_officer_in_a_form :
  XmlParser.extractPersonnel
    (JObj [("Form990PartVIISectionAGrp", Scenarios.namelessOfficer)])
  = [{| XmlParser.fullName := JStr "null null";
        XmlParser.title := JStr "Director";
        XmlParser.compensation := Fin 0 |}].
Proof. reflexivity. Qed.

End MapperFacts.

(* ================================================================== *)
(** ** The persistence layer *)
(* ================================================================== *)


Module PersistenceFacts.
Import Js DataHelper Models DatasetService Notions.

Lemma same_ein_refl (a : JsVal) : same_ein a a = true.
Proof. unfold same_ein. apply String.eqb_refl. Qed.

Lemma same_ein_eq (a b : JsVal) : same_ein a b = true <-> ToString a = ToString b.
Proof. unfold same_ein. apply String.eqb_eq. Qed.

Lemma same_ein_key (a b c : JsVal) :
  same_ein a b = true -> same_ein c a = same_ein c b.
Proof. unfold same_ein. intros H. apply String.eqb_eq in H. rewrite H. reflexivity. Qed.

Lemma map_values_number_from {V : Type} (n : Z) (vs : list V) :
  map values (number_from n vs) = vs.
Proof.
  revert n. induction vs as [|v vs IH]; intros n; simpl; [|rewrite IH]; reflexivity.
Qed.

Lemma find_first {A : Type} (p : A -> bool) (l : list A) (x : A) :
  find p l = Some x -> exists rest, filter p l = x :: rest.
Proof.
  induction l as [|y l IH]; simpl; [discriminate|].
  destruct (p y) eqn:E.
  - intros H. injection H as ->. eauto.
  - exact IH.
Qed.

Lemma filter_none {A : Type} (p : A -> bool) (l : list A) :
  find p l = None -> filter p l = [].
Proof.
  induction l as [|y l IH]; simpl; [reflexivity|].
  destruct (p y); [discriminate | exact IH].
Qed.

Lemma filter_filter_negb {A : Type} (p : A -> bool) (l : list A) :
  filter p (filter (fun x => negb (p x)) l) = [].
Proof.
  induction l as [|y l IH]; simpl; [reflexivity|].
  destruct (p y) eqn:E; simpl; [|rewrite E]; exact IH.
Qed.

Lemma filter_all {A : Type} (p : A -> bool) (l : list A) :
  Forall (fun x => p x = true) l -> filter p l = l.
Proof.
  induction 1 as [|y l Hy _ IH]; simpl; [reflexivity|].
  rewrite Hy, IH. reflexivity.
Qed.

(** The rows stored under the key of [v] once [v] is upserted. *)
Lemma upsert_row_key (v : CompanyValues) (d : Db) :
  (List.length (rows_of_ein (ein v) d) <= 1)%nat ->
  rows_of_ein (ein v) (fst (upsert_row v d)) = [snd (upsert_row v d)]
  /\ values (snd (upsert_row v d)) = v.
Proof.
  unfold rows_of_ein, upsert_row. intros Huniq.
  destruct (find (fun r => same_ein (ein (values r)) (ein v)) (companies d))
    as [r|] eqn:Ef; simpl.
  - split; [|reflexivity].
    destruct (find_first _ _ _ Ef) as [rest Er]. rewrite Er in Huniq.
    destruct rest; [|simpl in Huniq; lia].
    clear Ef Huniq. revert Er.
    induction (companies d) as [|x l IH]; simpl; [discriminate|].
    destruct (same_ein (ein (values x)) (ein v)) eqn:Ex; simpl.
    + rewrite same_ein_refl. intros H. injection H as -> Hl. f_equal.
      clear IH. induction l as [|y l IH]; simpl in *; [reflexivity|].
      destruct (same_ein (ein (values y)) (ein v)) eqn:Ey; [discriminate|].
      simpl. rewrite Ey. exact (IH Hl).
    + rewrite Ex. exact IH.
  - split; [|reflexivity].
    rewrite filter_app, (filter_none _ _ Ef). simpl.
    rewrite same_ein_refl. reflexivity.
Qed.

(** Every row stored under the key of [v] after the upsert holds [v]. *)
Lemma upsert_row_values (v : CompanyValues) (d : Db) (row : Company) :
  In row (companies (fst (upsert_row v d))) ->
  same_ein (ein (values row)) (ein v) = true ->
  values row = v.
Proof.
  unfold upsert_row.
  destruct (find (fun r => same_ein (ein (values r)) (ein v)) (companies d))
    as [r|] eqn:Ef; simpl; intros Hin Hkey.
  - apply in_map_iff in Hin. destruct Hin as (x & Hx & _).
    destruct (same_ein (ein (values x)) (ein v)) eqn:Ex.
    + subst row. reflexivity.
    + subst row. congruence.
  - apply in_app_or in Hin. destruct Hin as [Hin|[<-|[]]]; [|reflexivity].
    pose proof (find_none _ _ Ef _ Hin) as Hn. simpl in Hn. congruence.
Qed.

Section WithWorld.

Variable B : Backend.
Variable W : World.

Lemma call_result {A : Type} (rq : Request) (run : Db -> Db * A) (d : Db) :
  (exists message, call B rq run d = (d, Throw message))
  \/ call B rq run d = (fst (run d), Ok (snd (run d))).
Proof.
  unfold call. destruct (fault B d rq) as [message|].
  - left. exists message. reflexivity.
  - right. destruct (run d). reflexivity.
Qed.

Ltac step_call :=
  match goal with
  | |- context [call B ?rq ?run ?d] =>
      let E := fresh "E" in
      destruct (call_result rq run d) as [[? E]|E]; rewrite E; clear E;
      [intros; discriminate | cbn beta iota zeta]
  end.

Lemma upsert_row_children (v : CompanyValues) (d : Db) :
  personnel (fst (upsert_row v d)) = personnel d
  /\ expenseCategories (fst (upsert_row v d)) = expenseCategories d.
Proof.
  unfold upsert_row.
  destruct (find (fun r => same_ein (ein (values r)) (ein v)) (companies d));
    split; reflexivity.
Qed.

(** What a save that returns has done to the three tables. *)
Lemma saveToDatabase_Ok (filing : XmlParser.Filing) (d d' : Db) :
  saveToDatabase B W filing d = (d', Ok tt) ->
  let v := companyValues W (XmlParser.company filing) in
  let companyId := id (snd (upsert_row v d)) in
  companies d' = companies (fst (upsert_row v d))
  /\ (exists n,
        personnel d'
        = (filter (fun r => negb (of_company companyId r)) (personnel d)
           ++ number_from n (personnelData companyId (XmlParser.personnel filing)))%list)
  /\ (exists n,
        expenseCategories d'
        = (filter (fun r => negb (expense_of_company companyId r))
                  (expenseCategories d)
           ++ number_from n (expenseData companyId (XmlParser.company filing)
                                         (XmlParser.expenses filing)))%list).
Proof.
  unfold saveToDatabase.
  destruct (negb (truthy (XmlParser.ein (XmlParser.company filing))));
    [discriminate|].
  unfold bind, Company_upsert, Personnel_destroy, ExpenseCategory_destroy.
  destruct (upsert_row_children (companyValues W (XmlParser.company filing)) d)
    as [Hp He].
  do 3 step_call.
  destruct (XmlParser.personnel filing) as [|p ps];
    destruct (XmlParser.expenses filing) as [|e es];
    cbn [List.length Nat.ltb Nat.leb];
    unfold Personnel_bulkCreate, ExpenseCategory_bulkCreate, ret;
    repeat step_call;
    intros H; injection H as <-;
    cbn [fst snd companies personnel expenseCategories
         with_personnel with_expenses nextPersonnelId nextExpenseId];
    rewrite ?Hp, ?He;
    (split; [reflexivity|]);
    split; eexists;
    first [reflexivity
          | cbn [personnelData expenseData map number_from];
            rewrite app_nil_r; reflexivity].
  Unshelve. all: exact 0%Z.
Qed.

(** A call never rejected by the backend. *)
Lemma call_faultless {A : Type} (rq : Request) (run : Db -> Db * A) (d : Db) :
  (forall d rq, fault B d rq = None) ->
  call B rq run d = (fst (run d), Ok (snd (run d))).
Proof.
  intros H. unfold call. rewrite H. destruct (run d). reflexivity.
Qed.

Lemma saveToDatabase_returns (filing : XmlParser.Filing) (d : Db) :
  (forall d rq, fault B d rq = None) ->
  truthy (XmlParser.ein (XmlParser.company filing)) = true ->
  exists d', saveToDatabase B W filing d = (d', Ok tt).
Proof.
  intros Hf Ht. unfold saveToDatabase. rewrite Ht. cbn [negb].
  unfold bind, Company_upsert, Personnel_destroy, ExpenseCategory_destroy.
  do 3 (rewrite call_faultless by exact Hf; cbn beta iota zeta).
  destruct (0 <? List.length (XmlParser.personnel filing))%nat;
    destruct (0 <? List.length (XmlParser.expenses filing))%nat;
    unfold Personnel_bulkCreate, ExpenseCategory_bulkCreate, ret;
    repeat (rewrite call_faultless by exact Hf; cbn beta iota zeta);
    eexists; reflexivity.
Qed.

Lemma number_from_of_company (companyId n : Z)
    (ps : list XmlParser.PersonnelItem) :
  Forall (fun r => of_company companyId r = true)
         (number_from n (personnelData companyId ps)).
Proof.
  revert n. induction ps as [|p ps IH]; intros n; simpl; constructor.
  - unfold of_company. simpl. apply Z.eqb_refl.
  - apply IH.
Qed.

Lemma number_from_expense_of_company (companyId n : Z)
    (c : XmlParser.CompanyData) (es : list XmlParser.ExpenseItem) :
  Forall (fun r => expense_of_company companyId r = true)
         (number_from n (expenseData companyId c es)).
Proof.
  revert n. induction es as [|e es IH]; intros n; simpl; constructor.
  - unfold expense_of_company. simpl. apply Z.eqb_refl.
  - apply IH.
Qed.

(** C4.  Two successive saves of filings bearing the same EIN, into a
    database holding at most one row for it, both return when the backend
    rejects no call; and whenever they return they leave exactly one
    organization row for that EIN, carrying the scalar fields of the second
    filing, and the personnel and expense-category rows of that organization
    are the children of the second filing, one row for each in their order,
    attribute by attribute, and no other row. *)
Theorem saveToDatabase_replaces (a b : XmlParser.Filing) (d : Db) :
  same_ein (XmlParser.ein (XmlParser.company a))
           (XmlParser.ein (XmlParser.company b)) = true ->
  (List.length (rows_of_ein (XmlParser.ein (XmlParser.company a)) d) <= 1)%nat ->
  ((forall d rq, fault B d rq = None) ->
   truthy (XmlParser.ein (XmlParser.company a)) = true ->
   truthy (XmlParser.ein (XmlParser.company b)) = true ->
   exists d1 d2,
     saveToDatabase B W a d = (d1, Ok tt)
     /\ saveToDatabase B W b d1 = (d2, Ok tt))
  /\ (forall d1 d2,
        saveToDatabase B W a d = (d1, Ok tt) ->
        saveToDatabase B W b d1 = (d2, Ok tt) ->
        exists row,
          rows_of_ein (XmlParser.ein (XmlParser.company b)) d2 = [row]
          /\ values row
             = {| ein := XmlParser.ein (XmlParser.company b);
                  name := XmlParser.name (XmlParser.company b);
                  website := XmlParser.website (XmlParser.company b);
                  mission := XmlParser.mission (XmlParser.company b);
                  currentRevenue :=
                    CNum (XmlParser.currentRevenue (XmlParser.company b));
                  currentExpenses :=
                    CNum (XmlParser.currentExpenses (XmlParser.company b));
                  currentAssets :=
                    CNum (XmlParser.currentAssets (XmlParser.company b));
                  currentEmployeeCount :=
                    CNum (XmlParser.currentEmployeeCount (XmlParser.company b));
                  previousRevenue :=
                    CNum (XmlParser.previousRevenue (XmlParser.company b));
                  previousExpenses :=
                    CNum (XmlParser.previousExpenses (XmlParser.company b));
                  previousAssets :=
                    CNum (XmlParser.previousAssets (XmlParser.company b));
                  previousEmployeeCount :=
                    CNum (XmlParser.previousEmployeeCount (XmlParser.company b));
                  taxYear :=
                    CNum (if num_truthy (XmlParser.taxYear (XmlParser.company b))
                          then XmlParser.taxYear (XmlParser.company b)
                          else of_Z (currentYear W));
                  filingDate := XmlParser.filingDate (XmlParser.company b) |}
          /\ map values (filter (of_company (id row)) (personnel d2))
             = map (fun p =>
                      {| p_companyId := id row;
                         fullName := XmlParser.fullName p;
                         title := XmlParser.title p;
                         compensation := CNum (XmlParser.compensation p) |})
                   (XmlParser.personnel b)
          /\ map values (filter (expense_of_company (id row))
                                (expenseCategories d2))
             = map (fun e =>
                      {| e_companyId := id row;
                         category := XmlParser.category e;
                         amount := CNum (XmlParser.amount e);
                         e_taxYear :=
                           CNum (XmlParser.taxYear (XmlParser.company b)) |})
                   (XmlParser.expenses b)
          /\ List.length (filter (of_company (id row)) (personnel d2))
             = List.length (XmlParser.personnel b)
          /\ List.length (filter (expense_of_company (id row))
                                 (expenseCategories d2))
             = List.length (XmlParser.expenses b)).
Proof.
  intros Hkey Huniq. split.
  { intros Hf Ha Hb.
    destruct (saveToDatabase_returns a d Hf Ha) as [d1 H1].
    destruct (saveToDatabase_returns b d1 Hf Hb) as [d2 H2].
    exists d1, d2. split; assumption. }
  intros d1 d2 H1 H2.
  destruct (saveToDatabase_Ok a d d1 H1) as (Hc1 & _ & _).
  destruct (saveToDatabase_Ok b d1 d2 H2) as (Hc2 & (n & Hp2) & (m & He2)).
  cbv zeta in Hc1, Hc2, Hp2, He2.
  set (va := companyValues W (XmlParser.company a)) in *.
  set (vb := companyValues W (XmlParser.company b)) in *.
  change (XmlParser.ein (XmlParser.company a)) with (ein va) in Hkey, Huniq.
  change (XmlParser.ein (XmlParser.company b)) with (ein vb) in Hkey.
  destruct (upsert_row_key va d Huniq) as [Ha _].
  assert (Hone : (List.length (rows_of_ein (ein vb) d1) <= 1)%nat).
  { unfold rows_of_ein in *. rewrite Hc1.
    rewrite (filter_ext _ (fun r => same_ein (ein (values r)) (ein va))).
    - rewrite Ha. simpl. lia.
    - intros r. symmetry. apply same_ein_key. exact Hkey. }
  destruct (upsert_row_key vb d1 Hone) as [Hb Hv].
  set (row := snd (upsert_row vb d1)) in *.
  assert (Hp : map values (filter (of_company (id row)) (personnel d2))
               = personnelData (id row) (XmlParser.personnel b)).
  { rewrite Hp2, filter_app, filter_filter_negb. simpl.
    rewrite (filter_all _ _ (number_from_of_company _ _ _)).
    apply map_values_number_from. }
  assert (He : map values (filter (expense_of_company (id row))
                                  (expenseCategories d2))
               = expenseData (id row) (XmlParser.company b)
                             (XmlParser.expenses b)).
  { rewrite He2, filter_app, filter_filter_negb. simpl.
    rewrite (filter_all _ _ (number_from_expense_of_company _ _ _ _)).
    apply map_values_number_from. }
  exists row. split; [|split; [|split; [|split; [|split]]]].
  - unfold rows_of_ein in *. rewrite Hc2. exact Hb.
  - exact Hv.
  - exact Hp.
  - exact He.
  - apply (f_equal (@List.length _)) in Hp.
    unfold personnelData in Hp. rewrite !length_map in Hp. exact Hp.
  - apply (f_equal (@List.length _)) in He.
    unfold expenseData in He. rewrite !length_map in He. exact He.
Qed.

Lemma parse_Some (year : Z) (xml : option JsVal) (filing : XmlParser.Filing) :
  XmlParser.parse year xml = Some filing ->
  exists parsed irs990,
    xml = Some parsed
    /\ truthy (XmlParser.ein (XmlParser.company filing)) = true
    /\ filing
       = {| XmlParser.company :=
              XmlParser.merge (XmlParser.extractCompanyInfo year parsed irs990)
                              (XmlParser.extractFinancialData irs990);
            XmlParser.personnel := XmlParser.extractPersonnel irs990;
            XmlParser.expenses := XmlParser.extractExpenses irs990 |}.
Proof.
  unfold XmlParser.parse. destruct xml as [parsed|]; [|discriminate].
  repeat match goal with
         | |- context [if negb (truthy ?v) then None else _] =>
             destruct (truthy v) eqn:?; cbn [negb]; [|discriminate]
         end.
  intros H. injection H as <-. eexists. eexists.
  split; [reflexivity|]. split; [|reflexivity]. assumption.
Qed.

Lemma parse_form (year : Z) (parsed : JsVal) (filing : XmlParser.Filing) :
  XmlParser.parse year (Some parsed) = Some filing ->
  filing
  = {| XmlParser.company :=
         XmlParser.merge (XmlParser.extractCompanyInfo year parsed (formOf parsed))
                         (XmlParser.extractFinancialData (formOf parsed));
       XmlParser.personnel := XmlParser.extractPersonnel (formOf parsed);
       XmlParser.expenses := XmlParser.extractExpenses (formOf parsed) |}.
Proof.
  unfold XmlParser.parse, formOf.
  repeat match goal with
         | |- context [if negb (truthy ?v) then None else _] =>
             destruct (truthy v) eqn:?; cbn [negb]; [|discriminate]
         end.
  intros H. injection H as <-. reflexivity.
Qed.

(** C9.  The four previous-year fields of every filing the mapper produces
    are numbers, never NaN, and each of them is 0 when the form carries no
    truthy element for it; every organization row a save of that filing
    leaves under its EIN passes the read side's prior-year check and gets
    all four delta pairs computed. *)
Theorem previous_year_never_null (xml : option JsVal) (filing : XmlParser.Filing) :
  XmlParser.parse (currentYear W) xml = Some filing ->
  (isNaN (XmlParser.previousRevenue (XmlParser.company filing)) = false
   /\ isNaN (XmlParser.previousExpenses (XmlParser.company filing)) = false
   /\ isNaN (XmlParser.previousAssets (XmlParser.company filing)) = false
   /\ isNaN (XmlParser.previousEmployeeCount (XmlParser.company filing)) = false)
  /\ (exists parsed,
        xml = Some parsed
        /\ (truthy (get (formOf parsed) "PYTotalRevenueAmt") = false ->
            truthy (get (get (formOf parsed) "TotalRevenueGrp") "PriorYearAmt")
            = false ->
            XmlParser.previousRevenue (XmlParser.company filing) = Fin 0)
        /\ (truthy (get (formOf parsed) "PYTotalExpensesAmt") = false ->
            truthy (get (get (formOf parsed) "TotalExpensesGrp") "PriorYearAmt")
            = false ->
            XmlParser.previousExpenses (XmlParser.company filing) = Fin 0)
        /\ (truthy (get (formOf parsed) "TotalAssetsBOYAmt") = false ->
            truthy (get (get (formOf parsed) "TotalAssetsGrp") "BOYAmt") = false ->
            truthy (get (get (formOf parsed) "Form990TotalAssetsGrp") "BOYAmt")
            = false ->
            XmlParser.previousAssets (XmlParser.company filing) = Fin 0)
        /\ (truthy (get (formOf parsed) "PYTotalEmployeeCnt") = false ->
            XmlParser.previousEmployeeCount (XmlParser.company filing) = Fin 0))
  /\ (forall d d' row,
        saveToDatabase B W filing d = (d', Ok tt) ->
        In row (companies d') ->
        same_ein (ein (values row))
                 (XmlParser.ein (XmlParser.company filing)) = true ->
        CompaniesController.hasPreviousData (values row) = true
        /\ computed (CompaniesController.revenue
                       (CompaniesController.deltasOf (values row))) = true
        /\ computed (CompaniesController.expenses
                       (CompaniesController.deltasOf (values row))) = true
        /\ computed (CompaniesController.assets
                       (CompaniesController.deltasOf (values row))) = true
        /\ computed (CompaniesController.employees
                       (CompaniesController.deltasOf (values row))) = true).
Proof.
  intros Hparse.
  destruct xml as [parsed|]; [|discriminate Hparse].
  rewrite (parse_form _ _ _ Hparse).
  cbn [XmlParser.company XmlParser.merge XmlParser.previousRevenue
       XmlParser.previousExpenses XmlParser.previousAssets
       XmlParser.previousEmployeeCount XmlParser.extractFinancialData
       XmlParser.f_previousRevenue XmlParser.f_previousExpenses
       XmlParser.f_previousAssets XmlParser.f_previousEmployeeCount].
  split; [|split].
  - repeat split; apply MapperFacts.extractNumber_not_NaN.
  - exists parsed. split; [reflexivity|].
    generalize (formOf parsed). intros irs990.
    unfold or_. repeat split.
    + intros H1 H2. rewrite H1, H2. reflexivity.
    + intros H1 H2. rewrite H1, H2. reflexivity.
    + intros H1 H2 H3. rewrite H1, H2, H3. reflexivity.
    + intros H1. rewrite H1. reflexivity.
  - intros d d' row Hsave Hin Hkey.
    destruct (saveToDatabase_Ok _ _ _ Hsave) as (Hc & _ & _).
    cbv zeta in Hc. rewrite Hc in Hin.
    pose proof (upsert_row_values _ _ _ Hin Hkey) as Hv.
    assert (Hprev : CompaniesController.hasPreviousData (values row) = true)
      by (rewrite Hv; reflexivity).
    split; [exact Hprev|].
    apply AnalyticsFacts.deltasOf_with_prior_year. exact Hprev.
Qed.

End WithWorld.

Lemma first_save :
  saveToDatabase ideal Scenarios.quiet (Scenarios.filingOf Scenarios.singleYear)
    emptyDb
  = (Scenarios.afterFirst, Ok tt).
Proof. vm_compute. reflexivity. Qed.

Lemma second_save :
  saveToDatabase ideal Scenarios.quiet (Scenarios.filingOf Scenarios.secondYear)
    Scenarios.afterFirst
  = (Scenarios.afterSecond, Ok tt).
Proof. vm_compute. reflexivity. Qed.

Lemma saveToDatabase_replaces_witness :
  exists row,
    rows_of_ein
      (XmlParser.ein (XmlParser.company (Scenarios.filingOf Scenarios.secondYear)))
      Scenarios.afterSecond = [row]
    /\ map (fun r => (fullName (values r), title (values r)))
           (filter (of_company (id row)) (personnel Scenarios.afterSecond))
       = [(JStr "Bo Chen", JStr "CFO")]
    /\ filter (expense_of_company (id row))
              (expenseCategories Scenarios.afterSecond) = [].
Proof.
  destruct (saveToDatabase_replaces ideal Scenarios.quiet
              (Scenarios.filingOf Scenarios.singleYear)
              (Scenarios.filingOf Scenarios.secondYear)
              emptyDb) as [_ H].
  - vm_compute. reflexivity.
  - simpl. lia.
  - destruct (H Scenarios.afterFirst Scenarios.afterSecond first_save second_save)
      as (row & Hrow & _ & Hp & _ & _ & He).
    exists row. split; [exact Hrow|]. split.
    + apply (f_equal (map (fun v => (fullName v, title v)))) in Hp.
      rewrite !map_map in Hp. cbn [fullName title] in Hp.
      rewrite Hp. vm_compute. reflexivity.
    + apply length_zero_iff_nil. rewrite He. vm_compute. reflexivity.
Defined.

(** The two filings of the scenario: one row, the officer and no expense row
    of the second filing. *)
Example second_save_replaces_children :
  map id (companies Scenarios.afterSecond) = [1%Z]
  /\ map (fun r => fullName (values r)) (personnel Scenarios.afterFirst)
     = [JStr "Ann Lee"]
  /\ map (fun r => fullName (values r)) (personnel Scenarios.afterSecond)
     = [JStr "Bo Chen"]
  /\ List.length (expenseCategories Scenarios.afterFirst) = 1%nat
  /\ expenseCategories Scenarios.afterSecond = [].
Proof. repeat split; vm_compute; reflexivity. Qed.

Lemma previous_year_never_null_witness :
  XmlParser.previousRevenue
    (XmlParser.company (Scenarios.filingOf Scenarios.singleYear)) = Fin 0
  /\ CompaniesController.hasPreviousData
       (companyValues Scenarios.quiet
          (XmlParser.company (Scenarios.filingOf Scenarios.singleYear))) = true.
Proof.
  assert (E : XmlParser.parse (currentYear Scenarios.quiet)
                (Some Scenarios.singleYear)
              = Some (Scenarios.filingOf Scenarios.singleYear))
    by (vm_compute; reflexivity).
  destruct (previous_year_never_null ideal Scenarios.quiet
              (Some Scenarios.singleYear)
              (Scenarios.filingOf Scenarios.singleYear) E)
    as (_ & Hzero & Hrows).
  split.
  - destruct Hzero as (parsed & E' & Hrevenue & _).
    injection E' as <-. apply Hrevenue; vm_compute; reflexivity.
  - apply (Hrows emptyDb Scenarios.afterFirst
             (Build_Row 1 (companyValues Scenarios.quiet
                             (XmlParser.company
                                (Scenarios.filingOf Scenarios.singleYear))))).
    + exact first_save.
    + vm_compute. left. reflexivity.
    + vm_compute. reflexivity.
Defined.

(** A first filing stores four zeros, and its deltas are numbers. *)
Example single_year_filing_is_stored_with_zeros :
  map (fun r => (previousRevenue (values r), previousExpenses (values r),
                 previousAssets (values r), previousEmployeeCount (values r)))
      (companies Scenarios.afterFirst)
  = [(CNum (Fin 0), CNum (Fin 0), CNum (Fin 0), CNum (Fin 0))]
  /\ map (fun r => CompaniesController.percentage
                     (CompaniesController.revenue
                        (CompaniesController.deltasOf (values r))))
         (companies Scenarios.afterFirst)
     = [CNum (Fin 100)].
Proof. split; vm_compute; reflexivity. Qed.

End PersistenceFacts.

(* ================================================================== *)
(** ** The ingestion run *)
(* ================================================================== *)


Module IngestionFacts.
Import Js DataHelper Models DatasetService Notions.

Lemma exists_path_ensure (fs : Fs) (p : string) :
  exists_path (ensureDirectoryExists fs p) p = true.
Proof.
  unfold ensureDirectoryExists. destruct (exists_path fs p) eqn:E; [exact E|].
  unfold exists_path. simpl. rewrite String.eqb_refl. reflexivity.
Qed.

Lemma exists_path_unlink_other (fs : Fs) (p q : string) :
  (p =? q) = false -> exists_path (unlink fs q) p = exists_path fs p.
Proof.
  intros Hne. unfold exists_path, unlink.
  induction fs as [|x fs IH]; simpl; [reflexivity|].
  destruct (x =? q) eqn:Ex; simpl.
  - apply String.eqb_eq in Ex. subst x. rewrite Hne. exact IH.
  - rewrite IH. reflexivity.
Qed.

Lemma exists_path_unlink (fs : Fs) (p : string) :
  exists_path (unlink fs p) p = false.
Proof.
  unfold exists_path, unlink.
  induction fs as [|x fs IH]; simpl; [reflexivity|].
  destruct (x =? p) eqn:Ex; simpl; [exact IH|].
  rewrite String.eqb_sym, Ex. exact IH.
Qed.

Lemma In_firstn {A : Type} (n : nat) (l : list A) (x : A) :
  In x (firstn n l) -> In x l.
Proof.
  revert l. induction n as [|n IH]; intros [|y l]; simpl; try tauto.
  intros [H|H]; [left; exact H | right; exact (IH _ H)].
Qed.

Lemma filter_rejects_all {A : Type} (p : A -> bool) (l : list A) :
  (forall x, In x l -> p x = false) -> filter p l = [].
Proof.
  induction l as [|x l IH]; intros Hall; [reflexivity|].
  cbn [filter]. rewrite (Hall x (or_introl eq_refl)).
  apply IH. intros y Hy. apply Hall. right. exact Hy.
Qed.

Section WithWorld.

Variable B : Backend.
Variable W : World.

Lemma In_filesToProcess (maxCompanies : option Z) (files : list string) (f : string) :
  In f (filesToProcess maxCompanies files) -> In f files.
Proof.
  unfold filesToProcess, slice0. destruct maxCompanies as [m|]; [|tauto].
  destruct (truthy_max (Some m)); [|tauto].
  destruct (m <? 0)%Z; apply In_firstn.
Qed.

(** C6.  When the download succeeds and the expansion of the archive fails,
    the run raises the error of the expansion; the archive file is removed
    and the working directory is still there. *)
Theorem failed_expansion_leaves_working_directory
    (irsZipUrl : string) (maxCompanies : option Z) (s : State) (message : string) :
  download W irsZipUrl = None ->
  extract W (archivePath W) = Some message ->
  (workingDirectory W =? archivePath W) = false ->
  snd (processDataset B W irsZipUrl maxCompanies s) = Throw message
  /\ exists_path (fs (fst (processDataset B W irsZipUrl maxCompanies s)))
                 (archivePath W) = false
  /\ exists_path (fs (fst (processDataset B W irsZipUrl maxCompanies s)))
                 (workingDirectory W) = true.
Proof.
  intros Hd He Hne. unfold processDataset. rewrite Hd, He. cbn [fst snd fs].
  split; [reflexivity|]. split.
  - apply exists_path_unlink.
  - rewrite (exists_path_unlink_other _ _ _ Hne). apply exists_path_ensure.
Qed.

Lemma processXmlFile_rejected (f content : string) (stats : Stats) (d : Db) :
  readFile W f = Ok content ->
  XmlParser.parse (currentYear W) (xmlParse W content) = None ->
  processXmlFile B W f stats d = (d, count_processed stats, Ok tt).
Proof. intros Hr Hp. unfold processXmlFile. rewrite Hr, Hp. reflexivity. Qed.

(** The loop returns when no file is unreadable and no call is rejected; it
    leaves the error list as it found it. *)
Lemma processFiles_returns (maxCompanies : option Z) (files : list string) :
  (forall f, In f files -> exists content, readFile W f = Ok content) ->
  (forall d rq, fault B d rq = None) ->
  forall stats d,
  exists d' stats',
    processFiles B W maxCompanies files stats d = (d', stats', Ok tt)
    /\ errors stats' = errors stats
    /\ totalFiles stats' = totalFiles stats.
Proof.
  intros Hread Hf.
  induction files as [|f files IH]; intros stats d; cbn [processFiles].
  - exists d, stats. repeat split.
  - destruct (Hread f (or_introl eq_refl)) as [content Hc].
    assert (IH' := IH (fun g Hg => Hread g (or_intror Hg))). clear IH.
    unfold processXmlFile. rewrite Hc.
    destruct (XmlParser.parse (currentYear W) (xmlParse W content))
      as [filing|] eqn:Hp.
    + destruct (PersistenceFacts.parse_Some _ _ _ Hp) as (_ & _ & _ & Ht & _).
      destruct (PersistenceFacts.saveToDatabase_returns B W filing d Hf Ht) as [d1 ->].
      match goal with
      | |- context [if ?c then _ else _] => destruct c
      end.
      * eexists. eexists. repeat split.
      * destruct (IH' (count_saved (count_processed stats)) d1)
          as (d' & stats' & -> & He & Ht').
        exists d', stats'. repeat split; assumption.
    + match goal with
      | |- context [if ?c then _ else _] => destruct c
      end.
      * eexists. eexists. repeat split.
      * destruct (IH' (count_processed stats) d)
          as (d' & stats' & -> & He & Ht').
        exists d', stats'. repeat split; assumption.
Qed.

Lemma room_filesToProcess (maxCompanies : option Z) (files : list string)
    (stats : Stats) :
  (forall m, maxCompanies = Some m -> (0 <= m)%Z) ->
  saved stats = 0%Z ->
  room maxCompanies stats (filesToProcess maxCompanies files).
Proof.
  intros Hmax Hs. unfold room, filesToProcess.
  destruct maxCompanies as [m|]; [|exact I].
  intros Ht. rewrite Ht, Hs. specialize (Hmax m eq_refl).
  unfold slice0. destruct (m <? 0)%Z eqn:Em; [apply Z.ltb_lt in Em; lia|].
  rewrite length_firstn. lia.
Qed.

(** The loop over readable documents with a faultless backend, when the
    limit leaves room: every file is visited and counted as processed, the
    accepted ones are counted as saved, and nothing reaches the error list.
    Where no document is accepted the database stays as it was. *)
Lemma processFiles_counts (maxCompanies : option Z) (files : list string) :
  (forall f, In f files -> exists content, readFile W f = Ok content) ->
  (forall d rq, fault B d rq = None) ->
  forall stats d,
  room maxCompanies stats files ->
  exists d',
    processFiles B W maxCompanies files stats d
    = (d',
       {| totalFiles := totalFiles stats;
          processed := processed stats + Z.of_nat (List.length files);
          saved := saved stats
                   + Z.of_nat (List.length (filter (accepted W) files));
          errors := errors stats |},
       Ok tt)
    /\ (filter (accepted W) files = [] -> d' = d).
Proof.
  intros Hread Hf.
  induction files as [|f files IH]; intros stats d Hroom; cbn [processFiles].
  - exists d. split; [|reflexivity].
    destruct stats; cbn. rewrite !Z.add_0_r. reflexivity.
  - destruct (Hread f (or_introl eq_refl)) as [content Hc].
    assert (IH' := IH (fun g Hg => Hread g (or_intror Hg))). clear IH.
    cbn [filter]. unfold processXmlFile. rewrite Hc.
    destruct (XmlParser.parse (currentYear W) (xmlParse W content))
      as [filing|] eqn:Hp.
    + assert (Ha : accepted W f = true)
        by (unfold accepted; rewrite Hc, Hp; reflexivity).
      rewrite Ha.
      destruct (PersistenceFacts.parse_Some _ _ _ Hp) as (_ & _ & _ & Ht & _).
      destruct (PersistenceFacts.saveToDatabase_returns B W filing d Hf Ht)
        as [d1 ->].
      set (stats1 := count_saved (count_processed stats)).
      destruct (truthy_max maxCompanies
                && match maxCompanies with
                   | Some m => (saved stats1 >=? m)%Z
                   | None => false
                   end) eqn:Estop.
      * (* the limit is reached: this was the last file *)
        destruct maxCompanies as [m|]; [|discriminate Estop].
        apply andb_prop in Estop. destruct Estop as [Ht' Hge].
        apply Z.geb_le in Hge. specialize (Hroom Ht').
        cbn [saved stats1 count_saved count_processed List.length] in Hge, Hroom.
        destruct files as [|g files]; [|cbn [List.length] in Hroom; lia].
        exists d1. split; [reflexivity | discriminate].
      * destruct (IH' stats1 d1) as (d' & -> & _).
        { unfold room in *. destruct maxCompanies as [m|]; [|exact I].
          intros Ht'. specialize (Hroom Ht').
          cbn [saved stats1 count_saved count_processed List.length] in *. lia. }
        exists d'. cbn iota. split; [|discriminate].
        cbn [totalFiles processed saved errors stats1 count_saved
             count_processed List.length].
        do 2 f_equal. f_equal; lia.
    + assert (Ha : accepted W f = false)
        by (unfold accepted; rewrite Hc, Hp; reflexivity).
      rewrite Ha.
      set (stats1 := count_processed stats).
      destruct (truthy_max maxCompanies
                && match maxCompanies with
                   | Some m => (saved stats1 >=? m)%Z
                   | None => false
                   end) eqn:Estop.
      * destruct maxCompanies as [m|]; [|discriminate Estop].
        apply andb_prop in Estop. destruct Estop as [Ht' Hge].
        apply Z.geb_le in Hge. specialize (Hroom Ht').
        cbn [saved stats1 count_processed List.length] in Hge, Hroom. lia.
      * destruct (IH' stats1 d) as (d' & -> & Hd).
        { unfold room in *. destruct maxCompanies as [m|]; [|exact I].
          intros Ht'. specialize (Hroom Ht').
          cbn [saved stats1 count_processed List.length] in *. lia. }
        exists d'. cbn iota. split; [|exact Hd].
        cbn [totalFiles processed saved errors stats1 count_processed
             List.length].
        do 2 f_equal. f_equal; lia.
Qed.

(** C1, amended.  A document the mapper rejects (unparseable XML, no
    recognized form, no EIN) is counted as processed and nothing else: it is
    not saved, nothing is raised, the error list and the database stay as
    they were, and the loop goes on with the next document unless the
    document limit is reached.  Once the archive is expanded and its
    documents are enumerated, a run in which no document is unreadable and no
    database call is rejected completes and returns statistics with an empty
    error list, whatever mix of accepted and rejected documents it meets:
    with a limit that is absent or not negative every candidate is counted
    as processed and exactly the accepted ones as saved; where every
    candidate is rejected the database is left as it was. *)
Theorem run_skips_rejected_documents
    (irsZipUrl : string) (maxCompanies : option Z) (s : State)
    (files : list string) :
  (forall f content stats d,
     readFile W f = Ok content ->
     XmlParser.parse (currentYear W) (xmlParse W content) = None ->
     processXmlFile B W f stats d = (d, count_processed stats, Ok tt)
     /\ forall rest,
         processFiles B W maxCompanies (f :: rest) stats d
         = if truthy_max maxCompanies
              && match maxCompanies with
                 | Some m => (saved stats >=? m)%Z
                 | None => false
                 end
           then (d, count_processed stats, Ok tt)
           else processFiles B W maxCompanies rest (count_processed stats) d)
  /\ (download W irsZipUrl = None ->
      extract W (archivePath W) = None ->
      getXmlFiles W (workingDirectory W) = Ok files ->
      (forall f, In f files -> exists content, readFile W f = Ok content) ->
      (forall d rq, fault B d rq = None) ->
      exists s' stats,
        processDataset B W irsZipUrl maxCompanies s = (s', Ok stats)
        /\ errors stats = ErrList []
        /\ totalFiles stats = Z.of_nat (List.length files)
        /\ ((forall m, maxCompanies = Some m -> (0 <= m)%Z) ->
            processed stats
            = Z.of_nat (List.length (filesToProcess maxCompanies files))
            /\ saved stats
               = Z.of_nat (List.length
                             (filter (accepted W)
                                     (filesToProcess maxCompanies files)))
            /\ ((forall f content,
                   In f files -> readFile W f = Ok content ->
                   XmlParser.parse (currentYear W) (xmlParse W content)
                   = None) ->
                saved stats = 0%Z /\ db s' = db s))).
Proof.
  split.
  - intros f content stats d Hc Hp.
    assert (Hone := processXmlFile_rejected f content stats d Hc Hp).
    split; [exact Hone|].
    intros rest. cbn [processFiles]. rewrite Hone. reflexivity.
  - intros Hd He Hl Hread Hf.
    unfold processDataset. rewrite Hd, He, Hl.
    set (stats0 := {| totalFiles := Z.of_nat (List.length files);
                      processed := processed initialStats;
                      saved := saved initialStats;
                      errors := errors initialStats |}).
    assert (Hread' : forall f, In f (filesToProcess maxCompanies files) ->
                               exists content, readFile W f = Ok content)
      by (intros f Hin; exact (Hread f (In_filesToProcess _ _ _ Hin))).
    destruct (processFiles_returns maxCompanies _ Hread' Hf stats0 (db s))
      as (d' & stats' & Hrun & Herr & Htot).
    rewrite Hrun. eexists. exists stats'.
    split; [reflexivity|]. split; [exact Herr|]. split; [exact Htot|].
    intros Hmax.
    destruct (processFiles_counts maxCompanies _ Hread' Hf stats0 (db s)
                (room_filesToProcess maxCompanies files stats0 Hmax eq_refl))
      as (d1 & Hcount & Hsame).
    rewrite Hcount in Hrun. injection Hrun as <- <-.
    cbn [processed saved stats0 initialStats db].
    split; [reflexivity|]. split; [reflexivity|].
    intros Hrej.
    assert (Hnone : filter (accepted W) (filesToProcess maxCompanies files) = []).
    { assert (Hall : forall f, In f (filesToProcess maxCompanies files) ->
                               accepted W f = false).
      { intros f Hin. destruct (Hread' f Hin) as [content Hc].
        unfold accepted. rewrite Hc.
        rewrite (Hrej f content (In_filesToProcess _ _ _ Hin) Hc). reflexivity. }
      exact (filter_rejects_all _ _ Hall). }
    rewrite Hnone. split; [reflexivity|]. exact (Hsame Hnone).
Qed.

End WithWorld.

Lemma failed_expansion_leaves_working_directory_witness :
  snd (processDataset ideal
         (Scenarios.world None (Some "7-Zip: Data Error in archive") [])
         Scenarios.url None Scenarios.start)
  = Throw "7-Zip: Data Error in archive"
  /\ fs (fst (processDataset ideal
                (Scenarios.world None (Some "7-Zip: Data Error in archive") [])
                Scenarios.url None Scenarios.start))
     = ["/app/temp/irs_1700000000000_k3j9x2m1q_extracted"; "/app/temp"].
Proof.
  destruct (failed_expansion_leaves_working_directory ideal
              (Scenarios.world None (Some "7-Zip: Data Error in archive") [])
              Scenarios.url None Scenarios.start
              "7-Zip: Data Error in archive")
    as (Hthrow & _ & _); try reflexivity.
  split; [exact Hthrow | reflexivity].
Defined.

(** A save the backend rejects: the handler of the loop turns
    [stats.errors] into a number and then calls [push] on it; the TypeError
    leaves the loop and the run, which removes the archive only. *)
Example rejected_save_aborts_the_run :
  processDataset Scenarios.rejecting
    (Scenarios.world None None
       [(Scenarios.documentPath, Some Scenarios.singleYear)])
    Scenarios.url None Scenarios.start
  = ({| fs := ["/app/temp/irs_1700000000000_k3j9x2m1q_extracted"; "/app/temp"];
        db := emptyDb |},
     Throw "stats.errors.push is not a function").
Proof. reflexivity. Qed.

(** C1, counterexample.  A run over one document whose payload is none of
    the four forms: the mapper rejects the document, and the run returns
    statistics whose error list is empty. *)
Lemma rejected_document_is_not_recorded :
  XmlParser.parse 2025 (Some Scenarios.unrecognized) = None
  /\ snd (processDataset ideal
            (Scenarios.world None None
               [(Scenarios.documentPath, Some Scenarios.unrecognized)])
            Scenarios.url None Scenarios.start)
     = Ok {| totalFiles := 1; processed := 1; saved := 0;
             errors := ErrList [] |}.
Proof. split; reflexivity. Qed.

Lemma run_skips_rejected_documents_witness :
  exists s' stats,
    processDataset ideal
      (Scenarios.world None None
         [(Scenarios.documentPath, Some Scenarios.unrecognized);
          ("/app/temp/irs_1700000000000_k3j9x2m1q_extracted/202302.xml",
           Some Scenarios.singleYear);
          ("/app/temp/irs_1700000000000_k3j9x2m1q_extracted/202303.xml", None)])
      Scenarios.url (Some 5%Z) Scenarios.start
    = (s', Ok stats)
    /\ errors stats = ErrList []
    /\ totalFiles stats = 3%Z
    /\ processed stats = 3%Z
    /\ saved stats = 1%Z.
Proof.
  destruct (run_skips_rejected_documents ideal
              (Scenarios.world None None
                 [(Scenarios.documentPath, Some Scenarios.unrecognized);
                  ("/app/temp/irs_1700000000000_k3j9x2m1q_extracted/202302.xml",
                   Some Scenarios.singleYear);
                  ("/app/temp/irs_1700000000000_k3j9x2m1q_extracted/202303.xml",
                   None)])
              Scenarios.url (Some 5%Z) Scenarios.start
              [Scenarios.documentPath;
               "/app/temp/irs_1700000000000_k3j9x2m1q_extracted/202302.xml";
               "/app/temp/irs_1700000000000_k3j9x2m1q_extracted/202303.xml"])
    as [_ Hrun].
  destruct Hrun as (s' & stats & Hrun & Herr & Htot & Hcount).
  - reflexivity.
  - reflexivity.
  - reflexivity.
  - intros f _. exists f. reflexivity.
  - intros d rq. reflexivity.
  - destruct Hcount as (Hp & Hs & _).
    + intros m Hm. injection Hm as <-. lia.
    + exists s', stats.
      split; [exact Hrun|]. split; [exact Herr|]. split; [exact Htot|].
      split; [exact Hp|].
      rewrite Hs. vm_compute. reflexivity.
Defined.

(** A run over a rejected, an accepted and an unparseable document, in that
    order: all three are counted as processed, one as saved. *)
Example mixed_run_counts :
  snd (processDataset ideal
         (Scenarios.world None None
            [(Scenarios.documentPath, Some Scenarios.unrecognized);
             ("/app/temp/irs_1700000000000_k3j9x2m1q_extracted/202302.xml",
              Some Scenarios.singleYear);
             ("/app/temp/irs_1700000000000_k3j9x2m1q_extracted/202303.xml",
              None)])
         Scenarios.url None Scenarios.start)
  = Ok {| totalFiles := 3; processed := 3; saved := 1; errors := ErrList [] |}.
Proof. vm_compute. reflexivity. Qed.

End IngestionFacts.

(* ================================================================== *)
(** ** Further properties of the field extractor *)
(* ================================================================== *)


Module ExtractorProps.
Import Js DataHelper MoreNotions.

(** *** Paths *)

Lemma split_acc_app (sep : ascii) (a b cur : string) :
  split_acc sep (a ++ String sep b) cur
  = (split_acc sep a cur ++ split_acc sep b EmptyString)%list.
Proof.
  revert cur. induction a as [|c a IH]; intros cur; simpl.
  - rewrite Ascii.eqb_refl. reflexivity.
  - destruct (Ascii.eqb c sep); simpl; rewrite IH; reflexivity.
Qed.

Lemma nested_step_nothing (acc : JsVal) (part : string) :
  nullish acc = true -> nested_step acc part = JUndef.
Proof. destruct acc; try discriminate; reflexivity. Qed.

Lemma fold_nested_step_nothing (parts : list string) (acc : JsVal) :
  nullish acc = true -> fold_left nested_step parts acc = JUndef \/ parts = [].
Proof.
  intros H. destruct parts as [|p parts]; [right; reflexivity|left].
  simpl. rewrite (nested_step_nothing acc p H). clear H.
  induction parts as [|q parts IH]; simpl; [reflexivity | exact IH].
Qed.

Lemma split_acc_nonempty (sep : ascii) (s cur : string) : split_acc sep s cur <> [].
Proof.
  revert cur. induction s as [|c s IH]; intros cur; simpl; [discriminate|].
  destruct (Ascii.eqb c sep); [discriminate | apply IH].
Qed.

(** X1.  When a path resolves to nothing in a tree (a member is missing or
    null somewhere along it), every longer path through it resolves to the
    default the caller gives. *)
Theorem getNestedValue_beyond_missing (obj : JsVal) (p q : string) (d : JsVal) :
  getNestedValue obj p JNull = JNull ->
  getNestedValue obj (p ++ "." ++ q) d = d.
Proof.
  unfold getNestedValue, split. intros H.
  change (p ++ "." ++ q) with (p ++ String "." q).
  rewrite split_acc_app, fold_left_app.
  assert (Hn : nullish (fold_left nested_step (split_acc "." p "") obj) = true).
  { unfold coalesce in H.
    destruct (fold_left nested_step (split_acc "." p "") obj);
      try discriminate H; reflexivity. }
  destruct (fold_nested_step_nothing (split_acc "." q "") _ Hn) as [E|E].
  - rewrite E. reflexivity.
  - exfalso. exact (split_acc_nonempty _ _ _ E).
Qed.

Lemma getNestedValue_beyond_missing_witness :
  getNestedValue
    (JObj [("Return", JObj [("ReturnHeader", JNull)])])
    ("Return.ReturnHeader" ++ "." ++ "Filer.EIN") (JStr "none")
  = JStr "none".
Proof.
  apply (getNestedValue_beyond_missing
           (JObj [("Return", JObj [("ReturnHeader", JNull)])])
           "Return.ReturnHeader" "Filer.EIN" (JStr "none")).
  reflexivity.
Defined.

(** *** Text *)

Lemma string_of_uint_nonempty (d : Decimal.uint) :
  NilZero.string_of_uint d <> "".
Proof. destruct d; discriminate. Qed.

Lemma Z_to_string_nonempty (z : Z) : Z_to_string z <> "".
Proof.
  unfold Z_to_string. destruct (Z.to_int z) as [d|d]; simpl.
  - apply string_of_uint_nonempty.
  - discriminate.
Qed.

Lemma append_nonempty_l (a b : string) : a <> "" -> (a ++ b) <> "".
Proof. destruct a; [congruence | discriminate]. Qed.

Lemma append_nonempty_r (a b : string) : b <> "" -> (a ++ b) <> "".
Proof. destruct a; [simpl; tauto | discriminate]. Qed.

Lemma decimal_nonempty (a d : Z) : decimal a d <> "".
Proof. unfold decimal. apply append_nonempty_l, Z_to_string_nonempty. Qed.

Lemma significand_nonempty (a d : Z) : significand a d <> "".
Proof. unfold significand. apply append_nonempty_l, Z_to_string_nonempty. Qed.

Lemma Number_toString_nonempty (n : num) : Number_toString n <> "".
Proof.
  destruct n as [q| | |]; try discriminate.
  unfold Number_toString. cbv zeta.
  repeat match goal with
         | |- context [if ?c then _ else _] => destruct c
         end;
    try discriminate;
    repeat first [ apply decimal_nonempty
                 | apply append_nonempty_l, significand_nonempty
                 | apply append_nonempty_r ].
Qed.

Lemma truthy_JStr (s : string) : s <> "" -> truthy (JStr s) = true.
Proof. destruct s; [congruence | reflexivity]. Qed.

Lemma truthy_or_ (a b : JsVal) : truthy b = true -> truthy (or_ a b) = true.
Proof. unfold or_. destruct (truthy a) eqn:E; [rewrite E|]; tauto. Qed.

Lemma or_null (a : JsVal) : or_ a JNull = JNull \/ truthy (or_ a JNull) = true.
Proof. unfold or_. destruct (truthy a) eqn:E; [right; exact E | left; reflexivity]. Qed.

(** X2.  [extractText] answers null or a truthy value, never an empty
    string, zero, false or undefined. *)
Theorem extractText_null_or_truthy (value : JsVal) :
  extractText value = JNull \/ truthy (extractText value) = true.
Proof.
  unfold extractText. destruct (truthy value) eqn:Ht; cbn [negb]; [|left; reflexivity].
  destruct value as [| |b|n|s|items|props]; try discriminate Ht.
  - right. destruct b; [reflexivity | discriminate Ht].
  - right. apply truthy_JStr. apply Number_toString_nonempty.
  - right. exact Ht.
  - apply or_null.
  - apply or_null.
Qed.

(** *** Numbers *)

Lemma filter_string_idempotent (p : ascii -> bool) (s : string) :
  filter_string p (filter_string p s) = filter_string p s.
Proof.
  induction s as [|c s IH]; simpl; [reflexivity|].
  destruct (p c) eqn:E; simpl; [rewrite E, IH|]; tauto.
Qed.

(** X3.  Characters other than digits, the dot and the minus sign do not
    count: a text and the same text stripped of them give the same number. *)
Theorem extractNumber_ignores_formatting (s : string) :
  extractNumber (JStr s) = extractNumber (JStr (filter_string numeric_char s)).
Proof.
  destruct s as [|c s]; [reflexivity|].
  unfold extractNumber at 1. cbn [extractText truthy negb String.eqb ToString].
  cbv beta iota.
  destruct (filter_string numeric_char (String c s)) as [|c' t] eqn:E.
  - reflexivity.
  - unfold extractNumber. cbn [extractText truthy negb String.eqb ToString].
    cbv beta iota. rewrite <- E, filter_string_idempotent. reflexivity.
Qed.


Lemma take_digits_numeral (d : Decimal.uint) :
  take_digits (NilEmpty.string_of_uint d) = (digits d, "").
Proof. induction d; simpl; try rewrite IHd; reflexivity. Qed.

Lemma filter_numeral (d : Decimal.uint) :
  filter_string numeric_char (NilEmpty.string_of_uint d)
  = NilEmpty.string_of_uint d.
Proof. induction d; simpl; try rewrite IHd; reflexivity. Qed.

Lemma filter_minus_numeral (d : Decimal.uint) :
  filter_string numeric_char (String "-" (NilEmpty.string_of_uint d))
  = String "-" (NilEmpty.string_of_uint d).
Proof.
  change (filter_string numeric_char (String "-" (NilEmpty.string_of_uint d)))
    with (String "-" (filter_string numeric_char (NilEmpty.string_of_uint d))).
  rewrite filter_numeral. reflexivity.
Qed.


Lemma of_uint_acc_horner (d : Decimal.uint) (acc : positive) :
  Zpos (Pos.of_uint_acc d acc) = fold_left horner (digits d) (Zpos acc).
Proof.
  revert acc. induction d; intros acc;
    cbn [Pos.of_uint_acc digits fold_left]; try rewrite IHd;
    try reflexivity; f_equal; unfold horner; change (Pos.mul _ acc) with (10 * acc)%positive; lia.
Qed.

Lemma of_uint_horner (d : Decimal.uint) :
  Z.of_N (Pos.of_uint d) = digits_value 10 (digits d).
Proof.
  unfold digits_value. fold horner.
  induction d; simpl; try exact IHd; try reflexivity;
    rewrite of_uint_acc_horner; reflexivity.
Qed.

Lemma numeral_of_positive (p : positive) :
  NilZero.string_of_uint (Pos.to_uint p) = NilEmpty.string_of_uint (Pos.to_uint p)
  /\ digits_value 10 (digits (Pos.to_uint p)) = Zpos p
  /\ digits (Pos.to_uint p) <> [].
Proof.
  pose proof (Unsigned.to_uint_nonnil p) as Hn.
  split; [|split].
  - destruct (Pos.to_uint p); [contradiction | reflexivity ..].
  - rewrite <- of_uint_horner, Unsigned.of_to. reflexivity.
  - destruct (Pos.to_uint p); [contradiction | discriminate ..].
Qed.

Lemma append_empty_r (s : string) : s ++ "" = s.
Proof. induction s as [|c s IH]; simpl; [|rewrite IH]; reflexivity. Qed.

Lemma Qred_inject_Z (z : Z) : Qred (z # 1) = z # 1.
Proof. apply Qcanon.Qred_identity. simpl. apply Z.gcd_1_r. Qed.


Lemma parseFloat_minus (r : string) :
  parseFloat (String "-" r) = float_of_digits true r.
Proof. reflexivity. Qed.

Lemma parseFloat_digit (c : ascii) (r : string) :
  is_digit c = true ->
  parseFloat (String c r) = float_of_digits false (String c r).
Proof.
  destruct c as [[] [] [] [] [] [] [] []]; intros H; try discriminate H;
    reflexivity.
Qed.

Lemma numeral_head (d : Decimal.uint) :
  d <> Decimal.Nil ->
  exists c r, NilEmpty.string_of_uint d = String c r /\ is_digit c = true.
Proof.
  destruct d; [congruence|..]; intros _; eexists; eexists; split; reflexivity.
Qed.

Lemma float_of_numeral (neg : bool) (d : Decimal.uint) :
  d <> Decimal.Nil ->
  float_of_digits neg (NilEmpty.string_of_uint d)
  = number_value (Qred ((if neg then - digits_value 10 (digits d)
                         else digits_value 10 (digits d)) # 1)).
Proof.
  intros Hd. unfold float_of_digits. rewrite take_digits_numeral.
  cbv beta iota zeta. rewrite app_nil_r.
  destruct (digits d) eqn:E; [destruct d; try congruence; discriminate E|].
  reflexivity.
Qed.

(** An integer below [10^21] is in the range of the numbers and is the
    value of its numeral. *)
Lemma number_value_integer (z : Z) :
  (Z.abs z < 10 ^ 21)%Z -> number_value (inject_Z z) = of_Z z.
Proof.
  intros H. unfold number_value.
  assert (Hb : (10 ^ 21 < overflow_bound)%Z) by (vm_compute; reflexivity).
  assert (Hu : (1 < Zpos (Qden underflow_bound))%Z) by (vm_compute; reflexivity).
  set (k := (10 ^ 21)%Z) in *.
  destruct (Qle_bool (inject_Z overflow_bound) (Qabs (inject_Z z))) eqn:E1.
  { apply Qle_bool_iff in E1. unfold Qle, inject_Z, Qabs in E1.
    cbn [Qnum Qden] in E1. lia. }
  destruct (Qle_bool (Qabs (inject_Z z)) underflow_bound) eqn:E2;
    [|reflexivity].
  apply Qle_bool_iff in E2. unfold Qle, inject_Z, Qabs in E2.
  cbn [Qnum Qden] in E2.
  assert (Hn : Qnum underflow_bound = 1%Z) by reflexivity.
  rewrite Hn in E2.
  assert (z = 0%Z) by nia. subst z. reflexivity.
Qed.

(** [parseFloat] reads back the numeral of a positive integer below
    [10^21], with or without a minus sign in front. *)
Lemma parseFloat_numeral (p : positive) :
  (Zpos p < 10 ^ 21)%Z ->
  parseFloat (NilEmpty.string_of_uint (Pos.to_uint p)) = of_Z (Zpos p)
  /\ parseFloat (String "-" (NilEmpty.string_of_uint (Pos.to_uint p)))
     = of_Z (Zneg p).
Proof.
  intros Hlt.
  destruct (numeral_of_positive p) as (_ & Hv & _).
  pose proof (Unsigned.to_uint_nonnil p) as Hn.
  destruct (numeral_head _ Hn) as (c & r & E & Hc).
  split.
  - rewrite E, (parseFloat_digit c r Hc), <- E, (float_of_numeral false _ Hn).
    rewrite Hv, Qred_inject_Z. apply (number_value_integer (Zpos p)). exact Hlt.
  - rewrite parseFloat_minus, (float_of_numeral true _ Hn).
    rewrite Hv, Qred_inject_Z. apply (number_value_integer (Zneg p)). exact Hlt.
Qed.

Lemma extractNumber_text (s : string) :
  s <> "" ->
  extractNumber (JStr s)
  = (let n := parseFloat (filter_string numeric_char s) in
     if isNaN n then Fin 0 else n).
Proof. destruct s; [congruence | reflexivity]. Qed.

Lemma extractNumber_number (n : num) :
  num_truthy n = true ->
  extractNumber (JNum n) = extractNumber (JStr (Number_toString n)).
Proof.
  intros H. unfold extractNumber at 1. unfold extractText.
  cbn [truthy]. rewrite H. cbn [negb ToString].
  rewrite (truthy_JStr _ (Number_toString_nonempty n)). cbn [negb].
  symmetry. apply extractNumber_text, Number_toString_nonempty.
Qed.

Lemma Number_toString_of_Z (z : Z) :
  (Z.abs z < 10 ^ 21)%Z -> Number_toString (of_Z z) = Z_to_string z.
Proof.
  intros H. unfold Number_toString, of_Z, inject_Z. rewrite Qred_inject_Z.
  cbn [Qnum Qden]. cbv zeta.
  destruct (Z.abs z =? 0)%Z eqn:E0.
  { apply Z.eqb_eq in E0. assert (z = 0%Z) by lia. subst z. reflexivity. }
  apply Z.eqb_neq in E0.
  set (k := (10 ^ 21)%Z) in *. set (m := (10 ^ 6)%Z).
  assert (Hm : (0 < m)%Z) by reflexivity.
  destruct (k * 1 <=? Z.abs z)%Z eqn:E1; [apply Z.leb_le in E1; lia|].
  destruct (Z.abs z * m <? 1)%Z eqn:E2; [apply Z.ltb_lt in E2; nia|].
  unfold decimal. rewrite Z.mod_1_r, Z.div_1_r. cbn [Z.eqb].
  rewrite append_empty_r. unfold Z_to_string.
  destruct z as [|p|p]; reflexivity.
Qed.

(** The mapper on an integer below [10^21], as a number and as its
    numeral. *)
Lemma extractNumber_integer (z : Z) :
  (Z.abs z < 10 ^ 21)%Z ->
  extractNumber (JNum (of_Z z)) = of_Z z
  /\ extractNumber (JStr (Z_to_string z)) = of_Z z.
Proof.
  intros H.
  assert (He : extractNumber (JStr (Z_to_string z)) = of_Z z).
  { rewrite (extractNumber_text _ (Z_to_string_nonempty z)).
    destruct z as [|p|p]; [reflexivity|..];
      destruct (numeral_of_positive p) as (Hs & _ & _);
      destruct (parseFloat_numeral p H) as [Hp Hm];
      unfold Z_to_string; cbn [Z.to_int NilZero.string_of_int]; rewrite Hs.
    - rewrite filter_numeral, Hp. reflexivity.
    - rewrite filter_minus_numeral, Hm. reflexivity. }
  split; [|exact He].
  destruct z as [|p|p]; [reflexivity|..];
    (rewrite extractNumber_number by reflexivity);
    rewrite (Number_toString_of_Z _ H); exact He.
Qed.

(** X4.  A whole number that a number holds exactly (up to [2^53 - 1] in
    absolute value) survives the mapper's detour through text: the number
    itself, as the XML library delivers a numeric element, and its decimal
    numeral both extract to that number. *)
Theorem extractNumber_of_integer (z : Z) :
  (Z.abs z <= 2 ^ 53 - 1)%Z ->
  extractNumber (JNum (of_Z z)) = of_Z z
  /\ extractNumber (JStr (Z_to_string z)) = of_Z z.
Proof.
  intros H. apply extractNumber_integer.
  assert (Hb : (2 ^ 53 - 1 < 10 ^ 21)%Z) by (vm_compute; reflexivity).
  set (k := (10 ^ 21)%Z) in *. set (j := (2 ^ 53 - 1)%Z) in *. lia.
Qed.

Lemma extractNumber_of_integer_witness :
  extractNumber (JNum (of_Z 1250000)) = of_Z 1250000
  /\ extractNumber (JStr "-1250000") = of_Z (-1250000).
Proof.
  split.
  - apply (extractNumber_of_integer 1250000). vm_compute. discriminate.
  - apply (extractNumber_of_integer (-1250000)). vm_compute. discriminate.
Defined.

(** From [10^21] on the text of a number is in exponent notation, of which
    the mapper keeps the digits only: [1e+21] reads as 121. *)
Example extractNumber_beyond_positional :
  Number_toString (of_Z (10 ^ 21)) = "1e+21"
  /\ extractNumber (JNum (of_Z (10 ^ 21))) = Fin 121.
Proof. split; vm_compute; reflexivity. Qed.

End ExtractorProps.

(* ================================================================== *)
(** ** Further properties of the mapper *)
(* ================================================================== *)


Module MapperProps.
Import Js DataHelper MoreNotions NumFacts.

Lemma In_collect {A B : Type} (f : A -> option B) (l : list A) (y : B) :
  In y (XmlParser.collect f l) <-> exists x, In x l /\ f x = Some y.
Proof.
  induction l as [|x l IH]; simpl.
  - split; [tauto | intros (x & [] & _)].
  - destruct (f x) as [y'|] eqn:E; simpl; rewrite IH; split.
    + intros [<-|(x' & Hin & Hx)]; [exists x; tauto | exists x'; tauto].
    + intros (x' & [<-|Hin] & Hx); [left; congruence | right; exists x'; tauto].
    + intros (x' & Hin & Hx). exists x'. tauto.
    + intros (x' & [<-|Hin] & Hx); [congruence | exists x'; tauto].
Qed.

Lemma length_collect {A B : Type} (f : A -> option B) (l : list A) :
  (List.length (XmlParser.collect f l) <= List.length l)%nat.
Proof.
  induction l as [|x l IH]; simpl; [lia|].
  destruct (f x); simpl; lia.
Qed.

Lemma NoDup_collect {A B K : Type} (f : A -> option B)
    (key : A -> K) (key' : B -> K) (l : list A) :
  (forall x y, f x = Some y -> key' y = key x) ->
  NoDup (map key l) -> NoDup (map key' (XmlParser.collect f l)).
Proof.
  intros Hk. induction l as [|x l IH]; simpl; intros Hnd; [constructor|].
  inversion Hnd as [|? ? Hnotin Hnd']; subst.
  destruct (f x) as [y|] eqn:E; [|exact (IH Hnd')].
  simpl. constructor; [|exact (IH Hnd')].
  rewrite (Hk x y E). intros Hin. apply Hnotin.
  apply in_map_iff in Hin. destruct Hin as (y' & Hy' & Hin).
  apply In_collect in Hin. destruct Hin as (x' & Hx' & Hf).
  apply in_map_iff. exists x'. split; [|exact Hx'].
  rewrite <- Hy'. symmetry. exact (Hk x' y' Hf).
Qed.


Lemma expenseCategories_names (irs990 : JsVal) :
  map fst (XmlParser.expenseCategories irs990) = categoryNames.
Proof. reflexivity. Qed.

Lemma NoDup_categoryNames : NoDup categoryNames.
Proof.
  unfold categoryNames.
  repeat (constructor; [simpl; intuition discriminate|]). constructor.
Qed.

Lemma ngt_zero (n : num) :
  ngt n (Fin 0) = true <-> n = PInf \/ exists q, n = Fin q /\ 0 < q.
Proof.
  destruct n as [q| | |].
  - rewrite ngt_Fin. split.
    + intros H. right. exists q. tauto.
    + intros [H|(q' & E & H)]; [discriminate H|].
      injection E as ->. exact H.
  - split; [left; reflexivity | reflexivity].
  - split; [discriminate | intros [H|(q & H & _)]; discriminate H].
  - split; [discriminate | intros [H|(q & H & _)]; discriminate H].
Qed.

(** X5.  The expense rows of a filing: a category is listed exactly when
    the amount resolved for it is positive, with that amount: a positive
    rational or, for a numeral beyond the range of the numbers, Infinity;
    no category is listed twice and there are at most twelve rows. *)
Theorem extractExpenses_rows (irs990 : JsVal) :
  (forall e,
      In e (XmlParser.extractExpenses irs990) <->
      exists raw,
        In (XmlParser.category e, raw) (XmlParser.expenseCategories irs990)
        /\ XmlParser.amount e = extractNumber raw
        /\ (XmlParser.amount e = PInf
            \/ exists q, XmlParser.amount e = Fin q /\ 0 < q))
  /\ NoDup (map XmlParser.category (XmlParser.extractExpenses irs990))
  /\ (List.length (XmlParser.extractExpenses irs990) <= 12)%nat.
Proof.
  unfold XmlParser.extractExpenses. split; [|split].
  - intros e. rewrite In_collect. split.
    + intros ([c raw] & Hin & Hf).
      destruct (ngt (extractNumber raw) (Fin 0)) eqn:Hpos; [|discriminate Hf].
      injection Hf as <-. cbn [XmlParser.category XmlParser.amount].
      exists raw. split; [exact Hin|]. split; [reflexivity|].
      apply ngt_zero. exact Hpos.
    + intros (raw & Hin & Ha & Hpos).
      exists (XmlParser.category e, raw). split; [exact Hin|].
      apply ngt_zero in Hpos. rewrite <- Ha, Hpos.
      destruct e. reflexivity.
  - apply (NoDup_collect _ fst).
    + intros [c raw] y Hf.
      destruct (ngt (extractNumber raw) (Fin 0)); [|discriminate Hf].
      injection Hf as <-. reflexivity.
    + rewrite expenseCategories_names. apply NoDup_categoryNames.
  - eapply Nat.le_trans; [apply length_collect|].
    rewrite <- (length_map fst), expenseCategories_names. apply Nat.le_refl.
Qed.

(** An amount beyond the range of the numbers is listed as Infinity. *)
Example expense_beyond_range :
  XmlParser.extractExpenses
    (JObj [("TravelAmt", JStr (String.concat "" (repeat "9" 309)))])
  = [{| XmlParser.category := "Travel"; XmlParser.amount := PInf |}].
Proof. vm_compute. reflexivity. Qed.

(** X6.  Every personnel record the mapper emits has a truthy full name
    other than "Unknown" and a truthy title; its compensation is the sum of
    three figures none of which is NaN (the sum itself is NaN where
    Infinity meets -Infinity); the mapper emits at most one record per
    entry of the officer collection. *)
Theorem extractPersonnel_records (irs990 : JsVal) :
  (forall p,
      In p (XmlParser.extractPersonnel irs990) ->
      truthy (XmlParser.fullName p) = true
      /\ XmlParser.fullName p <> JStr "Unknown"
      /\ truthy (XmlParser.title p) = true
      /\ exists a b c,
           XmlParser.compensation p = nadd (nadd a b) c
           /\ isNaN a = false /\ isNaN b = false /\ isNaN c = false)
  /\ (List.length (XmlParser.extractPersonnel irs990)
      <= List.length (XmlParser.officersOf irs990))%nat.
Proof.
  unfold XmlParser.extractPersonnel. split; [|apply length_collect].
  intros p Hin. apply In_collect in Hin. destruct Hin as (officer & _ & Hf).
  unfold XmlParser.extractOfficer in Hf.
  destruct (negb (truthy officer)); [discriminate Hf|].
  match type of Hf with
  | (if ?c then _ else _) = _ => destruct c eqn:Hc; [|discriminate Hf]
  end.
  injection Hf as <-. cbn [XmlParser.fullName XmlParser.title XmlParser.compensation].
  apply andb_true_iff in Hc. destruct Hc as [Ht Hu].
  split; [exact Ht|]. split; [|split].
  - intros E.
    match type of Hu with
    | negb (match ?x with JStr _ => _ | _ => _ end) = true =>
        replace x with (JStr "Unknown") in Hu by (symmetry; exact E)
    end.
    discriminate Hu.
  - apply ExtractorProps.truthy_or_. reflexivity.
  - do 3 eexists. split; [reflexivity|].
    repeat split; apply MapperFacts.extractNumber_not_NaN.
Qed.

(** A compensation of two components beyond the range of the numbers, of
    opposite signs, is NaN. *)
Example compensation_may_be_NaN :
  map XmlParser.compensation
    (XmlParser.extractPersonnel
       (JObj [("Officers",
               JObj [("PersonNm", JStr "Ada Diaz");
                     ("Compensation",
                      JStr (String.concat "" (repeat "9" 309)));
                     ("OtherCompensationAmt",
                      JStr ("-" ++ String.concat "" (repeat "9" 309)))])]))
  = [NaN].
Proof. vm_compute. reflexivity. Qed.

Lemma num_truthy_num_or (a b : num) :
  num_truthy b = true -> num_truthy (XmlParser.num_or a b) = true.
Proof.
  intros H. unfold XmlParser.num_or.
  destruct (num_truthy a) eqn:E; [exact E | exact H].
Qed.

Lemma num_truthy_cases (n : num) :
  num_truthy n = true ->
  n = PInf \/ n = NInf \/ exists q, n = Fin q /\ ~ q == 0.
Proof.
  destruct n as [q| | |]; cbn [num_truthy]; intros H;
    [|tauto|tauto|discriminate H].
  right. right. exists q. split; [reflexivity|].
  intros E. apply Qeq_bool_iff in E. rewrite E in H. discriminate H.
Qed.

(** X7.  Every filing the mapper produces carries a truthy EIN and a truthy
    organization name, one of the four form types, eight financial figures
    none of which is NaN and, when the clock's year is not 0, a tax year
    that is neither 0 nor NaN: a rational other than 0 or, for a numeral
    beyond the range of the numbers, an infinity. *)
Theorem parse_filing_is_well_formed
    (year : Z) (xml : option JsVal) (filing : XmlParser.Filing) :
  XmlParser.parse year xml = Some filing ->
  let c := XmlParser.company filing in
  truthy (XmlParser.ein c) = true
  /\ truthy (XmlParser.name c) = true
  /\ In (XmlParser.formType c) ["990"; "990EZ"; "990PF"; "990T"]
  /\ (isNaN (XmlParser.currentRevenue c) = false
      /\ isNaN (XmlParser.currentExpenses c) = false
      /\ isNaN (XmlParser.currentAssets c) = false
      /\ isNaN (XmlParser.currentEmployeeCount c) = false)
  /\ (isNaN (XmlParser.previousRevenue c) = false
      /\ isNaN (XmlParser.previousExpenses c) = false
      /\ isNaN (XmlParser.previousAssets c) = false
      /\ isNaN (XmlParser.previousEmployeeCount c) = false)
  /\ (year <> 0%Z ->
      XmlParser.taxYear c = PInf \/ XmlParser.taxYear c = NInf
      \/ exists q, XmlParser.taxYear c = Fin q /\ ~ q == 0).
Proof.
  intros Hp. destruct (PersistenceFacts.parse_Some _ _ _ Hp)
    as (parsed & irs990 & _ & Hein & ->).
  cbv zeta. cbn [XmlParser.company] in *.
  split; [exact Hein|]. split; [|split; [|split; [|split]]].
  - unfold XmlParser.merge, XmlParser.extractCompanyInfo.
    cbn [XmlParser.name XmlParser.i_name].
    apply ExtractorProps.truthy_or_. reflexivity.
  - unfold XmlParser.merge, XmlParser.extractCompanyInfo.
    cbn [XmlParser.formType XmlParser.i_formType].
    repeat match goal with
           | |- context [if ?b then _ else _] => destruct b
           end; simpl; tauto.
  - unfold XmlParser.merge, XmlParser.extractFinancialData.
    cbn [XmlParser.currentRevenue XmlParser.currentExpenses
         XmlParser.currentAssets XmlParser.currentEmployeeCount
         XmlParser.f_currentRevenue XmlParser.f_currentExpenses
         XmlParser.f_currentAssets XmlParser.f_currentEmployeeCount].
    repeat split; apply MapperFacts.extractNumber_not_NaN.
  - unfold XmlParser.merge, XmlParser.extractFinancialData.
    cbn [XmlParser.previousRevenue XmlParser.previousExpenses
         XmlParser.previousAssets XmlParser.previousEmployeeCount
         XmlParser.f_previousRevenue XmlParser.f_previousExpenses
         XmlParser.f_previousAssets XmlParser.f_previousEmployeeCount].
    repeat split; apply MapperFacts.extractNumber_not_NaN.
  - intros Hy. unfold XmlParser.merge, XmlParser.extractCompanyInfo.
    cbn [XmlParser.taxYear XmlParser.i_taxYear].
    apply num_truthy_cases, num_truthy_num_or.
    cbn [num_truthy of_Z]. apply negb_true_iff.
    destruct (Qeq_bool (inject_Z year) 0) eqn:E; [|reflexivity].
    apply Qeq_bool_iff in E. unfold Qeq, inject_Z in E. simpl in E. lia.
Qed.

Lemma parse_filing_is_well_formed_witness :
  truthy (XmlParser.ein (XmlParser.company (Scenarios.filingOf Scenarios.singleYear)))
  = true
  /\ XmlParser.formType (XmlParser.company (Scenarios.filingOf Scenarios.singleYear))
     = "990".
Proof.
  destruct (parse_filing_is_well_formed 2025 (Some Scenarios.singleYear)
              (Scenarios.filingOf Scenarios.singleYear) eq_refl)
    as (H & _).
  split; [exact H | reflexivity].
Defined.

Lemma form_under_ReturnData (parsed : JsVal) (k : string) :
  truthy (get (get (get parsed "Return") "ReturnData") k) = true ->
  truthy (getNestedValue parsed "Return.ReturnData" JNull) = true.
Proof.
  unfold getNestedValue.
  change (split "." "Return.ReturnData") with ["Return"; "ReturnData"].
  cbn [fold_left].
  destruct parsed as [| | | | | |props]; try discriminate.
  cbn [get nested_step truthy is_object andb].
  destruct (assoc "Return" props) as [| | | | | |props1]; try discriminate.
  cbn [get nested_step truthy is_object andb].
  destruct (assoc "ReturnData" props1) as [| | | | | |props2]; try discriminate.
  reflexivity.
Qed.

(** X8.  The form type is read under Return.ReturnData only: a document
    whose form sits directly under Return is typed "990", whichever of the
    four forms it carries. *)
Theorem formType_without_ReturnData
    (year : Z) (parsed : JsVal) (filing : XmlParser.Filing) :
  truthy (getNestedValue parsed "Return.ReturnData" JNull) = false ->
  XmlParser.parse year (Some parsed) = Some filing ->
  XmlParser.formType (XmlParser.company filing) = "990".
Proof.
  intros Hn Hp. destruct (PersistenceFacts.parse_Some _ _ _ Hp)
    as (parsed' & irs990 & E & _ & ->).
  injection E as <-.
  cbn [XmlParser.company XmlParser.merge XmlParser.formType].
  unfold XmlParser.extractCompanyInfo. cbn [XmlParser.i_formType].
  repeat match goal with
         | |- context [if truthy ?v then _ else _] =>
             destruct (truthy v) eqn:?
         end; try reflexivity;
    match goal with
    | H : truthy (get (get (get parsed "Return") "ReturnData") _) = true |- _ =>
        apply form_under_ReturnData in H; congruence
    end.
Qed.

Lemma formType_without_ReturnData_witness :
  XmlParser.formType
    (XmlParser.company
       (Scenarios.filingOf
          (JObj [("Return",
                  JObj [("ReturnHeader",
                         JObj [("Filer", JObj [("EIN", JStr "123456789")])]);
                        ("IRS990EZ",
                         JObj [("TotalRevenueAmt", JNum (Fin 1000))])])])))
  = "990".
Proof.
  apply (formType_without_ReturnData 2025
           (JObj [("Return",
                   JObj [("ReturnHeader",
                          JObj [("Filer", JObj [("EIN", JStr "123456789")])]);
                         ("IRS990EZ",
                          JObj [("TotalRevenueAmt", JNum (Fin 1000))])])]));
    reflexivity.
Defined.

End MapperProps.


Module PersistenceProps.
Import Js DataHelper Models DatasetService Notions MoreNotions PersistenceFacts.

Lemma filter_idempotent {A : Type} (p : A -> bool) (l : list A) :
  filter p (filter p l) = filter p l.
Proof.
  induction l as [|x l IH]; simpl; [reflexivity|].
  destruct (p x) eqn:E; simpl; [rewrite E, IH|]; tauto.
Qed.

Lemma filter_negb_all {A : Type} (p : A -> bool) (l : list A) :
  Forall (fun x => p x = true) l -> filter (fun x => negb (p x)) l = [].
Proof.
  induction 1 as [|x l Hx _ IH]; simpl; [reflexivity|]. rewrite Hx. exact IH.
Qed.

Lemma same_ein_sym (a b : JsVal) : same_ein a b = same_ein b a.
Proof. unfold same_ein. apply String.eqb_sym. Qed.

Lemma same_ein_trans (a b c : JsVal) :
  same_ein a b = true -> same_ein b c = true -> same_ein a c = true.
Proof. rewrite !same_ein_eq. congruence. Qed.

(** The upsert leaves the rows under other keys as they are. *)
Lemma upsert_row_others (v : CompanyValues) (d : Db) :
  filter (fun r => negb (same_ein (ein (values r)) (ein v)))
         (companies (fst (upsert_row v d)))
  = filter (fun r => negb (same_ein (ein (values r)) (ein v))) (companies d).
Proof.
  unfold upsert_row.
  destruct (find (fun r => same_ein (ein (values r)) (ein v)) (companies d));
    cbn [fst companies with_companies].
  - induction (companies d) as [|x l IH]; simpl; [reflexivity|].
    destruct (same_ein (ein (values x)) (ein v)) eqn:E; simpl.
    + rewrite same_ein_refl. simpl. exact IH.
    + rewrite E. simpl. rewrite IH. reflexivity.
  - rewrite filter_app. simpl. rewrite same_ein_refl. simpl. apply app_nil_r.
Qed.

Lemma upsert_row_stored (v : CompanyValues) (d : Db) :
  In (snd (upsert_row v d)) (companies (fst (upsert_row v d)))
  /\ values (snd (upsert_row v d)) = v
  /\ (forall old, In old (companies d) ->
        same_ein (ein (values old)) (ein v) = true ->
        In (Build_Row (id old) v) (companies (fst (upsert_row v d)))).
Proof.
  unfold upsert_row.
  destruct (find (fun r => same_ein (ein (values r)) (ein v)) (companies d))
    as [r|] eqn:Ef; cbn [fst snd companies with_companies values].
  - assert (Hold : forall old, In old (companies d) ->
               same_ein (ein (values old)) (ein v) = true ->
               In (Build_Row (id old) v)
                  (map (fun x => if same_ein (ein (values x)) (ein v)
                                 then Build_Row (id x) v else x) (companies d))).
    { intros old Hin Hk. apply in_map_iff. exists old. rewrite Hk. tauto. }
    split; [|split; [reflexivity | exact Hold]].
    destruct (find_some _ _ Ef) as [Hin Hk]. exact (Hold r Hin Hk).
  - split; [apply in_or_app; right; left; reflexivity|].
    split; [reflexivity|].
    intros old Hin Hk. pose proof (find_none _ _ Ef _ Hin) as Hn.
    simpl in Hn. congruence.
Qed.

Lemma length_filter_map {A : Type} (p q : A -> bool) (f : A -> A) (l : list A) :
  (forall x, p (f x) = true -> q x = true) ->
  (List.length (filter p (map f l)) <= List.length (filter q l))%nat.
Proof.
  intros H. induction l as [|x l IH]; simpl; [lia|].
  destruct (p (f x)) eqn:E.
  - rewrite (H x E). simpl. lia.
  - destruct (q x); simpl; lia.
Qed.

(** The upsert keeps the key and the primary key of [companies] sound. *)
Lemma upsert_row_well_keyed (v : CompanyValues) (d : Db) :
  well_keyed d -> well_keyed (fst (upsert_row v d)).
Proof.
  intros (Hu & Hn & Hb). unfold well_keyed, rows_of_ein, upsert_row in *.
  destruct (find (fun r => same_ein (ein (values r)) (ein v)) (companies d))
    as [r|] eqn:Ef;
    cbn [fst companies with_companies nextCompanyId].
  - split; [|split].
    + intros e.
      destruct (same_ein (ein v) e) eqn:Eve.
      * eapply Nat.le_trans; [|exact (Hu (ein v))].
        apply length_filter_map. intros x.
        destruct (same_ein (ein (values x)) (ein v)) eqn:Ex; [reflexivity|].
        intros Hx. rewrite <- Ex. rewrite same_ein_sym in Eve.
        exact (same_ein_trans _ _ _ Hx Eve).
      * eapply Nat.le_trans; [|exact (Hu e)].
        apply length_filter_map. intros x.
        destruct (same_ein (ein (values x)) (ein v)) eqn:Ex; [|tauto].
        cbn [values]. congruence.
    + rewrite map_map.
      rewrite (map_ext _ id); [exact Hn|].
      intros x. destruct (same_ein (ein (values x)) (ein v)); reflexivity.
    + intros x Hin. apply in_map_iff in Hin. destruct Hin as (y & Hy & Hin).
      specialize (Hb y Hin).
      destruct (same_ein (ein (values y)) (ein v)); subst x; exact Hb.
  - split; [|split].
    + intros e. rewrite filter_app, length_app. cbn [filter values].
      destruct (same_ein (ein v) e) eqn:Eve.
      * assert (Hnone : filter (fun r => same_ein (ein (values r)) e) (companies d) = []).
        { clear Hu Hn Hb. induction (companies d) as [|x l IH]; [reflexivity|].
          simpl in Ef. destruct (same_ein (ein (values x)) (ein v)) eqn:Ex;
            [discriminate Ef|].
          simpl. destruct (same_ein (ein (values x)) e) eqn:Exe.
          - exfalso. rewrite same_ein_sym in Eve.
            pose proof (same_ein_trans _ _ _ Exe Eve). congruence.
          - exact (IH Ef). }
        rewrite Hnone. simpl. lia.
      * specialize (Hu e). simpl. lia.
    + rewrite map_app. cbn [map id]. apply NoDup_app.
      * exact Hn.
      * constructor; [tauto | constructor].
      * intros x Hin [<-|[]]. apply in_map_iff in Hin.
        destruct Hin as (y & Hy & Hin). specialize (Hb y Hin). lia.
    + intros x Hin. apply in_app_or in Hin. destruct Hin as [Hin|[<-|[]]].
      * specialize (Hb x Hin). lia.
      * cbn [id]. lia.
Qed.

Section WithWorld.

Variable B : Backend.
Variable W : World.

Ltac step :=
  match goal with
  | |- context [call B ?rq ?run ?d] =>
      let E := fresh "E" in
      let m := fresh "m" in
      destruct (call_result B rq run d) as [[m E]|E]; rewrite E; clear E;
      cbn beta iota zeta
  end.

Ltac kept Hc Hp He :=
  intros H; injection H as <- _; unfold others_kept;
  cbn [fst snd companies personnel expenseCategories
       with_personnel with_expenses nextPersonnelId nextExpenseId];
  rewrite ?Hp, ?He, ?filter_app, ?filter_idempotent;
  rewrite ?(filter_negb_all _ _ (number_from_of_company _ _ _)),
          ?(filter_negb_all _ _ (number_from_expense_of_company _ _ _ _)),
          ?app_nil_r;
  repeat split; try reflexivity; try exact Hc.

(** X9.  Whether it returns or raises, a save touches one organization
    only: the rows stored under other EINs, and the personnel and expense
    rows of other organizations, are left exactly as they were. *)
Theorem saveToDatabase_keeps_others
    (filing : XmlParser.Filing) (d d' : Db) (r : Result unit) :
  saveToDatabase B W filing d = (d', r) ->
  others_kept (XmlParser.ein (XmlParser.company filing))
              (id (snd (upsert_row (companyValues W (XmlParser.company filing)) d)))
              d d'.
Proof.
  unfold saveToDatabase.
  destruct (negb (truthy (XmlParser.ein (XmlParser.company filing)))).
  { unfold throw. intros H. injection H as <- _. repeat split. }
  pose proof (upsert_row_others (companyValues W (XmlParser.company filing)) d)
    as Hc.
  destruct (upsert_row_children (companyValues W (XmlParser.company filing)) d)
    as [Hp He].
  change (ein (companyValues W (XmlParser.company filing)))
    with (XmlParser.ein (XmlParser.company filing)) in Hc.
  unfold bind, Company_upsert, Personnel_destroy, ExpenseCategory_destroy.
  step; [intros H; injection H as <- _; repeat split|].
  step; [kept Hc Hp He|].
  step; [kept Hc Hp He|].
  destruct (0 <? List.length (XmlParser.personnel filing))%nat;
    destruct (0 <? List.length (XmlParser.expenses filing))%nat;
    unfold Personnel_bulkCreate, ExpenseCategory_bulkCreate, ret;
    repeat (step; [kept Hc Hp He|]); kept Hc Hp He.
Qed.

Ltac keyed Hd Hu :=
  intros H; injection H as <- _; unfold well_keyed, rows_of_ein in *;
  cbn [fst snd companies nextCompanyId with_personnel with_expenses];
  first [exact Hd | exact Hu].

(** X10.  Whether it returns or raises, a save keeps the organization table
    well keyed: at most one row per EIN, no id used twice, every id below
    the next one to be given. *)
Theorem saveToDatabase_keeps_keys
    (filing : XmlParser.Filing) (d d' : Db) (r : Result unit) :
  well_keyed d ->
  saveToDatabase B W filing d = (d', r) ->
  well_keyed d'.
Proof.
  intros Hd.
  pose proof (upsert_row_well_keyed
                (companyValues W (XmlParser.company filing)) d Hd) as Hu.
  unfold saveToDatabase.
  destruct (negb (truthy (XmlParser.ein (XmlParser.company filing)))).
  { unfold throw. intros H. injection H as <- _. exact Hd. }
  unfold bind, Company_upsert, Personnel_destroy, ExpenseCategory_destroy.
  step; [keyed Hd Hu|].
  step; [keyed Hd Hu|].
  step; [keyed Hd Hu|].
  destruct (0 <? List.length (XmlParser.personnel filing))%nat;
    destruct (0 <? List.length (XmlParser.expenses filing))%nat;
    unfold Personnel_bulkCreate, ExpenseCategory_bulkCreate, ret;
    repeat (step; [keyed Hd Hu|]); keyed Hd Hu.
Qed.

(** X11.  Nothing is rolled back: when the backend accepts everything but
    the insertion of the personnel rows, the save of a filing with
    personnel raises the backend's error, the organization row already
    holds the new scalar fields and the organization is left with no
    personnel row at all. *)
Theorem saveToDatabase_does_not_roll_back
    (filing : XmlParser.Filing) (d : Db) (message : string) :
  (forall d rq,
      fault B d rq
      = match rq with BulkCreatePersonnel _ => Some message | _ => None end) ->
  truthy (XmlParser.ein (XmlParser.company filing)) = true ->
  XmlParser.personnel filing <> [] ->
  exists d' row,
    saveToDatabase B W filing d = (d', Throw message)
    /\ In row (companies d')
    /\ values row = companyValues W (XmlParser.company filing)
    /\ filter (of_company (id row)) (personnel d') = [].
Proof.
  intros Hf Ht Hne. unfold saveToDatabase. rewrite Ht. cbn [negb].
  unfold bind, Company_upsert, Personnel_destroy, ExpenseCategory_destroy, call.
  rewrite Hf.
  destruct (upsert_row (companyValues W (XmlParser.company filing)) d)
    as [d1 row] eqn:Eu.
  repeat (rewrite Hf; cbn beta iota zeta).
  destruct (XmlParser.personnel filing) as [|p ps]; [congruence|].
  cbn [List.length Nat.ltb Nat.leb]. unfold Personnel_bulkCreate, call.
  rewrite Hf.
  eexists. exists row. split; [reflexivity|].
  pose proof (upsert_row_stored (companyValues W (XmlParser.company filing)) d)
    as (Hin & Hv & _).
  rewrite Eu in Hin, Hv. cbn [fst snd] in Hin, Hv.
  cbn [companies personnel with_personnel with_expenses].
  split; [exact Hin|]. split; [exact Hv|].
  apply filter_filter_negb.
Qed.

End WithWorld.

Lemma saveToDatabase_keeps_others_witness :
  others_kept
    (XmlParser.ein (XmlParser.company (Scenarios.filingOf Scenarios.secondYear)))
    (id (snd (upsert_row
                (companyValues Scenarios.quiet
                   (XmlParser.company (Scenarios.filingOf Scenarios.secondYear)))
                Scenarios.afterFirst)))
    Scenarios.afterFirst Scenarios.afterSecond.
Proof.
  assert (E : saveToDatabase ideal Scenarios.quiet
                (Scenarios.filingOf Scenarios.secondYear) Scenarios.afterFirst
              = (Scenarios.afterSecond, Ok tt))
    by (vm_compute; reflexivity).
  exact (saveToDatabase_keeps_others ideal Scenarios.quiet
           (Scenarios.filingOf Scenarios.secondYear)
           Scenarios.afterFirst Scenarios.afterSecond (Ok tt) E).
Defined.

Lemma saveToDatabase_keeps_keys_witness : well_keyed Scenarios.afterFirst.
Proof.
  assert (E : saveToDatabase ideal Scenarios.quiet
                (Scenarios.filingOf Scenarios.singleYear) emptyDb
              = (Scenarios.afterFirst, Ok tt))
    by (vm_compute; reflexivity).
  apply (saveToDatabase_keeps_keys ideal Scenarios.quiet
           (Scenarios.filingOf Scenarios.singleYear)
           emptyDb Scenarios.afterFirst (Ok tt)); [|exact E].
  unfold well_keyed. simpl. repeat split; [lia | constructor | tauto].
Defined.

Lemma saveToDatabase_does_not_roll_back_witness :
  exists d' row,
    saveToDatabase (rejectingPersonnel "Lock wait timeout exceeded")
      Scenarios.quiet (Scenarios.filingOf Scenarios.secondYear)
      Scenarios.afterFirst
    = (d', Throw "Lock wait timeout exceeded")
    /\ In row (companies d')
    /\ values row
       = companyValues Scenarios.quiet
           (XmlParser.company (Scenarios.filingOf Scenarios.secondYear))
    /\ filter (of_company (id row)) (personnel d') = [].
Proof.
  apply (saveToDatabase_does_not_roll_back
           (rejectingPersonnel "Lock wait timeout exceeded") Scenarios.quiet
           (Scenarios.filingOf Scenarios.secondYear) Scenarios.afterFirst
           "Lock wait timeout exceeded").
  - intros d rq. reflexivity.
  - vm_compute. reflexivity.
  - vm_compute. discriminate.
Defined.

End PersistenceProps.


Module IngestionProps.
Import Js DataHelper Models DatasetService Notions MoreNotions.
Import PersistenceFacts PersistenceProps IngestionFacts.






Lemma errors_push_after_increment (e : Errors) (message : string) :
  errors_push (errors_increment e) message
  = Throw "stats.errors.push is not a function".
Proof. destruct e as [[|x l]|n]; reflexivity. Qed.

Section WithWorld.

Variable B : Backend.
Variable W : World.

Lemma processXmlFile_counters (f : string) (stats stats' : Stats) (d d' : Db)
    (r : Result unit) :
  processXmlFile B W f stats d = (d', stats', r) ->
  totalFiles stats' = totalFiles stats
  /\ errors stats' = errors stats
  /\ processed stats' = (processed stats + 1)%Z
  /\ (saved stats' = saved stats
      \/ (saved stats' = (saved stats + 1)%Z /\ r = Ok tt)).
Proof.
  unfold processXmlFile.
  destruct (readFile W f) as [content|m].
  - destruct (XmlParser.parse (currentYear W) (xmlParse W content)) as [filing|].
    + destruct (saveToDatabase B W filing d) as [d1 [[]|m]];
        intros H; injection H as <- <- <-; cbn; tauto.
    + intros H; injection H as <- <- <-; cbn; tauto.
  - intros H; injection H as <- <- <-; cbn; tauto.
Qed.

(** What the loop does to the statistics, however it ends. *)
Lemma processFiles_counters (maxCompanies : option Z) (files : list string) :
  forall stats d d' stats' r,
  processFiles B W maxCompanies files stats d = (d', stats', r) ->
  totalFiles stats' = totalFiles stats
  /\ (saved stats <= saved stats')%Z
  /\ (saved stats' - saved stats <= processed stats' - processed stats)%Z
  /\ (processed stats' - processed stats <= Z.of_nat (List.length files))%Z
  /\ (r = Ok tt -> errors stats' = errors stats)
  /\ (forall m, r = Throw m -> m = "stats.errors.push is not a function").
Proof.
  induction files as [|f files IH]; intros stats d d' stats' r;
    cbn [processFiles].
  - intros H; injection H as <- <- <-. cbn [List.length].
    repeat split; try lia; try discriminate.
  - destruct (processXmlFile B W f stats d) as [[d1 stats1] r1] eqn:E1.
    destruct (processXmlFile_counters _ _ _ _ _ _ E1) as (Ht & He & Hp & Hs).
    destruct r1 as [[]|m1].
    + match goal with
      | |- context [if ?c then _ else _] => destruct c eqn:Ec
      end.
      * intros H; injection H as <- <- <-. cbn [List.length].
        repeat split; try lia; try discriminate; try tauto.
      * intros H. destruct (IH _ _ _ _ _ H) as (Ht' & Hs1 & Hs2 & Hp' & He' & Hm').
        cbn [List.length]. repeat split; try lia.
        -- intros Hr. rewrite (He' Hr). exact He.
        -- exact Hm'.
    + cbv zeta. cbn [errors set_errors]. rewrite errors_push_after_increment.
      intros H; injection H as <- <- <-.
      cbn [totalFiles processed saved errors set_errors List.length].
      destruct Hs as [Hs|[_ Hs]]; [|discriminate Hs].
      repeat split; try lia; try discriminate.
      * intros m Hm. injection Hm as <-. reflexivity.
Qed.

Lemma length_filesToProcess (maxCompanies : option Z) (files : list string) :
  (List.length (filesToProcess maxCompanies files) <= List.length files)%nat
  /\ (forall m, maxCompanies = Some m -> (0 < m)%Z ->
        (Z.of_nat (List.length (filesToProcess maxCompanies files)) <= m)%Z).
Proof.
  unfold filesToProcess, slice0. split.
  - destruct maxCompanies as [m|]; [|lia].
    destruct (truthy_max (Some m)); [|lia].
    destruct (m <? 0)%Z; rewrite length_firstn; lia.
  - intros m -> Hm. cbn [truthy_max].
    destruct (m =? 0)%Z eqn:E0; [apply Z.eqb_eq in E0; lia|]. cbn [negb].
    destruct (m <? 0)%Z eqn:El; [apply Z.ltb_lt in El; lia|].
    rewrite length_firstn. lia.
Qed.

(** X12.  The statistics a run returns satisfy
    0 <= saved <= processed <= totalFiles; under a positive document limit
    no more documents than the limit are processed. *)
Theorem processDataset_counters
    (irsZipUrl : string) (maxCompanies : option Z) (s s' : State) (stats : Stats) :
  processDataset B W irsZipUrl maxCompanies s = (s', Ok stats) ->
  (0 <= saved stats <= processed stats)%Z
  /\ (processed stats <= totalFiles stats)%Z
  /\ (forall m, maxCompanies = Some m -> (0 < m)%Z ->
        (processed stats <= m)%Z).
Proof.
  unfold processDataset.
  destruct (download W irsZipUrl); [discriminate|].
  destruct (extract W (archivePath W)); [discriminate|].
  destruct (getXmlFiles W (workingDirectory W)) as [files|]; [|discriminate].
  match goal with
  | |- context [processFiles B W ?mx ?fl ?st ?d] =>
      destruct (processFiles B W mx fl st d) as [[d1 stats1] [[]|m]] eqn:Ep;
        [|discriminate]
  end.
  intros H; injection H as <- <-.
  destruct (processFiles_counters _ _ _ _ _ _ _ Ep)
    as (Ht & Hs1 & Hs2 & Hp & _ & _).
  cbn [totalFiles processed saved initialStats] in *.
  destruct (length_filesToProcess maxCompanies files) as [Hl Hm].
  repeat split; try lia.
  intros m E Hpos. specialize (Hm m E Hpos). lia.
Qed.

(** X13.  A run reports no error: the statistics it returns always carry
    the empty error list, and when it raises after the documents were
    enumerated, the error is the TypeError of the loop's own handler,
    whatever a document raised. *)
Theorem processDataset_reports_no_error
    (irsZipUrl : string) (maxCompanies : option Z) (s s' : State) :
  (forall stats,
      processDataset B W irsZipUrl maxCompanies s = (s', Ok stats) ->
      errors stats = ErrList [])
  /\ (forall files message,
        download W irsZipUrl = None ->
        extract W (archivePath W) = None ->
        getXmlFiles W (workingDirectory W) = Ok files ->
        processDataset B W irsZipUrl maxCompanies s = (s', Throw message) ->
        message = "stats.errors.push is not a function").
Proof.
  split.
  - intros stats. unfold processDataset.
    destruct (download W irsZipUrl); [discriminate|].
    destruct (extract W (archivePath W)); [discriminate|].
    destruct (getXmlFiles W (workingDirectory W)) as [files|]; [|discriminate].
    match goal with
    | |- context [processFiles B W ?mx ?fl ?st ?d] =>
        destruct (processFiles B W mx fl st d) as [[d1 stats1] [[]|m]] eqn:Ep;
          [|discriminate]
    end.
    intros H; injection H as <- <-.
    destruct (processFiles_counters _ _ _ _ _ _ _ Ep)
      as (_ & _ & _ & _ & He & _).
    rewrite (He eq_refl). reflexivity.
  - intros files message Hd He Hl. unfold processDataset. rewrite Hd, He, Hl.
    match goal with
    | |- context [processFiles B W ?mx ?fl ?st ?d] =>
        destruct (processFiles B W mx fl st d) as [[d1 stats1] [[]|m]] eqn:Ep;
          [discriminate|]
    end.
    intros H; injection H as <- <-.
    destruct (processFiles_counters _ _ _ _ _ _ _ Ep)
      as (_ & _ & _ & _ & _ & Hm).
    exact (Hm m eq_refl).
Qed.


Lemma organizations_kept_refl (d d' : Db) :
  companies d' = companies d -> organizations_kept d d'.
Proof.
  intros E row Hin. exists row. rewrite E.
  repeat split; [exact Hin | apply same_ein_refl].
Qed.

Lemma organizations_kept_trans (d1 d2 d3 : Db) :
  organizations_kept d1 d2 -> organizations_kept d2 d3 ->
  organizations_kept d1 d3.
Proof.
  intros H12 H23 row Hin.
  destruct (H12 row Hin) as (r2 & Hin2 & Hid2 & He2).
  destruct (H23 r2 Hin2) as (r3 & Hin3 & Hid3 & He3).
  exists r3. repeat split; [exact Hin3 | congruence|].
  exact (same_ein_trans _ _ _ He3 He2).
Qed.

Lemma upsert_row_keeps (v : CompanyValues) (d : Db) :
  organizations_kept d (fst (upsert_row v d)).
Proof.
  intros row Hin. unfold upsert_row.
  destruct (find (fun r => same_ein (ein (values r)) (ein v)) (companies d));
    cbn [fst companies with_companies].
  - exists (if same_ein (ein (values row)) (ein v)
            then Build_Row (id row) v else row).
    split; [apply in_map_iff; exists row; tauto|].
    destruct (same_ein (ein (values row)) (ein v)) eqn:E; cbn [id values].
    + split; [reflexivity|]. rewrite same_ein_sym. exact E.
    + split; [reflexivity | apply same_ein_refl].
  - exists row. repeat split; [apply in_or_app; tauto | apply same_ein_refl].
Qed.

Ltac step :=
  match goal with
  | |- context [call B ?rq ?run ?d] =>
      let E := fresh "E" in
      let m := fresh "m" in
      destruct (call_result B rq run d) as [[m E]|E]; rewrite E; clear E;
      cbn beta iota zeta
  end.

Ltac same_or_upserted :=
  intros H; injection H as <- _;
  cbn [fst snd companies with_personnel with_expenses]; tauto.

Lemma saveToDatabase_companies
    (filing : XmlParser.Filing) (d d' : Db) (r : Result unit) :
  saveToDatabase B W filing d = (d', r) ->
  companies d' = companies d
  \/ companies d'
     = companies (fst (upsert_row (companyValues W (XmlParser.company filing)) d)).
Proof.
  unfold saveToDatabase.
  destruct (negb (truthy (XmlParser.ein (XmlParser.company filing)))).
  { unfold throw. intros H. injection H as <- _. tauto. }
  unfold bind, Company_upsert, Personnel_destroy, ExpenseCategory_destroy.
  do 3 (step; [same_or_upserted|]).
  destruct (0 <? List.length (XmlParser.personnel filing))%nat;
    destruct (0 <? List.length (XmlParser.expenses filing))%nat;
    unfold Personnel_bulkCreate, ExpenseCategory_bulkCreate, ret;
    repeat (step; [same_or_upserted|]); same_or_upserted.
Qed.

Lemma saveToDatabase_keeps (filing : XmlParser.Filing) (d d' : Db)
    (r : Result unit) :
  saveToDatabase B W filing d = (d', r) -> organizations_kept d d'.
Proof.
  intros H. destruct (saveToDatabase_companies _ _ _ _ H) as [E|E].
  - apply organizations_kept_refl. exact E.
  - eapply organizations_kept_trans; [apply upsert_row_keeps|].
    apply organizations_kept_refl. exact E.
Qed.

Lemma processFiles_keeps (maxCompanies : option Z) (files : list string) :
  forall stats d d' stats' r,
  processFiles B W maxCompanies files stats d = (d', stats', r) ->
  organizations_kept d d'.
Proof.
  induction files as [|f files IH]; intros stats d d' stats' r;
    cbn [processFiles].
  - intros H; injection H as <- _ _. apply organizations_kept_refl. reflexivity.
  - assert (Hstep : forall d1 st1 r1,
               processXmlFile B W f stats d = (d1, st1, r1) ->
               organizations_kept d d1).
    { unfold processXmlFile. intros d1 st1 r1.
      destruct (readFile W f) as [content|m].
      - destruct (XmlParser.parse (currentYear W) (xmlParse W content))
          as [filing|].
        + destruct (saveToDatabase B W filing d) as [d2 [[]|m]] eqn:Es;
            intros H; injection H as <- _ _;
            exact (saveToDatabase_keeps _ _ _ _ Es).
        + intros H; injection H as <- _ _.
          apply organizations_kept_refl. reflexivity.
      - intros H; injection H as <- _ _.
        apply organizations_kept_refl. reflexivity. }
    destruct (processXmlFile B W f stats d) as [[d1 stats1] r1] eqn:E1.
    specialize (Hstep _ _ _ eq_refl).
    destruct r1 as [[]|m1].
    + match goal with
      | |- context [if ?c then _ else _] => destruct c
      end.
      * intros H; injection H as <- _ _. exact Hstep.
      * intros H. exact (organizations_kept_trans _ _ _ Hstep (IH _ _ _ _ _ H)).
    + cbv zeta. cbn [errors set_errors]. rewrite errors_push_after_increment.
      intros H; injection H as <- _ _. exact Hstep.
Qed.

(** X15.  However it ends, a run deletes no organization: every row of the
    organization table before the run is still there after it, under the
    same id and the same EIN. *)
Theorem processDataset_keeps_organizations
    (irsZipUrl : string) (maxCompanies : option Z) (s s' : State)
    (r : Result Stats) :
  processDataset B W irsZipUrl maxCompanies s = (s', r) ->
  organizations_kept (db s) (db s').
Proof.
  unfold processDataset.
  destruct (download W irsZipUrl);
    [intros H; injection H as <- _; apply organizations_kept_refl; reflexivity|].
  destruct (extract W (archivePath W));
    [intros H; injection H as <- _; apply organizations_kept_refl; reflexivity|].
  destruct (getXmlFiles W (workingDirectory W)) as [files|];
    [|intros H; injection H as <- _; apply organizations_kept_refl; reflexivity].
  match goal with
  | |- context [processFiles B W ?mx ?fl ?st ?d] =>
      destruct (processFiles B W mx fl st d) as [[d1 stats1] [[]|m]] eqn:Ep
  end; intros H; injection H as <- _; cbn [db];
    exact (processFiles_keeps _ _ _ _ _ _ _ Ep).
Qed.

End WithWorld.

Lemma processDataset_counters_witness :
  (0 <= 1 <= 2)%Z /\ (2 <= 2)%Z.
Proof.
  assert (E : processDataset ideal mixed Scenarios.url None littered
              = (fst mixedRun,
                 Ok {| totalFiles := 2; processed := 2; saved := 1;
                       errors := ErrList [] |}))
    by (vm_compute; reflexivity).
  destruct (processDataset_counters ideal mixed Scenarios.url None littered
              _ _ E) as (H1 & H2 & _).
  exact (conj H1 H2).
Defined.

Lemma processDataset_reports_no_error_witness :
  errors {| totalFiles := 2; processed := 2; saved := 1; errors := ErrList [] |}
  = ErrList [].
Proof.
  assert (E : processDataset ideal mixed Scenarios.url None littered
              = (fst mixedRun,
                 Ok {| totalFiles := 2; processed := 2; saved := 1;
                       errors := ErrList [] |}))
    by (vm_compute; reflexivity).
  destruct (processDataset_reports_no_error ideal mixed Scenarios.url None
              littered (fst mixedRun)) as [H _].
  exact (H _ E).
Defined.


Lemma processDataset_keeps_organizations_witness :
  organizations_kept Scenarios.afterFirst (db (fst mixedRun)).
Proof.
  assert (E : processDataset ideal mixed Scenarios.url None littered
              = (fst mixedRun, snd mixedRun))
    by (vm_compute; reflexivity).
  exact (processDataset_keeps_organizations ideal mixed Scenarios.url None
           littered _ _ E).
Defined.

End IngestionProps.


Module ControllerProps.
Import Js DataHelper Models CompaniesController Notions NumFacts AnalyticsFacts.

(** X16.  When the backend answers the lookup, the detail operation answers
    404 exactly when no organization has the id, 200 exactly when the
    organization has its four previous-year fields set, and 500 exactly
    when it has one of them null or absent; when the backend rejects the
    lookup it answers 500. *)
Theorem getCompanyById_status (B : Backend) (pk : Z) (d : Db) :
  (fault B d (FindByPk pk) = None ->
   (status (getCompanyById B pk d) = 404%nat
    <-> find (fun r => (id r =? pk)%Z) (companies d) = None)
   /\ (status (getCompanyById B pk d) = 200%nat
       <-> exists company,
             find (fun r => (id r =? pk)%Z) (companies d) = Some company
             /\ hasPreviousData (values company) = true)
   /\ (status (getCompanyById B pk d) = 500%nat
       <-> exists company,
             find (fun r => (id r =? pk)%Z) (companies d) = Some company
             /\ hasPreviousData (values company) = false))
  /\ (forall message,
        fault B d (FindByPk pk) = Some message ->
        getCompanyById B pk d
        = {| status := 500;
             body := ErrorBody "Failed to fetch company" (Some message) |}).
Proof.
  split.
  - intros Hf.
    destruct (find (fun r => (id r =? pk)%Z) (companies d)) as [company|] eqn:Ef.
    + destruct (hasPreviousData (values company)) eqn:Hp.
      * destruct (detail_with_prior_year B pk d company Hf Ef Hp)
          as (ps & es & an & ->). cbn [status].
        repeat split; try discriminate; try (intros (c & Hc & _); discriminate);
          try (intros (c & Hc & Hc'); congruence).
        intros _. exists company. tauto.
      * assert (E : status (getCompanyById B pk d) = 500%nat).
        { unfold getCompanyById, Company_findByPk, call.
          rewrite Hf, Ef.
          rewrite (analyticsOf_without_prior_year _ Hp). reflexivity. }
        rewrite E.
        repeat split; try discriminate; try (intros (c & Hc & Hc'); congruence).
        intros _. exists company. tauto.
    + assert (E : status (getCompanyById B pk d) = 404%nat).
      { unfold getCompanyById, Company_findByPk, call. rewrite Hf, Ef.
        reflexivity. }
      rewrite E.
      repeat split; try discriminate; try (intros (c & Hc & _); discriminate).
  - intros message Hf. unfold getCompanyById, Company_findByPk, call.
    rewrite Hf. reflexivity.
Qed.

Lemma getCompanyById_status_witness :
  status (getCompanyById ideal 1 (Scenarios.oneCompany Scenarios.growing)) = 200%nat
  /\ status (getCompanyById ideal 7 (Scenarios.oneCompany Scenarios.growing)) = 404%nat.
Proof.
  destruct (getCompanyById_status ideal 1 (Scenarios.oneCompany Scenarios.growing))
    as [H1 _].
  destruct (getCompanyById_status ideal 7 (Scenarios.oneCompany Scenarios.growing))
    as [H7 _].
  split.
  - apply (H1 eq_refl). exists (Build_Row 1 Scenarios.growing).
    split; reflexivity.
  - apply (H7 eq_refl). reflexivity.
Defined.

Lemma nge_Fin (x y : Q) : nge (Fin x) (Fin y) = true <-> y <= x.
Proof. unfold nge. apply nle_Fin. Qed.

Lemma nge_Fin_false (x y : Q) : nge (Fin x) (Fin y) = false <-> x < y.
Proof.
  split.
  - intros H. apply Qnot_le_lt. intros Hle. apply nge_Fin in Hle. congruence.
  - intros H. destruct (nge (Fin x) (Fin y)) eqn:E; [|reflexivity].
    apply nge_Fin in E. exfalso. exact (Qlt_not_le _ _ H E).
Qed.

(** The badge ladder on a finite growth rate. *)
Lemma badge_of_rate (absolute : Cell) (g : Q) :
  exists s,
    calculateStaffingGrowth {| absolute := absolute; percentage := CNum (Fin g) |}
    = Ok s
    /\ (badge s = "Rapid Growth" <-> 20 <= g)
    /\ (badge s = "Steady Growth" <-> 10 <= g /\ g < 20)
    /\ (badge s = "Modest Growth" <-> 0 < g /\ g < 10)
    /\ (badge s = "Stable" <-> g == 0)
    /\ (badge s = "Downsizing" <-> g < 0).
Proof.
  unfold calculateStaffingGrowth, increase. cbn [percentage ToNumber cell_toFixed].
  destruct (nge (Fin g) (Fin 20)) eqn:E20;
    [apply nge_Fin in E20 | apply nge_Fin_false in E20].
  { eexists. split; [reflexivity|]. cbn [badge].
    repeat split; intros; try discriminate; try reflexivity; try lra. }
  destruct (nge (Fin g) (Fin 10)) eqn:E10;
    [apply nge_Fin in E10 | apply nge_Fin_false in E10].
  { eexists. split; [reflexivity|]. cbn [badge].
    repeat split; intros; try discriminate; try reflexivity; try lra. }
  destruct (ngt (Fin g) (Fin 0)) eqn:E0;
    [apply ngt_Fin in E0 | apply ngt_Fin_false in E0].
  { eexists. split; [reflexivity|]. cbn [badge].
    repeat split; intros; try discriminate; try reflexivity; try lra. }
  destruct (neq (Fin g) (Fin 0)) eqn:Ez;
    [apply neq_Fin in Ez | apply neq_Fin_false in Ez].
  { eexists. split; [reflexivity|]. cbn [badge].
    repeat split; intros; try discriminate; try reflexivity; try lra. }
  eexists. split; [reflexivity|]. cbn [badge].
  repeat split; intros; try discriminate; try reflexivity; try lra.
Qed.

Lemma rate_scaled (c p : Q) : 0 < p -> (c + - p) / p * 100 * p == (c - p) * 100.
Proof. intros H. field. intros E. rewrite E in H. exact (Qlt_irrefl _ H). Qed.

(** X17.  For an organization with prior-year data and head counts [c]
    (current) and [p] (previous): with [p] positive the staffing badge is
    read off the counts by the 20 % and 10 % thresholds; with [p] zero it is
    "Rapid Growth" for any positive [c] and "Stable" otherwise. *)
Theorem staffing_badge_of_head_counts (data : CompanyValues) (c p : Q) :
  hasPreviousData data = true ->
  currentEmployeeCount data = CNum (Fin c) ->
  previousEmployeeCount data = CNum (Fin p) ->
  0 <= p ->
  exists s,
    calculateStaffingGrowth (employees (deltasOf data)) = Ok s
    /\ (0 < p ->
        (badge s = "Rapid Growth" <-> 6 * p <= 5 * c)
        /\ (badge s = "Steady Growth" <-> 11 * p <= 10 * c /\ 5 * c < 6 * p)
        /\ (badge s = "Modest Growth" <-> p < c /\ 10 * c < 11 * p)
        /\ (badge s = "Stable" <-> c == p)
        /\ (badge s = "Downsizing" <-> c < p))
    /\ (p == 0 ->
        badge s = if Qlt_le_dec 0 c then "Rapid Growth" else "Stable").
Proof.
  intros Hd Hc Hp Hp0.
  unfold deltasOf. rewrite Hd, Hc, Hp. cbn [employees].
  rewrite percentage_change_of_any_numbers.
  destruct (neq (Fin p) (Fin 0)) eqn:Ez;
    [apply neq_Fin in Ez | apply neq_Fin_false in Ez].
  - destruct (ngt (Fin c) (Fin 0)) eqn:Eg;
      [apply ngt_Fin in Eg | apply ngt_Fin_false in Eg].
    + destruct (badge_of_rate (calculateAbsoluteChange (CNum (Fin c)) (CNum (Fin p))) 100)
        as (s & Hs & H20 & _).
      exists s. split; [exact Hs|]. split.
      * intros H. rewrite Ez in H. exfalso. exact (Qlt_irrefl _ H).
      * intros _. destruct (Qlt_le_dec 0 c) as [_|H]; [|lra].
        apply H20. lra.
    + destruct (badge_of_rate (calculateAbsoluteChange (CNum (Fin c)) (CNum (Fin p))) 0)
        as (s & Hs & _ & _ & _ & H0 & _).
      exists s. split; [exact Hs|]. split.
      * intros H. rewrite Ez in H. exfalso. exact (Qlt_irrefl _ H).
      * intros _. destruct (Qlt_le_dec 0 c) as [H|_]; [lra|].
        apply H0. reflexivity.
  - assert (Hpos : 0 < p) by (apply Qle_lteq in Hp0; destruct Hp0 as [H|H];
                              [exact H | symmetry in H; contradiction]).
    unfold nsub, nneg, nadd, ndiv.
    destruct (Qeq_bool p 0) eqn:Eq0; [apply Qeq_bool_iff in Eq0; contradiction|].
    cbn [nmul].
    destruct (badge_of_rate (calculateAbsoluteChange (CNum (Fin c)) (CNum (Fin p)))
                ((c + - p) / p * 100))
      as (s & Hs & H20 & H10 & Hm & H0 & Hn).
    exists s. split; [exact Hs|]. split; [|intros; contradiction].
    intros _. pose proof (rate_scaled c p Hpos) as E.
    set (g := (c + - p) / p * 100) in *.
    assert (L : forall k, k <= g <-> k * p <= (c - p) * 100).
    { intros k. rewrite <- E. split; intros H.
      - apply Qmult_le_compat_r; [exact H | lra].
      - apply Qmult_le_r in H; assumption. }
    assert (S : forall k, g < k <-> (c - p) * 100 < k * p).
    { intros k. rewrite <- E. split; intros H.
      - apply Qmult_lt_r; assumption.
      - apply Qmult_lt_r in H; assumption. }
    assert (Z : g == 0 <-> (c - p) * 100 == 0).
    { rewrite <- E. split; intros H.
      - rewrite H. ring.
      - apply Qmult_integral in H. destruct H as [H|H]; [exact H | contradiction]. }
    assert (G : 0 < g <-> 0 * p < (c - p) * 100).
    { rewrite <- E. split; intros H.
      - apply Qmult_lt_r; assumption.
      - apply Qmult_lt_r in H; assumption. }
    split; [|split; [|split; [|split]]]; (split; intros H).
    + apply H20, L in H. lra.
    + apply H20, L. lra.
    + apply H10 in H. destruct H as [H1 H2]. apply L in H1. apply S in H2.
      split; lra.
    + apply H10. destruct H as [H1 H2]. split; [apply L | apply S]; lra.
    + apply Hm in H. destruct H as [H1 H2]. apply G in H1. apply S in H2.
      split; lra.
    + apply Hm. destruct H as [H1 H2]. split; [apply G | apply S]; lra.
    + apply H0, Z in H. lra.
    + apply H0, Z. rewrite H. ring.
    + apply Hn, S in H. lra.
    + apply Hn, S. lra.
Qed.

Lemma staffing_badge_of_head_counts_witness :
  exists s,
    calculateStaffingGrowth (employees (deltasOf Scenarios.growing)) = Ok s
    /\ badge s = "Rapid Growth".
Proof.
  destruct (staffing_badge_of_head_counts Scenarios.growing 50 40
              eq_refl eq_refl eq_refl ltac:(lra))
    as (s & Hs & H & _).
  exists s. split; [exact Hs|].
  destruct (H ltac:(lra)) as (H20 & _). apply H20. lra.
Defined.

End ControllerProps.


Module ListingProps.
Import Js DataHelper Models CompaniesController Notions NumFacts AnalyticsFacts.

Lemma lt_Qceiling (z : Z) (q : Q) : (z < Qceiling q)%Z <-> inject_Z z < q.
Proof.
  split; intros H.
  - apply Qle_lt_trans with (inject_Z (Qceiling q - 1)).
    + rewrite <- Zle_Qle. lia.
    + apply Qceiling_lt.
  - rewrite Zlt_Qlt. apply Qlt_le_trans with q; [exact H | apply Qle_ceiling].
Qed.

Lemma lt_quotient (a c l : Z) :
  (0 < l)%Z -> inject_Z a < inject_Z c / inject_Z l <-> (a * l < c)%Z.
Proof.
  intros Hl.
  assert (Hq : 0 < inject_Z l) by (change 0 with (inject_Z 0); rewrite <- Zlt_Qlt; exact Hl).
  assert (E : inject_Z c / inject_Z l * inject_Z l == inject_Z c).
  { field. intros E. rewrite E in Hq. exact (Qlt_irrefl _ Hq). }
  set (q := inject_Z c / inject_Z l) in *.
  rewrite Zlt_Qlt, inject_Z_mult, <- E. symmetry. apply Qmult_lt_r. exact Hq.
Qed.

Lemma ceil_div_of_Z (count : nat) (l : Z) :
  (0 < l)%Z ->
  ceil_div count (of_Z l) = Qceiling (inject_Z (Z.of_nat count) / inject_Z l).
Proof.
  intros Hl. unfold ceil_div, of_Z, ndiv.
  destruct (Qeq_bool (inject_Z l) 0) eqn:E; [|reflexivity].
  apply Qeq_bool_iff in E. unfold Qeq, inject_Z in E. simpl in E. lia.
Qed.

Lemma offset_of_Z (p l : Z) :
  to_nat (nmul (nsub (of_Z p) (Fin 1)) (of_Z l)) = Z.to_nat ((p - 1) * l).
Proof.
  unfold to_nat, of_Z, nsub, nneg, nadd, nmul.
  assert (E : (inject_Z p + Qopp 1) * inject_Z l == inject_Z ((p - 1) * l)).
  { unfold Qeq, inject_Z. simpl. lia. }
  rewrite (Qfloor_comp _ _ E), Qfloor_Z. reflexivity.
Qed.

(** X18.  A listing request with a valid page [p] and limit [l], on a
    backend that answers the query and whose ordering keeps every selected
    row, is answered 200 with: the number of selected rows as total (all the
    organizations when no search is given), the rows of the page, that is
    [min l (total - (p - 1) * l)] of them, a next page exactly when rows
    remain after this one, and a previous page exactly when [p > 1]. *)
Theorem listing_page (B : Backend) (q : Query) (d : Db) (p l : Z) :
  parseInt (default "1" (q_page q)) = of_Z p ->
  parseInt (default "25" (q_limit q)) = of_Z l ->
  (1 <= p)%Z -> (1 <= l <= 100)%Z ->
  fault B d FindAndCountAll = None ->
  (forall field direction rows,
     List.length (order B field direction rows) = List.length rows) ->
  exists data pagination,
    fst (getAllCompanies B q d)
    = {| status := 200; body := ListBody data pagination |}
    /\ (total pagination <= List.length (companies d))%nat
    /\ (default "" (q_search q) = "" ->
        total pagination = List.length (companies d))
    /\ List.length data
       = Nat.min (Z.to_nat l) (total pagination - Z.to_nat ((p - 1) * l))
    /\ (hasNextPage pagination = true
        <-> (p * l < Z.of_nat (total pagination))%Z)
    /\ (hasPrevPage pagination = true <-> (1 < p)%Z).
Proof.
  intros Hp Hl Hp1 Hl1 Hf Ho.
  unfold getAllCompanies. rewrite Hp, Hl.
  assert (Ep : isNaN (of_Z p) || nlt (of_Z p) (Fin 1) = false).
  { change (Fin 1) with (of_Z 1). cbn [isNaN of_Z orb].
    apply nlt_of_Z_false. lia. }
  assert (El : isNaN (of_Z l) || nlt (of_Z l) (Fin 1) || ngt (of_Z l) (Fin 100)
               = false).
  { change (Fin 1) with (of_Z 1). change (Fin 100) with (of_Z 100).
    unfold ngt. cbn [isNaN of_Z orb].
    apply orb_false_iff. split; apply nlt_of_Z_false; lia. }
  rewrite Ep, El.
  unfold Company_findAndCountAll, call. rewrite Hf. cbn [fst snd].
  eexists. eexists. split; [reflexivity|]. cbn [total hasNextPage hasPrevPage].
  split; [|split; [|split; [|split]]].
  - destruct (negb (default "" (q_search q) =? "")); [|lia].
    apply filter_length_le.
  - intros E. rewrite E. reflexivity.
  - rewrite length_map, length_firstn, length_skipn, Ho.
    rewrite to_nat_of_Z, offset_of_Z. reflexivity.
  - rewrite nlt_of_Z, ceil_div_of_Z by lia.
    rewrite lt_Qceiling. apply lt_quotient. lia.
  - unfold ngt. change (Fin 1) with (of_Z 1). apply nlt_of_Z.
Qed.

Lemma listing_page_witness :
  exists data pagination,
    fst (getAllCompanies ideal
           {| q_search := None; q_sortBy := None; q_sortOrder := None;
              q_page := Some "1"; q_limit := Some "10abc" |}
           (Scenarios.oneCompany Scenarios.growing))
    = {| status := 200; body := ListBody data pagination |}
    /\ List.length data = 1%nat
    /\ hasNextPage pagination = false.
Proof.
  destruct (listing_page ideal
              {| q_search := None; q_sortBy := None; q_sortOrder := None;
                 q_page := Some "1"; q_limit := Some "10abc" |}
              (Scenarios.oneCompany Scenarios.growing) 1 10
              eq_refl eq_refl ltac:(lia) ltac:(lia) eq_refl
              ltac:(intros; reflexivity))
    as (data & pagination & E & _ & Ht & Hn & Hnext & _).
  exists data, pagination. split; [exact E|].
  specialize (Ht eq_refl). cbn in Ht. rewrite Ht in Hn, Hnext. split.
  - exact Hn.
  - destruct (hasNextPage pagination); [|reflexivity].
    exfalso. cbn in Hnext. destruct Hnext as [Hnext _].
    specialize (Hnext eq_refl). lia.
Defined.

End ListingProps.

(* ================================================================== *)
(** ** Facts about the import endpoint *)
(* ================================================================== *)


Module ImportProps.
Import Js DataHelper Models DatasetService DatasetController MoreNotions.
Import NumFacts AnalyticsFacts.

Lemma acceptable_dec (URL : string -> bool) (rq : ImportRequest) :
  acceptable URL rq \/ ~ acceptable URL rq.
Proof.
  unfold acceptable.
  destruct (irsZipUrl rq) as [url|]; [|right; intros (u & H & _); discriminate].
  destruct (string_dec url "") as [->|Hne];
    [right; intros (u & H & Hu & _); congruence|].
  destruct (URL url) eqn:EU;
    [|right; intros (u & H & _ & Hu & _); congruence].
  destruct (maxCompanies rq) as [| |n].
  - left. exists url. auto.
  - right. intros (u & _ & _ & _ & H). exact H.
  - destruct (Z_le_gt_dec 1 n) as [Hn|Hn].
    + left. exists url. auto.
    + right. intros (u & _ & _ & _ & H). lia.
Qed.

Lemma invalid_count (n : Z) :
  isNaN (Number_ (Count n)) || nlt (Number_ (Count n)) (Fin 1) = false
  <-> (1 <= n)%Z.
Proof.
  cbn [Number_ isNaN of_Z orb]. change (Fin 1) with (of_Z 1).
  apply nlt_of_Z_false.
Qed.

Section WithWorld.

Variable B : Backend.
Variable W : World.
Variable URL : string -> bool.

(** What the handler does with a request it lets through. *)
Lemma importDataset_accepted (rq : ImportRequest) (s : State) :
  acceptable URL rq ->
  exists url,
    irsZipUrl rq = Some url
    /\ importDataset B W URL rq s
       = match processDataset B W url (argument (maxCompanies rq)) s with
         | (s', Ok stats) =>
             match errors_slice (errors stats) with
             | Ok firstErrors =>
                 (s',
                  {| status := 200;
                     body :=
                       ImportedBody "Dataset imported successfully"
                         {| s_totalFiles := totalFiles stats;
                            s_processed := processed stats;
                            s_saved := saved stats;
                            s_errors := errors stats;
                            successRate :=
                              toFixed (nmul (ndiv (of_Z (saved stats))
                                                  (of_Z (totalFiles stats)))
                                            (Fin 100)) 2 ++ "%" |}
                         firstErrors |})
             | Throw message => (s', importFailed message)
             end
         | (s', Throw message) => (s', importFailed message)
         end.
Proof.
  intros (url & Hu & Hne & HU & Hm). exists url. split; [exact Hu|].
  unfold importDataset. rewrite Hu, HU.
  destruct url as [|c url]; [congruence|]. cbn [negb].
  destruct (maxCompanies rq) as [| |n]; [reflexivity | contradiction |].
  cbn [not_undefined andb].
  rewrite (proj2 (invalid_count n) Hm). reflexivity.
Qed.

Lemma importDataset_refused (rq : ImportRequest) (s : State) :
  ~ acceptable URL rq ->
  exists message, importDataset B W URL rq s = (s, validationError message).
Proof.
  intros Hn. unfold importDataset.
  destruct (irsZipUrl rq) as [url|] eqn:Hu; [|eexists; reflexivity].
  destruct url as [|c url]; [eexists; reflexivity|].
  destruct (URL (String c url)) eqn:HU; cbn [negb]; [|eexists; reflexivity].
  destruct (maxCompanies rq) as [| |n] eqn:Hm.
  - exfalso. apply Hn. exists (String c url). rewrite Hm.
    repeat split; [exact Hu | discriminate | exact HU].
  - eexists; reflexivity.
  - cbn [not_undefined andb].
    destruct (isNaN (Number_ (Count n)) || nlt (Number_ (Count n)) (Fin 1)) eqn:E;
      [eexists; reflexivity|].
    exfalso. apply Hn. exists (String c url). rewrite Hm.
    repeat split; [exact Hu | discriminate | exact HU |].
    apply invalid_count. exact E.
Qed.

(** X19.  The import handler answers 400 exactly to a request without a
    URL, with an empty one, with one that does not parse, or with a
    [maxCompanies] that is [null] or an integer below 1; it then leaves the
    file system and the database as they are.  Every other request is
    answered 200 or 500. *)
Theorem importDataset_validates (rq : ImportRequest) (s : State) :
  (status (snd (importDataset B W URL rq s)) = 400%nat <-> ~ acceptable URL rq)
  /\ (~ acceptable URL rq -> fst (importDataset B W URL rq s) = s)
  /\ (acceptable URL rq ->
      status (snd (importDataset B W URL rq s)) = 200%nat
      \/ status (snd (importDataset B W URL rq s)) = 500%nat).
Proof.
  assert (Hacc : acceptable URL rq ->
                 status (snd (importDataset B W URL rq s)) = 200%nat
                 \/ status (snd (importDataset B W URL rq s)) = 500%nat).
  { intros Ha. destruct (importDataset_accepted rq s Ha) as (url & _ & ->).
    destruct (processDataset B W url (argument (maxCompanies rq)) s)
      as [s' [stats|message]]; [|right; reflexivity].
    destruct (errors_slice (errors stats)); [left | right]; reflexivity. }
  split; [split|split].
  - intros H Ha. destruct (Hacc Ha) as [E|E]; rewrite E in H; discriminate.
  - intros Hn. destruct (importDataset_refused rq s Hn) as (m & ->). reflexivity.
  - intros Hn. destruct (importDataset_refused rq s Hn) as (m & ->). reflexivity.
  - exact Hacc.
Qed.

(** X20.  When the archive is fetched and expanded but holds no XML
    document, an accepted request is answered 200 with all counters at 0, no
    error, and the success rate "NaN%". *)
Theorem importDataset_of_empty_archive (rq : ImportRequest) (s : State) :
  acceptable URL rq ->
  (forall url, download W url = None) ->
  extract W (archivePath W) = None ->
  getXmlFiles W (workingDirectory W) = Ok [] ->
  snd (importDataset B W URL rq s)
  = {| status := 200;
       body :=
         ImportedBody "Dataset imported successfully"
           {| s_totalFiles := 0; s_processed := 0; s_saved := 0;
              s_errors := ErrList []; successRate := "NaN%" |}
           [] |}.
Proof.
  intros Ha Hd He Hx.
  destruct (importDataset_accepted rq s Ha) as (url & _ & ->).
  unfold processDataset. rewrite Hd, He, Hx.
  assert (E : filesToProcess (argument (maxCompanies rq)) [] = []).
  { unfold filesToProcess, slice0.
    destruct (argument (maxCompanies rq)) as [m|]; [|reflexivity].
    destruct (truthy_max (Some m)); [|reflexivity].
    destruct (m <? 0)%Z; apply firstn_nil. }
  rewrite E. reflexivity.
Qed.

End WithWorld.

Lemma importDataset_validates_witness :
  status (snd (importDataset ideal emptyArchive (fun _ => true)
                 {| irsZipUrl := Some Scenarios.url; maxCompanies := Count 0 |}
                 Scenarios.start)) = 400%nat
  /\ fst (importDataset ideal emptyArchive (fun _ => true)
            {| irsZipUrl := Some Scenarios.url; maxCompanies := Null |}
            Scenarios.start) = Scenarios.start.
Proof.
  split.
  - apply (importDataset_validates ideal emptyArchive (fun _ => true)).
    intros (u & _ & _ & _ & H). cbn in H. lia.
  - apply (importDataset_validates ideal emptyArchive (fun _ => true)).
    intros (u & _ & _ & _ & H). exact H.
Defined.

Lemma importDataset_of_empty_archive_witness :
  snd (importDataset ideal emptyArchive (fun _ => true)
         {| irsZipUrl := Some Scenarios.url; maxCompanies := Count 5 |}
         Scenarios.start)
  = {| status := 200;
       body :=
         ImportedBody "Dataset imported successfully"
           {| s_totalFiles := 0; s_processed := 0; s_saved := 0;
              s_errors := ErrList []; successRate := "NaN%" |}
           [] |}.
Proof.
  apply (importDataset_of_empty_archive ideal emptyArchive (fun _ => true)).
  - exists Scenarios.url. cbn. repeat split; [discriminate | lia].
  - reflexivity.
  - reflexivity.
  - reflexivity.
Defined.

End ImportProps.

(* ================================================================== *)
(** ** Facts about the guards *)
(* ================================================================== *)


Module GuardProps.
Import Js Models DatasetService Middleware DatasetRoutes MoreNotions.

Lemma present_Some (v : option string) :
  present v = true <-> exists s, v = Some s /\ s <> "".
Proof.
  unfold present. destruct v as [s|].
  - destruct (String.eqb_spec s ""); cbn [negb]; split.
    + discriminate.
    + intros (s' & [= ->] & H). contradiction.
    + intros _. exists s. auto.
    + reflexivity.
  - split; [discriminate | intros (s & H & _); discriminate].
Qed.

Section WithWorld.

Variable B : Backend.
Variable W : World.
Variable URL : string -> bool.
Variable verifyToken : string -> Result (option User).
Variable secretKey : string.

(** X21.  Of the requests that reach its router, the import route runs the
    handler exactly for a request within the rate limit (no more than three
    import requests of the client in the window, this one included) that
    carries the secret key or, when it carries no key, the session of an
    administrator.  Beyond the limit every request is refused with 429,
    whoever sends it.  Within the limit any other request is refused with
    401, 403 or 500, and a request with a wrong key with 403 whatever
    session comes with it.  A refused request changes neither the file
    system nor the database. *)
Theorem post_is_guarded (hits : nat) (req : Req)
    (rq : DatasetController.ImportRequest) (s : State) :
  ((3 <= hits)%nat ->
   post B W URL verifyToken secretKey hits req rq s
   = (s, Refused {| status := 429; error := "Too many import requests";
                    message :=
                      "Dataset import limit reached, please try again later." |}))
  /\ ((hits < 3)%nat ->
      authorized verifyToken secretKey req ->
      post B W URL verifyToken secretKey hits req rq s
      = (fst (DatasetController.importDataset B W URL rq s),
         Handled (snd (DatasetController.importDataset B W URL rq s))))
  /\ ((hits < 3)%nat ->
      ~ authorized verifyToken secretKey req ->
      exists r,
        post B W URL verifyToken secretKey hits req rq s = (s, Refused r)
        /\ In (status r) [401%nat; 403%nat; 500%nat]
        /\ (present (apiKey req) = true -> status r = 403%nat)).
Proof.
  unfold post, datasetLimiter, rateLimit.
  destruct (3 <? S hits)%nat eqn:El.
  { apply Nat.ltb_lt in El. split; [reflexivity|].
    split; intros Hl; exfalso; lia. }
  apply Nat.ltb_ge in El. split; [intros Hl; exfalso; lia|].
  cut ((authorized verifyToken secretKey req ->
        match identify verifyToken secretKey req with
        | Respond r => (s, Refused r)
        | Next req1 =>
            match checkRole req1 with
            | Respond r => (s, Refused r)
            | Next _ =>
                let (s', r) := DatasetController.importDataset B W URL rq s in
                (s', Handled r)
            end
        end
        = (fst (DatasetController.importDataset B W URL rq s),
           Handled (snd (DatasetController.importDataset B W URL rq s))))
       /\ (~ authorized verifyToken secretKey req ->
           exists r,
             match identify verifyToken secretKey req with
             | Respond r => (s, Refused r)
             | Next req1 =>
                 match checkRole req1 with
                 | Respond r => (s, Refused r)
                 | Next _ =>
                     let (s', r) :=
                       DatasetController.importDataset B W URL rq s in
                     (s', Handled r)
                 end
             end = (s, Refused r)
             /\ In (status r) [401%nat; 403%nat; 500%nat]
             /\ (present (apiKey req) = true -> status r = 403%nat))).
  { intros [H1 H2]. split; intros _; assumption. }
  unfold authorized, identify, checkRole.
  destruct (present (apiKey req)) eqn:Ek.
  - apply present_Some in Ek as Ek'. destruct Ek' as (k & Hk & Hne).
    unfold validateApiKey. rewrite Hk. rewrite <- Hk, Ek. cbn [negb].
    split.
    + intros Ha. rewrite Hk in Ha. injection Ha as ->.
      rewrite String.eqb_refl. cbn [negb]. rewrite Ek.
      destruct (DatasetController.importDataset B W URL rq s). reflexivity.
    + intros Hn. destruct (String.eqb_spec k secretKey) as [->|Hd];
        [contradiction|]. cbn [negb].
      eexists. split; [reflexivity|]. cbn [status]. split; [|reflexivity].
      right; left; reflexivity.
  - unfold authenticate.
    destruct (token req) as [t|] eqn:Et.
    + destruct (present (Some t)) eqn:Ep; cbn [negb].
      * apply present_Some in Ep. destruct Ep as (t' & [= <-] & Hne).
        destruct (verifyToken t) as [[u|]|m] eqn:Ev.
        -- cbn [apiKey]. rewrite Ek. unfold authorize. cbn [user].
           cbn [existsb]. rewrite orb_false_r.
           destruct (String.eqb_spec (role u) "admin") as [Hr|Hr]; cbn [negb].
           ++ split.
              ** intros _.
                 destruct (DatasetController.importDataset B W URL rq s).
                 reflexivity.
              ** intros Hn. exfalso. apply Hn. exists t, u. auto.
           ++ split.
              ** intros (t' & u' & [= <-] & _ & Hv & Hr').
                 rewrite Ev in Hv. injection Hv as <-. contradiction.
              ** intros _. eexists. split; [reflexivity|]. cbn [status].
                 split; [right; left; reflexivity | discriminate].
        -- split.
           ++ intros (t' & u' & [= <-] & _ & Hv & _). congruence.
           ++ intros _. eexists. split; [reflexivity|]. cbn [status].
              split; [left; reflexivity | discriminate].
        -- split.
           ++ intros (t' & u' & [= <-] & _ & Hv & _). congruence.
           ++ intros _. eexists. split; [reflexivity|]. cbn [status].
              split; [right; right; left; reflexivity | discriminate].
      * split.
        -- intros (t' & u' & [= <-] & Hne & _).
           assert (present (Some t) = true)
             by (apply present_Some; exists t; auto).
           congruence.
        -- intros _. eexists. split; [reflexivity|]. cbn [status].
           split; [left; reflexivity | discriminate].
    + split.
      * intros (t' & u' & H & _). discriminate.
      * intros _. eexists. split; [reflexivity|]. cbn [status].
        split; [left; reflexivity | discriminate].
Qed.

End WithWorld.

Lemma post_is_guarded_witness :
  (exists r,
     post ideal emptyArchive (fun _ => true) sessions "dev_secret_key_12345" 0
       {| apiKey := Some "guess"; token := Some "admin-session"; user := None |}
       {| DatasetController.irsZipUrl := Some Scenarios.url;
          DatasetController.maxCompanies := DatasetController.Absent |}
       Scenarios.start
     = (Scenarios.start, Refused r)
     /\ status r = 403%nat)
  /\ (exists r,
        post ideal emptyArchive (fun _ => true) sessions "dev_secret_key_12345" 3
          {| apiKey := Some "dev_secret_key_12345"; token := None;
             user := None |}
          {| DatasetController.irsZipUrl := Some Scenarios.url;
             DatasetController.maxCompanies := DatasetController.Absent |}
          Scenarios.start
        = (Scenarios.start, Refused r)
        /\ status r = 429%nat).
Proof.
  split.
  - destruct (post_is_guarded ideal emptyArchive (fun _ => true) sessions
                "dev_secret_key_12345" 0
                {| apiKey := Some "guess"; token := Some "admin-session";
                   user := None |}
                {| DatasetController.irsZipUrl := Some Scenarios.url;
                   DatasetController.maxCompanies := DatasetController.Absent |}
                Scenarios.start) as (_ & _ & H).
    destruct H as (r & E & _ & Hs).
    + lia.
    + unfold authorized. cbn. discriminate.
    + exists r. split; [exact E | apply Hs; reflexivity].
  - destruct (post_is_guarded ideal emptyArchive (fun _ => true) sessions
                "dev_secret_key_12345" 3
                {| apiKey := Some "dev_secret_key_12345"; token := None;
                   user := None |}
                {| DatasetController.irsZipUrl := Some Scenarios.url;
                   DatasetController.maxCompanies := DatasetController.Absent |}
                Scenarios.start) as (H & _).
    eexists. split; [apply H; lia | reflexivity].
Defined.

End GuardProps.


Module FrontendProps.
Import Middleware FrontendMiddleware.

(** X22.  The routing middleware of the frontend serves a path that starts
    with "/dashboard" only to a request with a token, and a redirection
    never leads to a path it redirects again. *)
Theorem middleware_settles (pathname : string) (authToken : option string) :
  (middleware pathname authToken = next ->
   startsWith pathname "/dashboard" = true -> present authToken = true)
  /\ (forall target,
        middleware pathname authToken = redirect target ->
        middleware target authToken = next).
Proof.
  unfold middleware, protectedPaths. cbn [existsb]. rewrite !orb_false_r.
  destruct (startsWith pathname "/dashboard") eqn:Ed;
    destruct (present authToken) eqn:Ep; cbn [andb negb].
  - split; [reflexivity|].
    intros target.
    destruct ((pathname =? "/login") || (pathname =? "/register"));
      cbn [andb]; [|discriminate].
    intros [= <-]. reflexivity.
  - split; [discriminate|]. intros target [= <-]. reflexivity.
  - split; [discriminate|].
    intros target.
    destruct ((pathname =? "/login") || (pathname =? "/register"));
      cbn [andb]; [|discriminate].
    intros [= <-]. reflexivity.
  - split; [discriminate|]. intros target.
    rewrite andb_false_r. discriminate.
Qed.

Lemma middleware_settles_witness :
  middleware "/login" (Some "t") = redirect "/dashboard"
  /\ middleware "/dashboard" (Some "t") = next.
Proof.
  split; [reflexivity|].
  apply (middleware_settles "/login" (Some "t")). reflexivity.
Defined.

End FrontendProps.

(* ================================================================== *)
(** ** Facts about the display of a change *)
(* ================================================================== *)


Module DisplayProps.
Import DeltaDisplay.
Import Js DataHelper Models CompaniesController Notions MoreNotions.
Import NumFacts AnalyticsFacts.





Section WithIntl.

Variable formatCurrency : num -> string.
Variable formatNumber : num -> string.



End WithIntl.


End DisplayProps.

(* ================================================================== *)
(** ** Facts about the accounts *)
(* ================================================================== *)


Module AccountProps.
Import Js Models Middleware UserModel MoreNotions.

Lemma authenticate_session (verifyToken : string -> Result (option User))
    (req : Req) :
  match session verifyToken req with
  | Some u =>
      authenticate verifyToken req
      = Next {| apiKey := apiKey req; token := token req; user := Some u |}
  | None => exists r, authenticate verifyToken req = Respond r
  end.
Proof.
  unfold session, authenticate, given, present.
  destruct (token req) as [t|]; [|eexists; reflexivity].
  destruct (t =? ""); cbn [negb]; [eexists; reflexivity|].
  destruct (verifyToken t) as [[u|]|m]; [reflexivity | |]; eexists; reflexivity.
Qed.

Lemma map_standing_update (pk : Z) (data : UpdateData) (rows : list UserRow) :
  d_role data = None -> d_isActive data = None ->
  map standing
    (map (fun r => if (id r =? pk)%Z
                   then Build_Row (id r) (set data (values r)) else r) rows)
  = map standing rows.
Proof.
  intros Hr Ha. rewrite map_map. apply map_ext. intros r.
  destruct (id r =? pk)%Z; [|reflexivity].
  unfold standing, set. cbn [id values u_role isActive u_password].
  rewrite Hr, Ha. reflexivity.
Qed.

Lemma filter_update_others (pk : Z) (f : UserRow -> UserRow)
    (rows : list UserRow) :
  (forall r, id (f r) = id r) ->
  filter (fun r => negb (id r =? pk)%Z)
    (map (fun r => if (id r =? pk)%Z then f r else r) rows)
  = filter (fun r => negb (id r =? pk)%Z) rows.
Proof.
  intros Hf. induction rows as [|r rows IH]; [reflexivity|].
  cbn [map filter]. destruct (id r =? pk)%Z eqn:E.
  - rewrite Hf, E. cbn [negb]. exact IH.
  - rewrite E. cbn [negb]. rewrite IH. reflexivity.
Qed.

Lemma find_some_id (pk : num) (rows : list UserRow) (row : UserRow) :
  find (fun r => neq (of_Z (id r)) pk) rows = Some row ->
  neq (of_Z (id row)) pk = true.
Proof. intros H. apply find_some in H. tauto. Qed.

Lemma neq_of_Z (a b : Z) (n : num) :
  neq (of_Z a) n = true -> neq (of_Z b) n = true -> a = b.
Proof.
  unfold neq, of_Z. destruct n as [q| | |]; try discriminate.
  intros Ha Hb. apply Qeq_bool_iff in Ha, Hb.
  rewrite <- Hb in Ha. unfold Qeq, inject_Z in Ha. cbn in Ha. lia.
Qed.

Section WithBackend.

Variable B : UserBackend.
Variable verifyToken : string -> Result (option User).

Import UsersRoutes.

(** X25.  Through a session that is not an administrator's, the profile
    route answers 403 for every id but the one of the session, and a profile
    it returns is the one of the session's user, as a row of the table holds
    it; without a session the request is refused. *)
Theorem get_own_profile_only (req : Req) (id : string) (d : UserDb) :
  (session verifyToken req = None ->
   exists r, get_id B verifyToken req id d = Refused r)
  /\ (forall u,
        session verifyToken req = Some u -> role u <> "admin" ->
        (neq (of_Z (user_id u)) (parseInt id) = false ->
         get_id B verifyToken req id d
         = Handled {| status := 403;
                      body := ErrorBody "Access denied"
                                "You can only view your own profile" |})
        /\ (forall p,
              get_id B verifyToken req id d
              = Handled {| status := 200; body := UserBody p |} ->
              p_id p = user_id u
              /\ exists row, In row (users d) /\ p = profile row)).
Proof.
  unfold get_id.
  pose proof (authenticate_session verifyToken req) as Ha.
  destruct (session verifyToken req) as [u|] eqn:Es.
  - split; [discriminate|]. intros u' [= <-] Hrole. rewrite Ha.
    unfold getUser. cbn [user].
    destruct (String.eqb_spec (role u) "admin") as [|_]; [contradiction|].
    cbn [negb andb].
    destruct (neq (of_Z (user_id u)) (parseInt id)) eqn:Eown; cbn [negb].
    + split; [discriminate|]. intros p.
      unfold findByPk.
      destruct (rejects B d (FindByPk (parseInt id))); [discriminate|].
      destruct (find (fun r => neq (of_Z (Models.id r)) (parseInt id)) (users d))
        as [row|] eqn:Ef; [|discriminate].
      intros [= <-]. apply find_some in Ef. destruct Ef as [Hin Hid].
      split; [|exists row; auto].
      cbn [profile p_id]. exact (neq_of_Z _ _ _ Hid Eown).
    + split; [reflexivity | discriminate].
  - split; [|discriminate]. intros _. destruct Ha as (r & ->).
    exists r. reflexivity.
Qed.

(** X26.  An update through a session that is not an administrator's
    changes the id, role, activation and password of no user, and changes
    nothing at all of the users other than the one of the session; without a
    session it changes nothing. *)
Theorem put_by_member (req : Req) (id : string) (rq : UpdateBody)
    (d d' : UserDb) (a : Answer) :
  (forall u, session verifyToken req = Some u -> role u <> "admin") ->
  put_id B verifyToken req id rq d = (d', a) ->
  map standing (users d') = map standing (users d)
  /\ nextUserId d' = nextUserId d
  /\ (forall u,
        session verifyToken req = Some u ->
        filter (fun r => negb (Models.id r =? user_id u)%Z) (users d')
        = filter (fun r => negb (Models.id r =? user_id u)%Z) (users d))
  /\ (session verifyToken req = None -> d' = d).
Proof.
  intros Hrole. unfold put_id.
  pose proof (authenticate_session verifyToken req) as Ha.
  destruct (session verifyToken req) as [u|] eqn:Es.
  - rewrite Ha. specialize (Hrole u eq_refl).
    unfold putUser. cbn [user].
    destruct (String.eqb_spec (role u) "admin") as [|_]; [contradiction|].
    cbn [negb andb].
    destruct (neq (of_Z (user_id u)) (parseInt id)) eqn:Eown; cbn [negb].
    + unfold findByPk at 1.
      destruct (rejects B d (FindByPk (parseInt id))); [intros [= <- <-]; auto|].
      destruct (find (fun r => neq (of_Z (Models.id r)) (parseInt id)) (users d))
        as [row|] eqn:Ef; [|intros [= <- <-]; auto].
      apply find_some_id in Ef.
      pose proof (neq_of_Z _ _ _ Ef Eown) as Eid.
      unfold update.
      destruct (rejects B d (Update (Models.id row) _)); [intros [= <- <-]; auto|].
      match goal with
      | |- context [findByPk B ?k ?x] => destruct (findByPk B k x)
      end; intros [= <- <-]; cbn [users nextUserId].
      * split; [apply map_standing_update; reflexivity|].
        split; [reflexivity|]. split; [|discriminate].
        intros u' [= <-]. rewrite Eid.
        apply filter_update_others. reflexivity.
      * split; [apply map_standing_update; reflexivity|].
        split; [reflexivity|]. split; [|discriminate].
        intros u' [= <-]. rewrite Eid.
        apply filter_update_others. reflexivity.
    + intros [= <- <-]. auto.
  - destruct Ha as (r & ->). intros [= <- <-]. auto.
Qed.

(** X27.  The removal route removes rows only, never the row of the user
    of the session, and nothing at all without the session of an
    administrator or when its answer is not 200. *)
Theorem delete_spares_requester (req : Req) (id : string) (d d' : UserDb)
    (a : Answer) :
  delete_id B verifyToken req id d = (d', a) ->
  (forall r, In r (users d') -> In r (users d))
  /\ (forall u r,
        session verifyToken req = Some u ->
        In r (users d) -> Models.id r = user_id u -> In r (users d'))
  /\ ((forall u, session verifyToken req = Some u -> role u <> "admin") ->
      d' = d)
  /\ ((forall r, a = Handled r -> status r <> 200%nat) -> d' = d).
Proof.
  unfold delete_id.
  pose proof (authenticate_session verifyToken req) as Ha.
  destruct (session verifyToken req) as [u|] eqn:Es.
  - rewrite Ha. unfold authorize. cbn [user existsb]. rewrite orb_false_r.
    destruct (String.eqb_spec (role u) "admin") as [Hadm|Hn]; cbn [negb].
    + unfold deleteUser. cbn [user].
      destruct (neq (of_Z (user_id u)) (parseInt id)) eqn:Eown.
      { intros [= <- <-]. repeat split; auto. }
      unfold findByPk.
      destruct (rejects B d (FindByPk (parseInt id)));
        [intros [= <- <-]; repeat split; auto|].
      destruct (find (fun r => neq (of_Z (Models.id r)) (parseInt id)) (users d))
        as [row|] eqn:Ef; [|intros [= <- <-]; repeat split; auto].
      apply find_some_id in Ef.
      unfold destroy.
      destruct (rejects B d (Destroy (Models.id row)));
        [intros [= <- <-]; repeat split; auto|].
      intros [= <- <-]. cbn [users]. split; [|split; [|split]].
      * intros r Hr. apply filter_In in Hr. tauto.
      * intros u' r [= <-] Hr Hid. apply filter_In. split; [exact Hr|].
        destruct (Z.eqb_spec (Models.id r) (Models.id row)) as [E|E];
          [|reflexivity].
        exfalso. rewrite <- E, Hid in Ef. congruence.
      * intros H. exfalso. exact (H u eq_refl Hadm).
      * intros H. exfalso. exact (H _ eq_refl eq_refl).
    + intros [= <- <-]. repeat split; auto.
  - destruct Ha as (r & ->). intros [= <- <-]. repeat split; auto.
Qed.

End WithBackend.

Section WithHelpers.

Variable B : UserBackend.
Variable hashPassword : string -> Result string.
Variable comparePassword : string -> string -> Result bool.
Variable generateToken : User -> Result string.

Import AuthController.

(** X28.  A login is answered 200, and only then with a token, for no
    other request than one that names the email of an active account, found
    by the lookup, and a password the stored hash accepts; for a disabled
    account the answer is 403 whatever the password. *)
Theorem login_needs_active_account (rq : LoginBody) (d : UserDb) :
  (status (login B comparePassword generateToken rq d) = 200%nat
   <-> cookie (login B comparePassword generateToken rq d) <> None)
  /\ (status (login B comparePassword generateToken rq d) = 200%nat ->
      exists email password row,
        l_email rq = Some email /\ l_password rq = Some password
        /\ In row (users d)
        /\ equal B (u_email (values row)) email = true
        /\ isActive (values row) = true
        /\ comparePassword password (u_password (values row)) = Ok true
        /\ body (login B comparePassword generateToken rq d)
           = SessionBody "Login successful" (payload row))
  /\ (forall email password row,
        given (l_email rq) = Some email ->
        given (l_password rq) = Some password ->
        findOne B email None d = Ok (Some row) ->
        isActive (values row) = false ->
        status (login B comparePassword generateToken rq d) = 403%nat).
Proof.
  unfold login.
  assert (Hg : forall v s, given v = Some s -> v = Some s).
  { intros [x|] s; unfold given; [|discriminate].
    destruct (x =? ""); [discriminate|]. intros [= ->]. reflexivity. }
  destruct (given (l_email rq)) as [email|] eqn:Ee;
    [|cbn; repeat split; try discriminate; try congruence].
  destruct (given (l_password rq)) as [password|] eqn:Ep;
    [|cbn; repeat split; try discriminate; try congruence].
  destruct (findOne B email None d) as [[row|]|m] eqn:Ef;
    [| cbn; repeat split; try discriminate; try congruence
     | cbn; repeat split; try discriminate; try congruence].
  destruct (isActive (values row)) eqn:Ea; cbn [negb].
  - destruct (comparePassword password (u_password (values row)))
      as [[|]|m] eqn:Ec;
      [| cbn; repeat split; try discriminate; try congruence
       | cbn; repeat split; try discriminate; try congruence].
    destruct (generateToken (payload row)) as [t|m];
      [| cbn; repeat split; try discriminate; try congruence].
    cbn [status cookie body]. split; [split; [discriminate | reflexivity]|].
    split.
    + intros _. exists email, password, row.
      unfold findOne in Ef. destruct (rejects B d (FindOne email None));
        [discriminate|]. injection Ef as Ef. apply find_some in Ef.
      destruct Ef as [Hin Heq]. rewrite orb_false_r in Heq.
      repeat split; auto.
    + intros e p r [= <-] [= <-] Hf Hact. rewrite Ef in Hf.
      injection Hf as <-. congruence.
  - cbn [status cookie body failure]. split; [split; [discriminate | congruence]|].
    split; [discriminate|]. reflexivity.
Qed.

(** X29.  A registration leaves the accounts as they are or adds one,
    active, under the next id, with the role the request names ("user" when
    it names none or an empty one); it answers 201 exactly when it sets a
    token, and only when it added the account. *)
Theorem register_adds_one_account (rq : RegisterBody) (d d' : UserDb)
    (r : Response) :
  register B hashPassword generateToken rq d = (d', r) ->
  (d' = d
   \/ exists row,
        users d' = (users d ++ [row])%list
        /\ nextUserId d' = (nextUserId d + 1)%Z
        /\ id row = nextUserId d
        /\ isActive (values row) = true
        /\ u_role (values row)
           = match given (r_role rq) with Some role => role | None => "user" end
        /\ hashPassword (match r_password rq with Some p => p | None => "" end)
           = Ok (u_password (values row))
        /\ (status r = 201%nat ->
            body r = SessionBody "User registered successfully" (payload row)))
  /\ (status r = 201%nat -> d' <> d /\ cookie r <> None)
  /\ (cookie r <> None -> status r = 201%nat).
Proof.
  unfold register.
  assert (Hg : forall v s, given v = Some s -> v = Some s).
  { intros [x|] s; unfold given; [|discriminate].
    destruct (x =? ""); [discriminate|]. intros [= ->]. reflexivity. }
  assert (Hneq : forall row, {| users := (users d ++ [row])%list;
                               nextUserId := nextUserId d + 1 |} <> d).
  { intros row E. apply (f_equal nextUserId) in E. cbn in E. lia. }
  destruct (given (r_username rq)) as [username|] eqn:Eu;
    [|intros [= <- <-]; cbn; repeat split; auto; try discriminate; congruence].
  destruct (given (r_email rq)) as [email|] eqn:Ee;
    [|intros [= <- <-]; cbn; repeat split; auto; try discriminate; congruence].
  destruct (given (r_password rq)) as [password|] eqn:Ep;
    [|intros [= <- <-]; cbn; repeat split; auto; try discriminate; congruence].
  destruct (findOne B email (Some username) d) as [[existing|]|m];
    [intros [= <- <-]; cbn; repeat split; auto; try discriminate; congruence | |
     intros [= <- <-]; cbn; repeat split; auto; try discriminate; congruence].
  destruct (hashPassword password) as [hashedPassword|m] eqn:Eh;
    [|intros [= <- <-]; cbn; repeat split; auto; try discriminate; congruence].
  unfold create.
  destruct (rejects B d (Create _));
    [intros [= <- <-]; cbn; repeat split; auto; try discriminate; congruence|].
  rewrite (Hg _ _ Ep).
  destruct (generateToken _) as [t|m]; intros [= <- <-]; cbn [status cookie body failure].
  - split; [right; eexists; cbn [users nextUserId id values isActive u_role u_password];
            repeat split; [exact Eh]|].
    split; [intros _; split; [apply Hneq | discriminate]|]. reflexivity.
  - split; [right; eexists; cbn [users nextUserId id values isActive u_role u_password];
            repeat split; [exact Eh | discriminate]|].
    split; [discriminate | congruence].
Qed.

End WithHelpers.

Lemma get_own_profile_only_witness :
  UsersRoutes.get_id plain sessions
    {| apiKey := None; token := Some "member-session"; user := None |}
    "1" staff
  = UsersRoutes.Handled
      {| UsersRoutes.status := 403;
         UsersRoutes.body :=
           UsersRoutes.ErrorBody "Access denied"
             "You can only view your own profile" |}.
Proof.
  refine (proj1 (proj2 (get_own_profile_only plain sessions
                          {| apiKey := None; token := Some "member-session";
                             user := None |}
                          "1" staff) _ eq_refl _) eq_refl).
  discriminate.
Defined.

Lemma put_by_member_witness :
  map standing
    (users (fst (UsersRoutes.put_id plain sessions
                   {| apiKey := None; token := Some "member-session";
                      user := None |}
                   "2"
                   {| UsersRoutes.b_username := Some "renamed";
                      UsersRoutes.b_email := None;
                      UsersRoutes.b_role := Some "admin";
                      UsersRoutes.b_isActive := None |}
                   staff)))
  = map standing (users staff).
Proof.
  refine (proj1 (put_by_member plain sessions
                   {| apiKey := None; token := Some "member-session";
                      user := None |}
                   "2"
                   {| UsersRoutes.b_username := Some "renamed";
                      UsersRoutes.b_email := None;
                      UsersRoutes.b_role := Some "admin";
                      UsersRoutes.b_isActive := None |}
                   staff _ _ _ (surjective_pairing _))).
  intros u [= <-]. discriminate.
Defined.

Lemma delete_spares_requester_witness :
  In root
    (users (fst (UsersRoutes.delete_id plain sessions
                   {| apiKey := None; token := Some "admin-session";
                      user := None |}
                   "1" staff))).
Proof.
  refine (proj1 (proj2 (delete_spares_requester plain sessions
                          {| apiKey := None; token := Some "admin-session";
                             user := None |}
                          "1" staff _ _ (surjective_pairing _)))
            _ root eq_refl _ eq_refl).
  left. reflexivity.
Defined.

Lemma login_needs_active_account_witness :
  AuthController.status
    (AuthController.login plain comparing signing
       {| AuthController.l_email := Some "former@example.org";
          AuthController.l_password := Some "0ldPassw" |}
       staff) = 403%nat.
Proof.
  refine (proj2 (proj2 (login_needs_active_account plain comparing signing
                          {| AuthController.l_email := Some "former@example.org";
                             AuthController.l_password := Some "0ldPassw" |}
                          staff))
            "former@example.org" "0ldPassw" _ eq_refl eq_refl eq_refl eq_refl).
Defined.

Lemma register_adds_one_account_witness :
  exists row,
    users (fst (AuthController.register plain hashing signing
                  {| AuthController.r_username := Some "eve";
                     AuthController.r_email := Some "eve@example.org";
                     AuthController.r_password := Some "Passw0rd1";
                     AuthController.r_role := Some "admin" |}
                  staff))
    = (users staff ++ [row])%list
    /\ u_role (values row) = "admin".
Proof.
  destruct (register_adds_one_account plain hashing signing
              {| AuthController.r_username := Some "eve";
                 AuthController.r_email := Some "eve@example.org";
                 AuthController.r_password := Some "Passw0rd1";
                 AuthController.r_role := Some "admin" |}
              staff _ _ (surjective_pairing _)) as ([Hsame|Hrow] & Hcreated & _).
  - exfalso. exact (proj1 (Hcreated eq_refl) Hsame).
  - destruct Hrow as (row & Hu & _ & _ & _ & Hr & _).
    exists row. split; [exact Hu | exact Hr].
Defined.

End AccountProps.
